(** * Course planner agent: a shallow embedding of [course_planner/run_agent.py]

    The development follows the script top to bottom: the Python values the
    remote client exchanges with the script, the [ComposioWrapper.execute_tool]
    adapter, the lesson segmenter [parse_lessons], the directory sweep that
    locates the downloaded syllabus, and the two per-lesson loops of [main]
    that write the rows and schedule the events.  The other phases of [main]
    follow: finding and downloading the file, resolving its path on disk,
    going from the extracted text to the writes, and linking the accounts.

    Text is modelled with [string]; a character is a code point below 256, so
    the character classes below are Python's restricted to that range. *)

From Stdlib Require Import ZArith List String Ascii Bool Lia DecimalString.
Import ListNotations.

Set Warnings "-register-all".

Open Scope string_scope.
Open Scope Z_scope.

(* ================================================================== *)
(** * Python values *)
(* ================================================================== *)

(** The values that flow through the script.  A [VDict] is a mapping with
    string keys kept in insertion order; a [VObj] is any non-mapping object,
    described by its instance attributes.  A [VUnreadable] is an object whose
    facets [successful], [data] and [error] cannot be read: one of them is a
    property that raises, or its [data] attribute raises when tested for
    truth.  What is raised is an exception derived from [Exception], a
    [TypeError] when [type_error] is set, with the given [str(e)] and
    traceback text; in every other respect it is an ordinary object. *)
Inductive PyVal : Type :=
| VNone
| VBool (b : bool)
| VInt (z : Z)
| VStr (s : string)
| VList (items : list PyVal)
| VDict (entries : list (string * PyVal))
| VObj (attrs : list (string * PyVal))
| VUnreadable (type_error : bool) (message : string) (trace : string).

(** Truth value testing, as [not x], [x or y] and [if x:] use it. *)
Definition truthy (v : PyVal) : bool :=
  match v with
  | VNone => false
  | VBool b => b
  | VInt z => negb (z =? 0)
  | VStr s => negb (String.eqb s "")
  | VList l => match l with [] => false | _ => true end
  | VDict d => match d with [] => false | _ => true end
  | VObj _ => true
  | VUnreadable _ _ _ => true
  end.

(** [x or y]. *)
Definition py_or (x y : PyVal) : PyVal := if truthy x then x else y.

Fixpoint assoc (k : string) (d : list (string * PyVal)) : option PyVal :=
  match d with
  | [] => None
  | (k', v) :: d' => if String.eqb k k' then Some v else assoc k d'
  end.

(** [d.get(key, default)] on a mapping. *)
Definition dict_get (d : list (string * PyVal)) (key : string) (default : PyVal) : PyVal :=
  match assoc key d with Some v => v | None => default end.

(** [getattr(v, name, default)] where the read does not raise: none of the
    built-in values carries an attribute the script asks for, so only objects
    answer. *)
Definition getattr (v : PyVal) (name : string) (default : PyVal) : PyVal :=
  match v with
  | VObj attrs => match assoc name attrs with Some a => a | None => default end
  | _ => default
  end.

(** [hasattr(v, name)]. *)
Definition hasattr (v : PyVal) (name : string) : bool :=
  match v with
  | VObj attrs => match assoc name attrs with Some _ => true | None => false end
  | _ => false
  end.

(** [v[key]] on a value known to be a mapping holding [key]; [VNone] stands
    for the [KeyError] no caller in the script can trigger. *)
Definition subscript (v : PyVal) (key : string) : PyVal :=
  match v with
  | VDict d => dict_get d key VNone
  | _ => VNone
  end.

(** The keys of a mapping, in order. *)
Definition dict_keys (v : PyVal) : list string :=
  match v with
  | VDict d => map fst d
  | _ => []
  end.

(** [type(v).__name__], as the messages of the built-in exceptions quote it.
    The model does not keep the class of an object; [object] stands for it. *)
Definition type_name (v : PyVal) : string :=
  match v with
  | VNone => "NoneType"
  | VBool _ => "bool"
  | VInt _ => "int"
  | VStr _ => "str"
  | VList _ => "list"
  | VDict _ => "dict"
  | VObj _ | VUnreadable _ _ _ => "object"
  end.

(* ================================================================== *)
(** * Strings *)
(* ================================================================== *)

Definition code (c : ascii) : nat := nat_of_ascii c.

(** [str.isspace] on one character; it is also what [\s] matches. *)
Definition isspace (c : ascii) : bool :=
  let n := code c in
  ((9 <=? n) && (n <=? 13) || (28 <=? n) && (n <=? 31)
   || (n =? 32) || (n =? 133) || (n =? 160))%nat.

(** What [\d] matches. *)
Definition isdigit (c : ascii) : bool :=
  let n := code c in ((48 <=? n) && (n <=? 57))%nat.

(** The line boundaries of [str.splitlines]. *)
Definition islinebreak (c : ascii) : bool :=
  let n := code c in
  ((10 <=? n) && (n <=? 13) || (28 <=? n) && (n <=? 30) || (n =? 133))%nat.

(** The line feed, written [\n] in the source. *)
Definition newline : string := String (ascii_of_nat 10) "".

(** [sep.join(parts)]. *)
Fixpoint join (sep : string) (parts : list string) : string :=
  match parts with
  | [] => ""
  | [p] => p
  | p :: ps => p ++ sep ++ join sep ps
  end.

Fixpoint lstrip (s : string) : string :=
  match s with
  | String c s' => if isspace c then lstrip s' else s
  | EmptyString => ""
  end.

(** [rstrip] keeps a character when it is not a space or when something
    survives to its right. *)
Fixpoint rstrip (s : string) : string :=
  match s with
  | EmptyString => ""
  | String c s' =>
      match rstrip s' with
      | EmptyString => if isspace c then "" else String c ""
      | r => String c r
      end
  end.

(** [s.strip()]. *)
Definition strip (s : string) : string := rstrip (lstrip s).

(** [s.split()]: the maximal runs of non-space characters.  [cur] is the
    word being read. *)
Fixpoint split_from (s : string) (cur : string) : list string :=
  match s with
  | EmptyString => match cur with EmptyString => [] | _ => [cur] end
  | String c s' =>
      if isspace c
      then match cur with
           | EmptyString => split_from s' ""
           | _ => cur :: split_from s' ""
           end
      else split_from s' (cur ++ String c "")
  end.

Definition split (s : string) : list string := split_from s "".

(** [s.splitlines()]: a carriage return directly followed by a line feed is
    one boundary, and a final boundary opens no further line. *)
Fixpoint splitlines_from (s : string) (cur : string) : list string :=
  match s with
  | EmptyString => match cur with EmptyString => [] | _ => [cur] end
  | String c s' =>
      if islinebreak c
      then match s' with
           | String c' s'' =>
               if ((code c =? 13) && (code c' =? 10))%nat
               then cur :: splitlines_from s'' ""
               else cur :: splitlines_from s' ""
           | EmptyString => [cur]
           end
      else splitlines_from s' (cur ++ String c "")
  end.

Definition splitlines (s : string) : list string := splitlines_from s "".

(** [str(n)] for an integer. *)
Definition str_int (z : Z) : string := NilZero.string_of_int (Z.to_int z).

Definition hex_digit (n : nat) : ascii :=
  ascii_of_nat (if (n <? 10)%nat then 48 + n else 87 + n).

Definition isprintable (c : ascii) : bool :=
  let n := code c in
  ((32 <=? n) && (n <=? 126) || (161 <=? n) && negb (n =? 173))%nat.

Fixpoint contains_char (c : ascii) (s : string) : bool :=
  match s with
  | EmptyString => false
  | String c' s' => Ascii.eqb c c' || contains_char c s'
  end.

Fixpoint repr_body (quote : ascii) (s : string) : string :=
  match s with
  | EmptyString => ""
  | String c s' =>
      let n := code c in
      (if Ascii.eqb c quote || (n =? 92)%nat then String "\" (String c "")
       else if (n =? 9)%nat then "\t"
       else if (n =? 10)%nat then "\n"
       else if (n =? 13)%nat then "\r"
       else if isprintable c then String c ""
       else String "\" (String "x" (String (hex_digit (n / 16))
                                      (String (hex_digit (n mod 16)) ""))))
      ++ repr_body quote s'
  end.

(** [repr(s)] for a string: single quotes unless the text holds a single
    quote and no double quote. *)
Definition repr_str (s : string) : string :=
  let dquote := ascii_of_nat 34 in
  let quote : ascii :=
    if contains_char "'" s && negb (contains_char dquote s) then dquote else "'"%char in
  String quote (repr_body quote s ++ String quote "").


(* ================================================================== *)
(** * Exceptions and the effects of a run *)
(* ================================================================== *)

(** The exception classes the script can meet, as far as its [except]
    clauses tell them apart.  [NonException] is a [BaseException] outside
    [Exception]: [KeyboardInterrupt], [SystemExit], [GeneratorExit]. *)
Inductive ExcKind : Type :=
| TypeError
| ZeroDivisionError
| OverflowError
| OtherException (name : string)
| NonException (name : string).

(** A raised exception: its class, [str(e)], and the text
    [traceback.format_exc()] yields while it is being handled. *)
Record Exc : Type := mkExc {
  exc_kind : ExcKind;
  exc_str : string;
  exc_traceback : string
}.

(** [except TypeError]. *)
Definition is_TypeError (e : Exc) : bool :=
  match exc_kind e with TypeError => true | _ => false end.

(** [except Exception]. *)
Definition is_Exception (e : Exc) : bool :=
  match exc_kind e with NonException _ => false | _ => true end.

Inductive Outcome (A : Type) : Type :=
| Returned (a : A)
| Raised (e : Exc).
Arguments Returned {A} a.
Arguments Raised {A} e.

(** One call of [client.tools.execute]: positional then keyword arguments. *)
Record Invocation : Type := mkInvocation {
  positional : list PyVal;
  keywords : list (string * PyVal)
}.

(** What [info] and [error] print; the failure messages of the two loops
    interpolate the result's error facet, kept as a value. *)
Inductive LogLine : Type :=
| LogInfo (msg : string)
| LogError (msg : string) (detail : PyVal).

Section Effects.

(** The remote side: whatever state it has, and how one invocation of
    [tools.execute] answers and changes it. *)
Variable World : Type.
Variable client : Invocation -> World -> Outcome PyVal * World.

(** The state a run threads: the remote side, the invocations made on it
    and the tool calls requested of the wrapper (both in order, oldest
    first), and the printed lines.  The script keeps neither list of calls;
    they record what a run did so that it can be stated. *)
Record St : Type := mkSt {
  world : World;
  calls : list Invocation;
  tool_log : list (string * PyVal);
  out : list LogLine
}.

Definition M (A : Type) : Type := St -> Outcome A * St.

Definition ret {A} (a : A) : M A := fun st => (Returned a, st).

Definition bind {A B} (m : M A) (k : A -> M B) : M B :=
  fun st =>
    match m st with
    | (Returned a, st') => k a st'
    | (Raised e, st') => (Raised e, st')
    end.

Definition print (l : LogLine) : M unit :=
  fun st => (Returned tt, mkSt (world st) (calls st) (tool_log st) (out st ++ [l])).

(** Records that the wrapper was asked for the tool [slug]. *)
Definition note_tool (slug : string) (arguments : PyVal) : M unit :=
  fun st => (Returned tt,
             mkSt (world st) (calls st) (tool_log st ++ [(slug, arguments)]) (out st)).

(** [self.client.tools.execute(...)] with the given arguments. *)
Definition invoke (inv : Invocation) : M PyVal :=
  fun st =>
    let (o, w') := client inv (world st) in
    (o, mkSt w' (calls st ++ [inv]) (tool_log st) (out st)).

End Effects.

Arguments mkSt {World}.
Arguments world {World}.
Arguments calls {World}.
Arguments tool_log {World}.
Arguments out {World}.
Arguments ret {World A}.
Arguments bind {World A B}.
Arguments print {World}.
Arguments note_tool {World}.
Arguments invoke {World}.

Notation "x <- m ;; k" := (bind m (fun x => k))
  (at level 61, m at next level, right associativity).
Notation "m ;;; k" := (bind m (fun _ => k))
  (at level 61, right associativity).

(** A pure computation that may raise, run inside the effects. *)
Definition lift {World A} (o : Outcome A) : M World A := fun st => (o, st).

(** Sequencing of pure computations that may raise. *)
Definition and_then {A B} (o : Outcome A) (k : A -> Outcome B) : Outcome B :=
  match o with
  | Returned a => k a
  | Raised e => Raised e
  end.

(* ================================================================== *)
(** * ComposioWrapper.execute_tool *)
(* ================================================================== *)

(** The dictionary [{"ok": ok, "data": data, "error": err}]. *)
Definition result_dict (ok data err : PyVal) : PyVal :=
  VDict [("ok", ok); ("data", data); ("error", err)].

(** The six calling conventions, in the order of the [forms] list. *)
Definition forms (user_id : PyVal) (tool_slug : string) (arguments : PyVal)
  : list Invocation :=
  [ mkInvocation [] [("slug", VStr tool_slug); ("user_id", user_id); ("arguments", arguments)];
    mkInvocation [] [("slug", VStr tool_slug); ("arguments", arguments); ("user_id", user_id)];
    mkInvocation [VStr tool_slug; user_id; arguments] [];
    mkInvocation [VStr tool_slug; arguments; user_id] [];
    mkInvocation [user_id; VStr tool_slug; arguments] [];
    mkInvocation [] [("slug", VStr tool_slug); ("args", arguments); ("user_id", user_id)] ].

(** The exception that reading a facet of an unreadable response raises. *)
Definition read_error (type_error : bool) (message trace : string) : Exc :=
  mkExc (if type_error then TypeError else OtherException "Exception") message trace.

(** [getattr(resp, name, default)] on a response that is not a mapping. *)
Definition read_attr (resp : PyVal) (name : string) (default : PyVal) : Outcome PyVal :=
  match resp with
  | VUnreadable type_error message trace => Raised (read_error type_error message trace)
  | _ => Returned (getattr resp name default)
  end.

(** Lines 96 to 105, what follows [resp = f()] in the body of the [try]:
    the response's facets are read and the result is built.  The reads of a
    mapping cannot raise, those of another object can. *)
Definition normalize_response (resp : PyVal) : Outcome PyVal :=
  match resp with
  | VDict d =>
      let ok := dict_get d "successful" (VBool true) in
      let data := dict_get d "data" resp in
      let err := dict_get d "error" VNone in
      Returned (result_dict ok data err)
  | _ =>
      and_then (read_attr resp "successful" (VBool true)) (fun ok =>
      and_then (read_attr resp "data" VNone) (fun data =>
      and_then (read_attr resp "error" VNone) (fun err =>
      Returned (result_dict ok (py_or data resp) err))))
  end.

(** The result built from a response whose facets are read without an
    exception; [VNone] stands for the absence of a result where a read
    raises. *)
Definition normalize (resp : PyVal) : PyVal :=
  match resp with
  | VDict d =>
      let ok := dict_get d "successful" (VBool true) in
      let data := dict_get d "data" resp in
      let err := dict_get d "error" VNone in
      result_dict ok data err
  | VUnreadable _ _ _ => VNone
  | _ =>
      let ok := getattr resp "successful" (VBool true) in
      let data := py_or (getattr resp "data" VNone) resp in
      let err := getattr resp "error" VNone in
      result_dict ok data err
  end.

(** [repr(attempts)], a list of pairs of strings. *)
Definition repr_attempts (attempts : list (string * string)) : string :=
  "[" ++ join ", " (map (fun a => "(" ++ repr_str (fst a) ++ ", " ++ repr_str (snd a) ++ ")")
                        attempts) ++ "]".

(** [str(last_exc)]. *)
Definition str_last_exc (last_exc : option Exc) : string :=
  match last_exc with
  | Some e => exc_str e
  | None => "None"
  end.

Definition exhausted_message (last_exc : option Exc) (attempts : list (string * string))
  : string :=
  "All execute attempts failed. Last TypeError: " ++ str_last_exc last_exc
  ++ "; attempts: " ++ repr_attempts attempts.

(** The [for f in forms] loop, from the strategies still to try.  The two
    [except] clauses guard the whole body of the [try]: the call and the
    reading of its response. *)
Fixpoint try_forms {World} (client : Invocation -> World -> Outcome PyVal * World)
    (fs : list Invocation) (last_exc : option Exc) (attempts : list (string * string))
  : M World PyVal :=
  match fs with
  | [] => ret (result_dict (VBool false) VNone (VStr (exhausted_message last_exc attempts)))
  | f :: fs' =>
      fun st =>
        match (resp <- invoke client f ;; lift (normalize_response resp)) st with
        | (Returned r, st') => (Returned r, st')
        | (Raised e, st') =>
            if is_TypeError e then
              try_forms client fs' (Some e) (attempts ++ [("TypeError", exc_str e)]) st'
            else if is_Exception e then
              (Returned (result_dict (VBool false) VNone
                           (VStr (exc_str e ++ newline ++ exc_traceback e))), st')
            else (Raised e, st')
        end
  end.

Definition execute_tool {World} (client : Invocation -> World -> Outcome PyVal * World)
    (user_id : PyVal) (tool_slug : string) (arguments : PyVal) : M World PyVal :=
  note_tool tool_slug arguments ;;;
  try_forms client (forms user_id tool_slug arguments) None [].

(* ================================================================== *)
(** * parse_lessons *)
(* ================================================================== *)

(** A lesson is the pair [(header, description)]. *)
Definition Lesson : Type := (string * string)%type.

(** One letter of a pattern compiled with [re.I], on the code points below
    256: the letter [lower] and its capital.  Beyond that range [re.I] also
    lets [k] match the Kelvin sign (code point 8490), which the text of this
    model cannot hold. *)
Definition ci_letter (lower : ascii) (c : ascii) : bool :=
  ((code c =? code lower) || (code c =? code lower - 32))%nat.

(** The longest prefix of [s] made of characters satisfying [p], and what
    follows it: a greedy [p*]. *)
Fixpoint span (p : ascii -> bool) (s : string) : string * string :=
  match s with
  | String c s' =>
      if p c then let (run, rest) := span p s' in (String c run, rest)
      else ("", s)
  | EmptyString => ("", "")
  end.

(** The literal [Week] at the start of [s], case-insensitively. *)
Definition match_week (s : string) : option (string * string) :=
  match s with
  | String a (String b (String c (String d rest))) =>
      if ci_letter "w" a && ci_letter "e" b && ci_letter "e" c && ci_letter "k" d
      then Some (String a (String b (String c (String d ""))), rest)
      else None
  | _ => None
  end.

(** [re.match(r'^(Week\s*\d+)', s, re.I)]: group 1 and the unmatched rest. *)
Definition match_week_number (s : string) : option (string * string) :=
  match match_week s with
  | Some (lit, r0) =>
      let (ws, r1) := span isspace r0 in
      let (ds, r2) := span isdigit r1 in
      match ds with
      | EmptyString => None
      | _ => Some (lit ++ ws ++ ds, r2)
      end
  | None => None
  end.

(** The test of the inner [while]. *)
Definition is_week_line (s : string) : bool :=
  match match_week_number s with Some _ => true | None => false end.

Definition is_separator (c : ascii) : bool :=
  ((code c =? 58) || (code c =? 45))%nat.

Definition not_newline (c : ascii) : bool := negb (code c =? 10)%nat.

(** The header pattern of the outer loop, compiled with [re.I]: the anchored
    [Week], spaces and digits of group 1, then spaces, an optional colon or
    dash, spaces, and as group 2 everything up to the end of the line.  Every
    quantifier is greedy and the tail cannot fail, so no backtracking
    happens.  Returns groups 1 and 2. *)
Definition match_header (s : string) : option (string * string) :=
  match match_week_number s with
  | Some (g1, r) =>
      let r1 := snd (span isspace r) in
      let r2 := match r1 with
                | String c r' => if is_separator c then r' else r1
                | EmptyString => r1
                end in
      let r3 := snd (span isspace r2) in
      Some (g1, fst (span not_newline r3))
  | None => None
  end.

Definition nonempty (s : string) : bool :=
  match s with EmptyString => false | _ => true end.

(** [[ln.strip() for ln in text.splitlines() if ln.strip()]]. *)
Definition lines_of (text : string) : list string :=
  map strip (filter (fun ln => nonempty (strip ln)) (splitlines text)).

(** The inner [while j < len(lines) and not re.match(...)]: [ls] is
    [lines[j:]]; the result is the final [desc_parts] and [lines[j:]]. *)
Fixpoint collect_body (ls : list string) (desc_parts : list string)
  : list string * list string :=
  match ls with
  | l :: ls' =>
      if is_week_line l then (desc_parts, ls)
      else collect_body ls' (desc_parts ++ [l])
  | [] => (desc_parts, [])
  end.

(** The outer [while i < len(lines)]: [ls] is [lines[i:]].  Every turn
    advances [i], so [length ls] turns are enough; [fuel] counts them. *)
Fixpoint scan (fuel : nat) (ls : list string) (lessons : list Lesson) : list Lesson :=
  match fuel with
  | O => lessons
  | S fuel' =>
      match ls with
      | [] => lessons
      | l :: rest =>
          match match_header l with
          | Some (header, g2) =>
              let rest_text := strip g2 in
              let desc_parts := if nonempty rest_text then [rest_text] else [] in
              let (desc_parts', rest') := collect_body rest desc_parts in
              scan fuel' rest' (lessons ++ [(header, strip (join " " desc_parts'))])
          | None => scan fuel' rest lessons
          end
      end
  end.

(** The lessons found by the header scan. *)
Definition header_lessons (lines : list string) : list Lesson :=
  scan (List.length lines) lines [].

(** [l[start:stop]] with Python's treatment of negative and oversized
    bounds. *)
Definition slice_bound (len i : Z) : Z :=
  if i <? 0 then Z.max (i + len) 0 else Z.min i len.

Definition py_slice {A} (l : list A) (start stop : Z) : list A :=
  let len := Z.of_nat (List.length l) in
  let lo := slice_bound len start in
  let hi := slice_bound len stop in
  firstn (Z.to_nat (hi - lo)) (skipn (Z.to_nat lo) l).

(** [range(n)]. *)
Definition range (n : Z) : list Z := map Z.of_nat (seq 0 (Z.to_nat n)).

Definition division_by_zero : Exc :=
  mkExc ZeroDivisionError "integer division or modulo by zero" "".

(** The record the fallback appends for chunk [k]. *)
Definition chunk_lesson (words : list string) (total chunk max_lessons k : Z) : Lesson :=
  let start := k * chunk in
  let stop := if k <? max_lessons - 1 then start + chunk else total in
  ("Week " ++ str_int (k + 1), join " " (py_slice words start stop)).

(** The equal-chunk fallback, entered with [lessons] empty. *)
Definition fallback (text : string) (max_lessons : Z) : Outcome (list Lesson) :=
  let words := split text in
  let total := Z.of_nat (List.length words) in
  if total =? 0 then Returned []
  else if max_lessons =? 0 then Raised division_by_zero
  else
    let chunk := Z.max (total / max_lessons) 1 in
    let lessons := map (chunk_lesson words total chunk max_lessons) (range max_lessons) in
    Returned (py_slice lessons 0 max_lessons).

Definition parse_lessons (text : string) (max_lessons : Z) : Outcome (list Lesson) :=
  let lessons := header_lessons (lines_of text) in
  match lessons with
  | [] => fallback text max_lessons
  | _ => Returned (py_slice lessons 0 max_lessons)
  end.

Definition MAX_LESSONS : Z := 12.


(* ================================================================== *)
(** * The directory sweep of main (step 3 of the path resolution) *)
(* ================================================================== *)

(** A directory: the names of its files and its sub-directories, both in
    the order the operating system lists them. *)
Inductive Dir : Type :=
| mkDir (files : list string) (subdirs : list (string * Dir)).

Definition ends_with_slash (s : string) : bool :=
  match rev (list_ascii_of_string s) with
  | c :: _ => (code c =? 47)%nat
  | [] => false
  end.

Definition starts_with_slash (s : string) : bool :=
  match s with
  | String c _ => (code c =? 47)%nat
  | EmptyString => false
  end.

(** [os.path.join(a, b)]. *)
Definition path_join (a b : string) : string :=
  if starts_with_slash b then b
  else if negb (nonempty a) || ends_with_slash a then a ++ b
  else a ++ "/" ++ b.

(** [os.walk(top)], top-down: a directory, then each of its
    sub-directories in turn. *)
Fixpoint walk (top : string) (d : Dir) : list (string * list string * list string) :=
  match d with
  | mkDir files subdirs =>
      (top, map fst subdirs, files)
      :: flat_map (fun entry : string * Dir =>
                    let (name, sub) := entry in walk (path_join top name) sub)
                  subdirs
  end.

Definition lower_char (c : ascii) : ascii :=
  let n := code c in
  if ((65 <=? n) && (n <=? 90) || (192 <=? n) && (n <=? 222) && negb (n =? 215))%nat
  then ascii_of_nat (n + 32) else c.

(** [s.lower()]. *)
Fixpoint lower (s : string) : string :=
  match s with
  | String c s' => String (lower_char c) (lower s')
  | EmptyString => ""
  end.

(** [s.endswith(suffix)]. *)
Definition endswith (s suffix : string) : bool :=
  let n := String.length s in
  let m := String.length suffix in
  ((m <=? n)%nat && String.eqb (substring (n - m) m s) suffix)%bool.

(** The truth value of [local_path], a path or [None]. *)
Definition path_found (local_path : option string) : bool :=
  match local_path with
  | Some p => nonempty p
  | None => false
  end.

Section Sweep.

(** [os.path.abspath], and the configured file name. *)
Variable abspath : string -> string.
Variable SYLLABUS_FILE_NAME : string.

(** The inner [for fname in files_in_dir], from the files still to see. *)
Fixpoint sweep_files (root : string) (files_in_dir : list string)
    (local_path : option string) : option string :=
  match files_in_dir with
  | [] => local_path
  | fname :: rest =>
      if String.eqb fname SYLLABUS_FILE_NAME || endswith (lower fname) ".pdf" then
        let candidate := path_join root fname in
        if String.eqb fname SYLLABUS_FILE_NAME then Some (abspath candidate)
        else if negb (path_found local_path)
             then sweep_files root rest (Some (abspath candidate))
             else sweep_files root rest local_path
      else sweep_files root rest local_path
  end.

(** The outer [for root, dirs, files_in_dir in os.walk(DOWNLOAD_DIR)]. *)
Fixpoint sweep_walk (entries : list (string * list string * list string))
    (local_path : option string) : option string :=
  match entries with
  | [] => local_path
  | (root, _, files_in_dir) :: rest =>
      let local_path' := sweep_files root files_in_dir local_path in
      if path_found local_path' then local_path'
      else sweep_walk rest local_path'
  end.

(** Step 3, entered with [local_path] still [None]. *)
Definition directory_sweep (DOWNLOAD_DIR : string) (tree : Dir) : option string :=
  sweep_walk (walk DOWNLOAD_DIR tree) None.

End Sweep.

(** Every path at which a file called [name] sits under [top]. *)
Definition paths_named (name : string) (top : string) (tree : Dir) : list string :=
  flat_map (fun entry =>
              match entry with
              | (root, _, files) =>
                  map (path_join root) (filter (String.eqb name) files)
              end)
           (walk top tree).


(* ================================================================== *)
(** * Dates and times *)
(* ================================================================== *)

(** A naive [datetime.datetime].  The date is held as its proleptic
    Gregorian ordinal (day 1 is 0001-01-01), the number [toordinal] returns
    and the one the library's arithmetic works on; [ord2ymd] gives the
    calendar date back for printing.  A [START_DATE] with a UTC offset
    parses to an aware datetime: its offset is carried along unchanged by
    the operations below and is left out. *)
Record datetime : Type := mkDatetime {
  ordinal : Z;
  hour : Z;
  minute : Z;
  second : Z;
  microsecond : Z
}.

(** A normalised [datetime.timedelta]. *)
Record timedelta : Type := mkTimedelta {
  days : Z;
  seconds : Z;
  microseconds : Z
}.

(** [date.max.toordinal()], the ordinal of 9999-12-31. *)
Definition MAXORDINAL : Z := 3652059.

Definition MAX_DELTA_DAYS : Z := 999999999.

(** The invariant every [datetime] object satisfies. *)
Definition valid_datetime (dt : datetime) : bool :=
  (1 <=? ordinal dt) && (ordinal dt <=? MAXORDINAL)
  && (0 <=? hour dt) && (hour dt <? 24)
  && (0 <=? minute dt) && (minute dt <? 60)
  && (0 <=? second dt) && (second dt <? 60)
  && (0 <=? microsecond dt) && (microsecond dt <? 1000000).

(** The [timedelta] constructor: carries microseconds into seconds and
    seconds into days, and refuses a day count out of range. *)
Definition make_timedelta (d s us : Z) : Outcome timedelta :=
  let s' := s + us / 1000000 in
  let d' := d + s' / 86400 in
  if Z.abs d' >? MAX_DELTA_DAYS
  then Raised (mkExc OverflowError
                 ("days=" ++ str_int d' ++ "; must have magnitude <= 999999999") "")
  else Returned (mkTimedelta d' (s' mod 86400) (us mod 1000000)).

(** [datetime.timedelta(weeks=w)]. *)
Definition timedelta_weeks (w : Z) : Outcome timedelta := make_timedelta (7 * w) 0 0.

Definition date_out_of_range : Exc := mkExc OverflowError "date value out of range" "".

(** [dt + td]. *)
Definition datetime_add (dt : datetime) (td : timedelta) : Outcome datetime :=
  let us := microsecond dt + microseconds td in
  let s := hour dt * 3600 + minute dt * 60 + second dt + seconds td + us / 1000000 in
  let d := ordinal dt + days td + s / 86400 in
  let sod := s mod 86400 in
  if (0 <? d) && (d <=? MAXORDINAL)
  then Returned (mkDatetime d (sod / 3600) (sod mod 3600 / 60) (sod mod 60) (us mod 1000000))
  else Raised date_out_of_range.




(** [dt.replace(hour=hh, minute=mm, second=0, microsecond=0)]. *)
Definition replace_time (dt : datetime) (hh mm : Z) : Outcome datetime :=
  if negb ((0 <=? hh) && (hh <? 24))
  then Raised (mkExc (OtherException "ValueError") "hour must be in 0..23" "")
  else if negb ((0 <=? mm) && (mm <? 60))
  then Raised (mkExc (OtherException "ValueError") "minute must be in 0..59" "")
  else Returned (mkDatetime (ordinal dt) hh mm 0 0).

Definition days_before_month (month : Z) : Z :=
  nth (Z.to_nat month) [0; 0; 31; 59; 90; 120; 151; 181; 212; 243; 273; 304; 334] 0.

Definition days_in_month (month : Z) : Z :=
  nth (Z.to_nat month) [0; 31; 28; 31; 30; 31; 30; 31; 31; 30; 31; 30; 31] 0.

(** The library's conversion of an ordinal to (year, month, day). *)
Definition ord2ymd (n0 : Z) : Z * Z * Z :=
  let n := n0 - 1 in
  let n400 := n / 146097 in
  let n := n mod 146097 in
  let n100 := n / 36524 in
  let n := n mod 36524 in
  let n4 := n / 1461 in
  let n := n mod 1461 in
  let n1 := n / 365 in
  let n := n mod 365 in
  let year := n400 * 400 + 1 + n100 * 100 + n4 * 4 + n1 in
  if (n1 =? 4) || (n100 =? 4) then (year - 1, 12, 31)
  else
    let leapyear := (n1 =? 3) && (negb (n4 =? 24) || (n100 =? 3)) in
    let month := Z.shiftr (n + 50) 5 in
    let preceding := days_before_month month + (if (month >? 2) && leapyear then 1 else 0) in
    if preceding >? n
    then
      let month' := month - 1 in
      let preceding' :=
        preceding - (days_in_month month' + (if (month' =? 2) && leapyear then 1 else 0)) in
      (year, month', n - preceding' + 1)
    else (year, month, n - preceding + 1).

(** [n] printed in decimal on at least [width] digits. *)
Definition zero_pad (width : nat) (n : Z) : string :=
  let s := str_int n in
  String.concat "" (repeat "0" (width - String.length s)) ++ s.

(** [dt.isoformat()]. *)
Definition isoformat (dt : datetime) : string :=
  match ord2ymd (ordinal dt) with
  | (y, m, d) =>
      zero_pad 4 y ++ "-" ++ zero_pad 2 m ++ "-" ++ zero_pad 2 d ++ "T"
      ++ zero_pad 2 (hour dt) ++ ":" ++ zero_pad 2 (minute dt) ++ ":" ++ zero_pad 2 (second dt)
      ++ (if microsecond dt =? 0 then "" else "." ++ zero_pad 6 (microsecond dt))
  end.

(** [dt0 + datetime.timedelta(weeks=i)], the start of lesson [i]. *)
Definition event_time (dt0 : datetime) (i : Z) : Outcome datetime :=
  match timedelta_weeks i with
  | Returned td => datetime_add dt0 td
  | Raised e => Raised e
  end.


(* ================================================================== *)
(** * The per-lesson writes of main *)
(* ================================================================== *)

Definition CALENDAR_CREATE_EVENT_SLUG : string := "GOOGLECALENDAR_CREATE_EVENT".

(** The configuration the two loops read. *)
Record Config : Type := mkConfig {
  NOTION_DATABASE_ID : option string;
  CALENDAR_ID : string;
  TIMEZONE : string
}.

(** The arguments [create_notion_row] sends. *)
Definition notion_row_arguments (database_id title content : string) : PyVal :=
  let props :=
    VList [ VDict [("name", VStr "Name"); ("type", VStr "title"); ("value", VStr title)];
            VDict [("name", VStr "Description"); ("type", VStr "rich_text");
                   ("value", VStr content)] ] in
  VDict [("database_id", VStr database_id); ("properties", props)].

(** The arguments [create_calendar_event] sends. *)
Definition calendar_event_arguments (calendar_id start_iso timezone summary description : string)
  : PyVal :=
  VDict [ ("calendar_id", VStr calendar_id);
          ("start_datetime", VStr start_iso);
          ("timezone", VStr timezone);
          ("summary", VStr summary);
          ("description", VStr description);
          ("event_duration_hour", VInt 1) ].

Section Writes.

Variable World : Type.
Variable client : Invocation -> World -> Outcome PyVal * World.

(** The wrapper's [user_id]. *)
Variable user_id : PyVal.

Definition create_notion_row (database_id title content : string) : M World PyVal :=
  execute_tool client user_id "NOTION_INSERT_ROW_DATABASE"
    (notion_row_arguments database_id title content).

Definition create_calendar_event
    (calendar_id start_iso timezone summary description : string) : M World PyVal :=
  execute_tool client user_id CALENDAR_CREATE_EVENT_SLUG
    (calendar_event_arguments calendar_id start_iso timezone summary description).

(** [for (title, desc) in lessons], the Notion rows. *)
Fixpoint notion_loop (database_id : string) (lessons : list Lesson) : M World unit :=
  match lessons with
  | [] => ret tt
  | (title, desc) :: rest =>
      print (LogInfo (" -> Notion row: " ++ title)) ;;;
      nres <- create_notion_row database_id title desc ;;
      (if negb (truthy (subscript nres "ok"))
       then print (LogError "Notion create failed: " (subscript nres "error"))
       else print (LogInfo "   Notion row created.")) ;;;
      notion_loop database_id rest
  end.

(** [for i, (title, desc) in enumerate(lessons)], the calendar events;
    [i] is the index of the head of [lessons]. *)
Fixpoint calendar_loop (cfg : Config) (dt0 : datetime) (i : Z) (lessons : list Lesson)
  : M World unit :=
  match lessons with
  | [] => ret tt
  | (title, desc) :: rest =>
      event_dt <- lift (event_time dt0 i) ;;
      let start_iso := isoformat event_dt in
      print (LogInfo (" -> Scheduling '" ++ title ++ "' at " ++ start_iso
                      ++ " (" ++ TIMEZONE cfg ++ ")")) ;;;
      cresp <- create_calendar_event (CALENDAR_ID cfg) start_iso (TIMEZONE cfg) title desc ;;
      (if negb (truthy (subscript cresp "ok"))
       then print (LogError "Calendar create failed: " (subscript cresp "error"))
       else print (LogInfo "   Event created.")) ;;;
      calendar_loop cfg dt0 (i + 1) rest
  end.

(** Lines 375 to 412 of [main]: [start] is the parsed [START_DATE] (or the
    current moment), [hh] and [mm] the two numbers of [START_TIME].  The
    pauses between calls are left out. *)
Definition write_lessons (cfg : Config) (start : datetime) (hh mm : Z)
    (lessons : list Lesson) : M World unit :=
  (match NOTION_DATABASE_ID cfg with
   | Some database_id =>
       if nonempty database_id
       then print (LogInfo "Creating Notion rows...") ;;;
            notion_loop database_id lessons
       else print (LogInfo "NOTION_DATABASE_ID not set; skipping Notion creation.")
   | None => print (LogInfo "NOTION_DATABASE_ID not set; skipping Notion creation.")
   end) ;;;
  dt0 <- lift (replace_time start hh mm) ;;
  print (LogInfo "Creating calendar events...") ;;;
  calendar_loop cfg dt0 0 lessons ;;;
  print (LogInfo "Done. Check Notion and Google Calendar for results.").

End Writes.

Arguments create_notion_row {World}.
Arguments create_calendar_event {World}.
Arguments notion_loop {World}.
Arguments calendar_loop {World}.
Arguments write_lessons {World}.

(** A run starts with nothing called and nothing printed. *)
Definition initial {World} (w : World) : St World := mkSt w [] [] [].

(** The datetime [i] whole weeks after [dt0], at the same time of day. *)
Definition week_offset (dt0 : datetime) (i : Z) : datetime :=
  mkDatetime (ordinal dt0 + 7 * i) (hour dt0) (minute dt0) (second dt0) (microsecond dt0).

(** The tool calls a complete run of the two loops requests. *)
Definition notion_writes (cfg : Config) (lessons : list Lesson) : list (string * PyVal) :=
  match NOTION_DATABASE_ID cfg with
  | Some database_id =>
      if nonempty database_id
      then map (fun l : Lesson =>
                  ("NOTION_INSERT_ROW_DATABASE",
                   notion_row_arguments database_id (fst l) (snd l))) lessons
      else []
  | None => []
  end.

Fixpoint calendar_writes (cfg : Config) (dt0 : datetime) (i : Z) (lessons : list Lesson)
  : list (string * PyVal) :=
  match lessons with
  | [] => []
  | l :: rest =>
      (CALENDAR_CREATE_EVENT_SLUG,
       calendar_event_arguments (CALENDAR_ID cfg) (isoformat (week_offset dt0 i))
         (TIMEZONE cfg) (fst l) (snd l))
      :: calendar_writes cfg dt0 (i + 1) rest
  end.

(** The [ToolCallResult] invariant of the data model: [ok] is false exactly
    when [error] is not [None]. *)
Definition ToolCallResult_invariant (r : PyVal) : Prop :=
  truthy (subscript r "ok") = false <-> subscript r "error" <> VNone.

(** The outcomes the remote side gives when the strategies [fs] are invoked
    one after the other, whatever each one answers. *)
Fixpoint replay {World} (client : Invocation -> World -> Outcome PyVal * World)
    (fs : list Invocation) (w : World) : list (Outcome PyVal) :=
  match fs with
  | [] => []
  | f :: fs' => let (o, w') := client f w in o :: replay client fs' w'
  end.

(** An outcome the first [except] clause catches, which the wrapper takes
    for a signature mismatch. *)
Definition mismatch (o : Outcome PyVal) : Prop :=
  exists e, o = Raised e /\ is_TypeError e = true.

(** What the body of the [try] makes of a strategy's outcome: the result
    built from the response, or the exception raised by the call or by the
    reading of its response. *)
Definition attempt (o : Outcome PyVal) : Outcome PyVal :=
  match o with
  | Returned resp => normalize_response resp
  | Raised e => Raised e
  end.

(* ------------------------------------------------------------------ *)
(** ** Remote stubs used to exercise the wrapper *)
(* ------------------------------------------------------------------ *)

(** A remote side without state that answers every invocation with [resp]. *)
Definition returning (resp : PyVal) (inv : Invocation) (w : unit) : Outcome PyVal * unit :=
  (Returned resp, w).

(** A remote side without state on which every invocation raises [e]. *)
Definition raising (e : Exc) (inv : Invocation) (w : unit) : Outcome PyVal * unit :=
  (Raised e, w).

(** A remote side that counts the invocations: the first [k] raise a
    [TypeError], the later ones return [v]. *)
Definition mismatch_then (k : nat) (v : PyVal) (inv : Invocation) (n : nat)
  : Outcome PyVal * nat :=
  if (n <? k)%nat
  then (Raised (mkExc TypeError "execute() got an unexpected keyword argument" "Traceback"), S n)
  else (Returned v, S n).



(** A response object whose [successful] property raises a [TypeError]
    when it is read. *)
Definition unreadable_response : PyVal :=
  VUnreadable true "not all arguments converted during string formatting"
              "Traceback (most recent call last)".

(** A remote side that counts the invocations: the first returns the
    unreadable response, the later ones return [v]. *)
Definition unreadable_then (v : PyVal) (inv : Invocation) (n : nat) : Outcome PyVal * nat :=
  if (n <? 1)%nat then (Returned unreadable_response, S n) else (Returned v, S n).

(** A response object whose [data] attribute is an empty list. *)
Definition empty_data_response : PyVal :=
  VObj [("successful", VBool true); ("data", VList []); ("error", VNone)].

(** The facet [name] of a response, read by key from a mapping and by
    attribute from anything else. *)
Definition facet (resp : PyVal) (name : string) (default : PyVal) : PyVal :=
  match resp with
  | VDict d => dict_get d name default
  | _ => getattr resp name default
  end.

(** A mapping that reports a failure and carries no error. *)
Definition silent_failure_response : PyVal := VDict [("successful", VBool false)].

(** The mapping with the facets of [empty_data_response]. *)
Definition empty_data_mapping : PyVal :=
  VDict [("successful", VBool true); ("data", VList []); ("error", VNone)].

(** The header a line contributes: its group 1 when it is a header line. *)
Definition header_title (ln : string) : list string :=
  match match_header ln with
  | Some (header, _) => [header]
  | None => []
  end.

(** The headers of a text's lines, in the order of the lines. *)
Definition header_titles (lines : list string) : list string :=
  flat_map header_title lines.

(** A word: not empty and free of white space. *)
Fixpoint spaceless (s : string) : bool :=
  match s with
  | String c s' => negb (isspace c) && spaceless s'
  | EmptyString => true
  end.

Definition is_word (s : string) : bool := nonempty s && spaceless s.

(** The text of the worked example: two headers, each with one line of
    body. *)
Definition sample_syllabus : string :=
  "Week 1: Intro" ++ newline ++ "Hello" ++ newline ++ "Week 2: Loops" ++ newline ++ "World".

(** A text without header: seven words on two lines. *)
Definition sample_notes : string :=
  "intro to loops" ++ newline ++ "  then lists and maps ".

(** [os.path.abspath] on paths that are absolute and normalised already. *)
Definition abspath_of_absolute (p : string) : string := p.

(** A download directory with a stray PDF at its top and the syllabus one
    level down. *)
Definition stray_pdf_tree : Dir :=
  mkDir ["notes.pdf"] [("week1", mkDir ["syllabus.pdf"] [])].


(** 2024-01-08 at midnight, as [START_DATE] parses. *)
Definition sample_start : datetime := mkDatetime 738893 0 0 0 0.

Definition two_lessons : list Lesson :=
  [("Week 1", "Intro Hello"); ("Week 2", "Loops World")].

Definition sample_config : Config := mkConfig (Some "database-1") "primary" "UTC".

(** A remote side that rejects every write. *)
Definition rejecting : Invocation -> unit -> Outcome PyVal * unit :=
  returning (VDict [("successful", VBool false); ("error", VStr "rejected")]).

(** The invariant read on a response's own facets: [successful] (default
    [True]) is false exactly when [error] (default [None]) is not [None]. *)
Definition facets_consistent (resp : PyVal) : Prop :=
  truthy (facet resp "successful" (VBool true)) = false
  <-> facet resp "error" VNone <> VNone.

(* ================================================================== *)
(** * main: finding and downloading the syllabus *)
(* ================================================================== *)

Definition FIND_FILE_SLUG : string := "GOOGLEDRIVE_FIND_FILE".
Definition DOWNLOAD_FILE_SLUG : string := "GOOGLEDRIVE_DOWNLOAD_FILE".

(** [sys.exit(1)]. *)
Definition system_exit : Exc := mkExc (NonException "SystemExit") "1" "".

(** An [error] line whose text interpolates no value. *)
Definition log_error (msg : string) : LogLine := LogError msg (VStr "").

(** [files[0]]. *)
Definition first_item (files : PyVal) : Outcome PyVal :=
  match files with
  | VList (x :: _) => Returned x
  | VList [] => Raised (mkExc (OtherException "IndexError") "list index out of range" "")
  | VStr (String c _) => Returned (VStr (String c ""))
  | VStr EmptyString =>
      Raised (mkExc (OtherException "IndexError") "string index out of range" "")
  | VDict _ => Raised (mkExc (OtherException "KeyError") "0" "")
  | _ => Raised (mkExc TypeError ("'" ++ type_name files ++ "' object is not subscriptable") "")
  end.

(** [file_meta.get("id") or file_meta.get("file_id") or file_meta.get("driveId")]. *)
Definition file_id_of (file_meta : PyVal) : Outcome PyVal :=
  match file_meta with
  | VDict d =>
      Returned (py_or (dict_get d "id" VNone)
                  (py_or (dict_get d "file_id" VNone) (dict_get d "driveId" VNone)))
  | _ => Raised (mkExc (OtherException "AttributeError")
                    ("'" ++ type_name file_meta ++ "' object has no attribute 'get'") "")
  end.

(** The [files] the script reads out of the find result's data. *)
Definition files_of (data : PyVal) : PyVal :=
  match data with
  | VDict d =>
      py_or (dict_get d "files" VNone) (py_or (dict_get d "items" VNone) (VList []))
  | VList _ => data
  | _ => VList []
  end.

Section FindAndDownload.

Variable World : Type.
Variable client : Invocation -> World -> Outcome PyVal * World.
Variable user_id : PyVal.

(** The built-in [str], which the messages apply to values. *)
Variable str_of : PyVal -> string.

Variable SYLLABUS_FILE_NAME : string.

(** Lines 260 to 289 of [main]: the result is [dl_data].  The pause between
    the two calls is left out. *)
Definition find_and_download : M World PyVal :=
  print (LogInfo ("Searching Drive for file named exactly '" ++ SYLLABUS_FILE_NAME
                  ++ "'...")) ;;;
  find_resp <- execute_tool client user_id FIND_FILE_SLUG
                 (VDict [("q", VStr ("name = '" ++ SYLLABUS_FILE_NAME ++ "'"))]) ;;
  if negb (truthy (subscript find_resp "ok"))
  then print (LogError "Drive find failed: " (subscript find_resp "error")) ;;;
       lift (Raised system_exit)
  else
    let data := py_or (subscript find_resp "data") (VDict []) in
    let files := files_of data in
    if negb (truthy files)
    then print (log_error ("No file named '" ++ SYLLABUS_FILE_NAME
                           ++ "' found in Drive for user " ++ str_of user_id ++ ".")) ;;;
         lift (Raised system_exit)
    else
      file_meta <- lift (first_item files) ;;
      file_id <- lift (file_id_of file_meta) ;;
      print (LogInfo ("Found Drive file id: " ++ str_of file_id)) ;;;
      print (LogInfo "Downloading file via Composio...") ;;;
      dl_resp <- execute_tool client user_id DOWNLOAD_FILE_SLUG
                   (VDict [("file_id", file_id)]) ;;
      if negb (truthy (subscript dl_resp "ok"))
      then print (LogError "Drive download failed: " (subscript dl_resp "error")) ;;;
           lift (Raised system_exit)
      else ret (py_or (subscript dl_resp "data") (VDict [])).

End FindAndDownload.

Arguments find_and_download {World}.

(* ================================================================== *)
(** * main: locating the downloaded file *)
(* ================================================================== *)

(** The file system as the resolution sees it: which paths exist, and the
    download directory as [os.walk] lists it. *)
Record FS : Type := mkFS {
  fs_exists : string -> bool;
  fs_tree : Dir
}.

(** What [os.path.isabs] and [open(...).write] raise on a value [v] that is
    not text. *)
Definition path_type_error (v : PyVal) : Exc :=
  mkExc TypeError ("expected str, bytes or os.PathLike object, not " ++ type_name v) "".

Definition write_type_error (v : PyVal) : Exc :=
  mkExc TypeError ("write() argument must be str, not " ++ type_name v) "".

(** The keys probed by step 1, in order. *)
Definition PATH_KEYS : list string :=
  ["file_path"; "path"; "local_path"; "download_path"; "file"; "name"].

Section Resolve.

Variable abspath : string -> string.
Variable DOWNLOAD_DIR : string.
Variable SYLLABUS_FILE_NAME : string.

(** [os.path.exists]. *)
Variable exists_ : string -> bool.

(** Step 1, the [for key in (...)] loop from the keys still to probe; the
    result is [local_path] after the loop. *)
Fixpoint probe_keys (dl_data : PyVal) (keys : list string) : Outcome (option string) :=
  match keys with
  | [] => Returned None
  | key :: rest =>
      let val := match dl_data with
                 | VDict d => dict_get d key VNone
                 | _ => VNone
                 end in
      if truthy val then
        match val with
        | VStr v =>
            let candidate := if starts_with_slash v then v else path_join DOWNLOAD_DIR v in
            if exists_ candidate then Returned (Some (abspath candidate))
            else if exists_ v then Returned (Some (abspath v))
            else probe_keys dl_data rest
        | _ => Raised (path_type_error val)
        end
      else probe_keys dl_data rest
  end.

(** The test and the body of the first branch of [search_dict_for_path] on
    a text value [v]: [Some] is the path returned, [None] lets the loop go
    on. *)
Definition pdf_value_path (v : string) : option string :=
  if endswith (lower v) ".pdf" && (exists_ v || exists_ (path_join DOWNLOAD_DIR v))
  then
    let candidate := if starts_with_slash v then v else path_join DOWNLOAD_DIR v in
    if exists_ candidate then Some (abspath candidate) else None
  else None.

(** Step 2, [search_dict_for_path]: depth first through mappings and
    lists. *)
Fixpoint search_dict_for_path (obj : PyVal) : option string :=
  match obj with
  | VDict d =>
      (fix items (d : list (string * PyVal)) : option string :=
         match d with
         | [] => None
         | (_, v) :: d' =>
             match v with
             | VStr s =>
                 match pdf_value_path s with
                 | Some p => Some p
                 | None => items d'
                 end
             | VDict _ | VList _ =>
                 let found := search_dict_for_path v in
                 if path_found found then found else items d'
             | _ => items d'
             end
         end) d
  | VList l =>
      (fix each (l : list PyVal) : option string :=
         match l with
         | [] => None
         | item :: l' =>
             let found := search_dict_for_path item in
             if path_found found then found else each l'
         end) l
  | _ => None
  end.

(** Steps 1 to 3: [local_path] before the raw content is considered. *)
Definition locate_on_disk (tree : Dir) (dl_data : PyVal) : Outcome (option string) :=
  match probe_keys dl_data PATH_KEYS with
  | Raised e => Raised e
  | Returned local_path =>
      let local_path :=
        if negb (path_found local_path) then search_dict_for_path dl_data else local_path in
      let local_path :=
        if negb (path_found local_path)
        then sweep_walk abspath SYLLABUS_FILE_NAME (walk DOWNLOAD_DIR tree) local_path
        else local_path in
      Returned local_path
  end.

End Resolve.

(** The path step 4 writes to. *)
Definition body_path (DOWNLOAD_DIR SYLLABUS_FILE_NAME : string) : string :=
  path_join DOWNLOAD_DIR SYLLABUS_FILE_NAME.

(** The paths that exist once [outp] was opened for writing. *)
Definition after_write (abspath : string -> string) (outp : string)
    (exists_ : string -> bool) : string -> bool :=
  fun p => String.eqb p outp || String.eqb p (abspath outp) || exists_ p.

(** Lines 291 to 357 of [main]: the result is [local_path] and the paths
    that exist afterwards.  The messages printed on the way are left out;
    opening the file of step 4 is taken to succeed. *)
Definition resolve_local_path (abspath : string -> string)
    (DOWNLOAD_DIR SYLLABUS_FILE_NAME : string) (fs : FS) (dl_data : PyVal)
  : Outcome string * (string -> bool) :=
  match locate_on_disk abspath DOWNLOAD_DIR SYLLABUS_FILE_NAME (fs_exists fs) (fs_tree fs)
          dl_data with
  | Raised e => (Raised e, fs_exists fs)
  | Returned local_path =>
      let body := match dl_data with
                  | VDict d => dict_get d "body" VNone
                  | _ => VNone
                  end in
      let outp := body_path DOWNLOAD_DIR SYLLABUS_FILE_NAME in
      if negb (path_found local_path) && truthy body then
        match body with
        | VStr _ =>
            let exists' := after_write abspath outp (fs_exists fs) in
            if exists' (abspath outp) && nonempty (abspath outp)
            then (Returned (abspath outp), exists')
            else (Raised system_exit, exists')
        | _ => (Raised (write_type_error body), after_write abspath outp (fs_exists fs))
        end
      else
        match local_path with
        | Some p =>
            if nonempty p && fs_exists fs p then (Returned p, fs_exists fs)
            else (Raised system_exit, fs_exists fs)
        | None => (Raised system_exit, fs_exists fs)
        end
  end.

(** A remote side on which every invocation raises a signature mismatch. *)
Definition always_mismatch : Invocation -> unit -> Outcome PyVal * unit :=
  raising (mkExc TypeError "execute() takes 1 positional argument" "Traceback").

(** The pairs the wrapper appends to [attempts] for the mismatches [es]. *)
Definition attempts_of (es : list Exc) : list (string * string) :=
  map (fun e => ("TypeError", exc_str e)) es.

(** The last of the mismatches [es], or [last_exc] when there is none. *)
Definition last_mismatch (last_exc : option Exc) (es : list Exc) : option Exc :=
  last (map Some es) last_exc.

(** A text made of white space only. *)
Fixpoint blank (s : string) : bool :=
  match s with
  | String c s' => isspace c && blank s'
  | EmptyString => true
  end.

(** The test of the directory sweep on one file name. *)
Definition is_candidate (SYLLABUS_FILE_NAME fname : string) : bool :=
  String.eqb fname SYLLABUS_FILE_NAME || endswith (lower fname) ".pdf".

(** No file of the listed directories passes the sweep's test. *)
Definition no_candidate (SYLLABUS_FILE_NAME : string)
    (entries : list (string * list string * list string)) : Prop :=
  forall root dirs files fname,
    In (root, dirs, files) entries -> In fname files ->
    is_candidate SYLLABUS_FILE_NAME fname = false.

(** The description parts a header line opens with: the text after the
    header, when there is some. *)
Definition header_rest (ln : string) : list string :=
  match match_header ln with
  | Some (_, g2) => if nonempty (strip g2) then [strip g2] else []
  | None => []
  end.

(** A value that is neither a mapping nor a list. *)
Definition is_leaf (v : PyVal) : bool :=
  match v with
  | VDict _ | VList _ => false
  | _ => true
  end.

(** The texts the structural search examines: the values of the mappings
    it goes through, in the order it meets them.  A text that is an item of
    a list is not among them. *)
Fixpoint mapping_texts (obj : PyVal) : list string :=
  match obj with
  | VDict d =>
      (fix items (d : list (string * PyVal)) : list string :=
         match d with
         | [] => []
         | (_, v) :: d' =>
             match v with
             | VStr s => s :: items d'
             | VDict _ | VList _ => (mapping_texts v ++ items d')%list
             | _ => items d'
             end
         end) d
  | VList l =>
      (fix each (l : list PyVal) : list string :=
         match l with
         | [] => []
         | item :: l' => (mapping_texts item ++ each l')%list
         end) l
  | _ => []
  end.

(** A response whose [file] entry is the file's metadata, not a path. *)
Definition metadata_response : PyVal :=
  VDict [("file", VDict [("id", VStr "f1"); ("mimeType", VStr "application/pdf")])].

(** A file system on which nothing exists but [/srv/downloads/syllabus.pdf]. *)
Definition sample_exists (p : string) : bool := String.eqb p "/srv/downloads/syllabus.pdf".

Definition sample_fs : FS := mkFS sample_exists (mkDir ["syllabus.pdf"] []).

(** A file system with nothing in the download directory. *)
Definition empty_fs : FS := mkFS (fun _ => false) (mkDir [] []).

(** A remote side that finds one file and hands over its content: the find
    answers with a list of files, the download with a body. *)
Definition drive_stub (inv : Invocation) (w : unit) : Outcome PyVal * unit :=
  let found :=
    VDict [("successful", VBool true);
           ("data", VDict [("files", VList [VDict [("file_id", VStr "f1")];
                                            VDict [("id", VStr "f2")]])])] in
  let content :=
    VDict [("successful", VBool true); ("data", VDict [("body", VStr "%PDF-1.4")])] in
  match assoc "slug" (keywords inv) with
  | Some (VStr s) =>
      if String.eqb s "GOOGLEDRIVE_FIND_FILE" then (Returned found, w)
      else (Returned content, w)
  | _ => (Returned content, w)
  end.

(** [str] on the values the samples print. *)
Definition sample_str (v : PyVal) : string :=
  match v with
  | VStr s => s
  | _ => "None"
  end.

(** The text does not begin with white space. *)
Definition starts_clean (s : string) : bool :=
  match s with
  | String c _ => negb (isspace c)
  | EmptyString => true
  end.

(** [os.path.abspath] with [cwd] as the current directory, on paths that
    need no normalisation. *)
Definition abspath_in (cwd p : string) : string :=
  if starts_with_slash p then p else cwd ++ "/" ++ p.

(** The arguments of the find call. *)
Definition find_query (SYLLABUS_FILE_NAME : string) : PyVal :=
  VDict [("q", VStr ("name = '" ++ SYLLABUS_FILE_NAME ++ "'"))].

(** The first strategy's outcome leaves the tool call without success: a
    response read without an exception and normalised to a falsy [ok], or an
    exception the wrapper turns into a failure. *)
Definition outcome_fails (o : Outcome PyVal) : Prop :=
  match o with
  | Returned resp =>
      normalize_response resp = Returned (normalize resp)
      /\ truthy (subscript (normalize resp) "ok") = false
  | Raised e => is_TypeError e = false /\ is_Exception e = true
  end.

(* ================================================================== *)
(** * main: from the extracted text to the writes *)
(* ================================================================== *)

(** Lines 369 to 412 of [main], from the text the PDF extraction returned. *)
Definition plan_and_write {World} (client : Invocation -> World -> Outcome PyVal * World)
    (user_id : PyVal) (cfg : Config) (start : datetime) (hh mm : Z) (text : string)
  : M World unit :=
  lessons <- lift (parse_lessons text MAX_LESSONS) ;;
  match lessons with
  | [] => print (log_error "No lessons parsed from PDF.") ;;; lift (Raised system_exit)
  | _ =>
      print (LogInfo ("Parsed " ++ str_int (Z.of_nat (List.length lessons)) ++ " lessons.")) ;;;
      write_lessons client user_id cfg start hh mm lessons
  end.

(* ================================================================== *)
(** * main: the linked accounts *)
(* ================================================================== *)

(** [a.startswith(b)]. *)
Fixpoint startswith (a b : string) : bool :=
  match b, a with
  | EmptyString, _ => true
  | String cb b', String ca a' => Ascii.eqb ca cb && startswith a' b'
  | String _ _, EmptyString => false
  end.

(** [b in a] for two texts. *)
Fixpoint occurs_in (b a : string) : bool :=
  startswith a b
  || match a with
     | String _ a' => occurs_in b a'
     | EmptyString => false
     end.

(** [key in container] for a text [key]. *)
Definition py_in (key : string) (container : PyVal) : Outcome bool :=
  match container with
  | VDict d => Returned (match assoc key d with Some _ => true | None => false end)
  | VList l =>
      Returned (existsb (fun v => match v with
                                  | VStr s => String.eqb s key
                                  | _ => false
                                  end) l)
  | VStr s => Returned (occurs_in key s)
  | _ => Raised (mkExc TypeError
                    ("argument of type '" ++ type_name container ++ "' is not iterable") "")
  end.

(** A mapping with [key] bound to [v]: in place when the key is there, at
    the end otherwise. *)
Fixpoint dict_set (d : list (string * PyVal)) (key : string) (v : PyVal)
  : list (string * PyVal) :=
  match d with
  | [] => [(key, v)]
  | (k, x) :: d' =>
      if String.eqb key k then (k, v) :: d' else (k, x) :: dict_set d' key v
  end.

(** [container[key] = v] for a text [key]; the result is the container
    afterwards. *)
Definition py_setitem (container : PyVal) (key : string) (v : PyVal) : Outcome PyVal :=
  match container with
  | VDict d => Returned (VDict (dict_set d key v))
  | VList _ => Raised (mkExc TypeError "list indices must be integers or slices, not str" "")
  | _ => Raised (mkExc TypeError
                    ("'" ++ type_name container ++ "' object does not support item assignment")
                    "")
  end.

(** The object [save_json] is given. *)
Definition snapshot (user_id connections : PyVal) : PyVal :=
  VDict [("user_id", user_id); ("connections", connections)].

(** The three auth configurations, as [os.getenv] gives them. *)
Record AuthConfig : Type := mkAuthConfig {
  GOOGLE_DRIVE_AUTH_CONFIG_ID : PyVal;
  NOTION_AUTH_CONFIG_ID : PyVal;
  GOOGLE_CAL_AUTH_CONFIG_ID : PyVal
}.

Section Accounts.

(** The linking service: its state, and [link_tool_and_wait] called with
    the user, the auth configuration and the friendly name. *)
Variable Linker : Type.
Variable link_tool_and_wait :
  PyVal -> PyVal -> string -> Linker -> Outcome PyVal * Linker.

(** What the phase acts on: the linking service, the snapshots written to
    the connections file (oldest first) and the services it asked to link. *)
Record Accounts : Type := mkAccounts {
  linker : Linker;
  saved : list PyVal;
  asked : list string
}.

Definition call_link (user_id auth_config_id : PyVal) (friendly_name : string)
  : M Accounts PyVal :=
  fun st =>
    let acc := world st in
    let (o, l') := link_tool_and_wait user_id auth_config_id friendly_name (linker acc) in
    (o, mkSt (mkAccounts l' (saved acc) (asked acc ++ [friendly_name]))
             (calls st) (tool_log st) (out st)).

(** [save_json(CONNECTIONS_FILE, obj)], taken to succeed. *)
Definition save_json (obj : PyVal) : M Accounts unit :=
  fun st =>
    let acc := world st in
    (Returned tt, mkSt (mkAccounts (linker acc) (saved acc ++ [obj]) (asked acc))
                       (calls st) (tool_log st) (out st)).

(** One of the three [if ... not in connections["connections"] and ...]
    blocks; the result is [connections["connections"]] afterwards. *)
Definition link_service (user_id : PyVal) (service friendly_name : string)
    (auth_config_id : PyVal) (conns : PyVal) : M Accounts PyVal :=
  present <- lift (py_in service conns) ;;
  if negb present && truthy auth_config_id then
    conn <- call_link user_id auth_config_id friendly_name ;;
    conns' <- lift (py_setitem conns service conn) ;;
    save_json (snapshot user_id conns') ;;;
    ret conns'
  else ret conns.

(** [try: ... except Exception: sys.exit(1)]. *)
Definition exit_on_exception {A} (m : M Accounts A) : M Accounts A :=
  fun st =>
    match m st with
    | (Raised e, st') =>
        if is_Exception e then (Raised system_exit, st') else (Raised e, st')
    | r => r
    end.

(** Lines 213 to 256 of [main]: [loaded] is what reading the connections
    file gave, when the file exists; [env_user_id] is [COMPOSIO_USER_ID] and
    [fresh] the identifier [uuid.uuid4()] draws.  The result is [user_id].
    The lines printed and the construction of the client on line 226 are
    left out. *)
Definition link_accounts (ids : AuthConfig) (loaded : option (Outcome PyVal))
    (env_user_id : PyVal) (fresh : string) : M Accounts PyVal :=
  connections <- lift (match loaded with
                       | None => Returned (VDict [])
                       | Some (Returned v) => Returned v
                       | Some (Raised e) =>
                           if is_Exception e then Returned (VDict []) else Raised e
                       end) ;;
  match connections with
  | VDict c =>
      let user_id := py_or (dict_get c "user_id" VNone) (py_or env_user_id (VStr fresh)) in
      let conns := dict_get c "connections" (VDict []) in
      conns <- exit_on_exception
                 (conns <- link_service user_id "google_drive" "Google Drive"
                             (GOOGLE_DRIVE_AUTH_CONFIG_ID ids) conns ;;
                  conns <- link_service user_id "notion" "Notion"
                             (NOTION_AUTH_CONFIG_ID ids) conns ;;
                  link_service user_id "google_calendar" "Google Calendar"
                    (GOOGLE_CAL_AUTH_CONFIG_ID ids) conns) ;;
      save_json (snapshot user_id conns) ;;;
      ret user_id
  | _ => lift (Raised (mkExc (OtherException "AttributeError")
                         ("'" ++ type_name connections ++ "' object has no attribute 'get'")
                         ""))
  end.

End Accounts.

Arguments mkAccounts {Linker}.
Arguments linker {Linker}.
Arguments saved {Linker}.
Arguments asked {Linker}.
Arguments link_service {Linker}.
Arguments link_accounts {Linker}.

(** A linking service that grants every request with a connection named
    after the service. *)
Definition granting (user_id auth_config_id : PyVal) (friendly_name : string) (l : unit)
  : Outcome PyVal * unit :=
  (Returned (VStr friendly_name), l).

(** A linking service that refuses every request. *)
Definition refusing (user_id auth_config_id : PyVal) (friendly_name : string) (l : unit)
  : Outcome PyVal * unit :=
  (Raised (mkExc (OtherException "RuntimeError") "Failed to start link flow" ""), l).

Definition all_configured : AuthConfig :=
  mkAuthConfig (VStr "ac_drive") (VStr "ac_notion") (VStr "ac_calendar").

(** A snapshot in which Drive and Notion are linked already. *)
Definition partial_snapshot : PyVal :=
  VDict [("user_id", VStr "u-1");
         ("connections", VDict [("google_drive", VStr "c1"); ("notion", VStr "c2")])].

(** A run of the phase starts with nothing saved and nothing asked. *)
Definition no_accounts {Linker} (l : Linker) : St (Accounts Linker) :=
  mkSt (mkAccounts l [] []) [] [] [].


(* ================================================================== *)
(** * Properties of execute_tool *)
(* ================================================================== *)

(** From here on [++] reads as list concatenation unless marked. *)
Open Scope list_scope.

Section ToolProperties.

Context {World : Type}.
Variable client : Invocation -> World -> Outcome PyVal * World.

Lemma invoke_eq (f : Invocation) (st : St World) :
  invoke client f st =
  (fst (client f (world st)),
   mkSt (snd (client f (world st))) (calls st ++ [f]) (tool_log st) (out st)).
Proof.
  unfold invoke. destruct (client f (world st)); reflexivity.
Qed.

Lemma replay_cons (f : Invocation) (fs : list Invocation) (w : World) :
  replay client (f :: fs) w =
  fst (client f w) :: replay client fs (snd (client f w)).
Proof.
  simpl. destruct (client f w); reflexivity.
Qed.

(** The body of the [try] on one strategy: the call, then the reading of
    its response. *)
Lemma try_body_eq (f : Invocation) (st : St World) :
  (resp <- invoke client f ;; lift (normalize_response resp)) st
  = (attempt (fst (client f (world st))),
     mkSt (snd (client f (world st))) (calls st ++ [f]) (tool_log st) (out st)).
Proof.
  unfold bind. rewrite invoke_eq.
  destruct (fst (client f (world st))); reflexivity.
Qed.

(** One turn of the loop. *)
Lemma try_forms_cons (f : Invocation) (fs : list Invocation) (last_exc : option Exc)
    (attempts : list (string * string)) (st : St World) :
  try_forms client (f :: fs) last_exc attempts st
  = match attempt (fst (client f (world st))) with
    | Returned r =>
        (Returned r,
         mkSt (snd (client f (world st))) (calls st ++ [f]) (tool_log st) (out st))
    | Raised e =>
        if is_TypeError e then
          try_forms client fs (Some e) (attempts ++ [("TypeError"%string, exc_str e)])
            (mkSt (snd (client f (world st))) (calls st ++ [f]) (tool_log st) (out st))
        else if is_Exception e then
          (Returned (result_dict (VBool false) VNone
                       (VStr (exc_str e ++ newline ++ exc_traceback e)%string)),
           mkSt (snd (client f (world st))) (calls st ++ [f]) (tool_log st) (out st))
        else
          (Raised e,
           mkSt (snd (client f (world st))) (calls st ++ [f]) (tool_log st) (out st))
    end.
Proof.
  cbn [try_forms]. rewrite try_body_eq. reflexivity.
Qed.

(** The loop stops at the first strategy whose response is read without an
    exception. *)
Lemma try_forms_first_success (k : nat) :
  forall fs last_exc attempts (st : St World) r,
    (forall i, (i < k)%nat ->
               exists o, nth_error (replay client fs (world st)) i = Some o
                         /\ mismatch (attempt o)) ->
    (exists o, nth_error (replay client fs (world st)) k = Some o
               /\ attempt o = Returned r) ->
    exists st',
      try_forms client fs last_exc attempts st = (Returned r, st')
      /\ calls st' = (calls st ++ firstn (S k) fs)%list
      /\ tool_log st' = tool_log st
      /\ out st' = out st.
Proof.
  induction k as [|k IH]; intros fs last_exc attempts st r Hbefore (o & Hat & Hr).
  - destruct fs as [|f fs]; [discriminate|].
    rewrite replay_cons in Hat. simpl in Hat. injection Hat as Hat.
    rewrite try_forms_cons, Hat, Hr.
    eexists. split; [reflexivity|]. cbn. auto.
  - destruct fs as [|f fs]; [discriminate|].
    destruct (Hbefore 0%nat ltac:(lia)) as (o0 & Ho & e & Ha & He).
    rewrite replay_cons in Ho, Hat. simpl in Ho, Hat. injection Ho as Ho.
    rewrite try_forms_cons, Ho, Ha, He.
    set (st1 := mkSt _ _ _ _).
    destruct (IH fs (Some e) (attempts ++ [("TypeError"%string, exc_str e)]) st1 r)
      as (st' & Hrun & Hcalls & Hlog & Hout).
    + intros i Hi. specialize (Hbefore (S i) ltac:(lia)).
      rewrite replay_cons in Hbefore. exact Hbefore.
    + exists o. split; [exact Hat|exact Hr].
    + exists st'. split; [exact Hrun|]. rewrite Hcalls, Hlog, Hout.
      subst st1. cbn. rewrite <- app_assoc. auto.
Qed.

Lemma read_error_is_Exception (type_error : bool) (message trace : string) :
  is_Exception (read_error type_error message trace) = true.
Proof.
  destruct type_error; reflexivity.
Qed.

(** Reading a response raises nothing outside [Exception]. *)
Lemma normalize_response_raised (resp : PyVal) (e : Exc) :
  normalize_response resp = Raised e -> is_Exception e = true.
Proof.
  destruct resp; try discriminate.
  cbn. intros H. injection H as <-. apply read_error_is_Exception.
Qed.

(** The result built from a response that is read without an exception. *)
Lemma normalize_response_returned (resp r : PyVal) :
  normalize_response resp = Returned r ->
  r = normalize resp
  /\ r = result_dict (facet resp "successful" (VBool true))
           (match resp with
            | VDict d => dict_get d "data" resp
            | _ => py_or (getattr resp "data" VNone) resp
            end)
           (facet resp "error" VNone).
Proof.
  destruct resp; cbn; intros H; try discriminate; injection H as <-; split; reflexivity.
Qed.

(** Only the reads of an unreadable response raise. *)
Lemma normalize_response_readable (resp : PyVal) :
  (forall type_error message trace, resp <> VUnreadable type_error message trace) ->
  normalize_response resp = Returned (normalize resp).
Proof.
  intros Hresp. destruct resp; try reflexivity. now destruct (Hresp type_error message trace).
Qed.

(** A response whose normal form has a truthy [ok] was read without an
    exception. *)
Lemma normalize_ok_readable (resp : PyVal) :
  truthy (subscript (normalize resp) "ok") = true ->
  normalize_response resp = Returned (normalize resp).
Proof.
  destruct resp; try reflexivity. discriminate.
Qed.

(** The loop either returns a dictionary built by [result_dict] or lets
    an exception outside [Exception] through. *)
Lemma try_forms_shape :
  forall fs last_exc attempts (st : St World) o st',
    try_forms client fs last_exc attempts st = (o, st') ->
    (exists inv w resp r, fst (client inv w) = Returned resp
                          /\ normalize_response resp = Returned r /\ o = Returned r)
    \/ (exists msg, o = Returned (result_dict (VBool false) VNone (VStr msg)))
    \/ (exists inv w e, fst (client inv w) = Raised e /\ is_Exception e = false
                        /\ o = Raised e).
Proof.
  induction fs as [|f fs IH]; intros last_exc attempts st o st' Hrun.
  - cbn in Hrun. injection Hrun as <- _. right; left. eexists; reflexivity.
  - rewrite try_forms_cons in Hrun.
    destruct (attempt (fst (client f (world st)))) as [r|e] eqn:Ha.
    + injection Hrun as <- _. left.
      destruct (fst (client f (world st))) as [resp|e] eqn:Hc; [|discriminate].
      exists f, (world st), resp, r. auto.
    + destruct (is_TypeError e) eqn:Ht.
      * eapply IH; eassumption.
      * destruct (is_Exception e) eqn:Hx.
        -- injection Hrun as <- _. right; left. eexists; reflexivity.
        -- injection Hrun as <- _. right; right.
           destruct (fst (client f (world st))) as [resp|e'] eqn:Hc.
           ++ apply normalize_response_raised in Ha. congruence.
           ++ injection Ha as ->. exists f, (world st), e. auto.
Qed.

Lemma execute_tool_eq user_id tool_slug arguments (st : St World) :
  execute_tool client user_id tool_slug arguments st =
  try_forms client (forms user_id tool_slug arguments) None []
    (mkSt (world st) (calls st) (tool_log st ++ [(tool_slug, arguments)]) (out st)).
Proof.
  reflexivity.
Qed.

Lemma try_forms_keeps_logs :
  forall fs last_exc attempts (st : St World) o st',
    try_forms client fs last_exc attempts st = (o, st') ->
    tool_log st' = tool_log st /\ out st' = out st.
Proof.
  induction fs as [|f fs IH]; intros last_exc attempts st o st' Hrun.
  - cbn in Hrun. injection Hrun as _ <-. auto.
  - rewrite try_forms_cons in Hrun.
    destruct (attempt (fst (client f (world st)))) as [r|e].
    + injection Hrun as _ <-. auto.
    + destruct (is_TypeError e).
      * apply IH in Hrun. cbn in Hrun. exact Hrun.
      * destruct (is_Exception e); injection Hrun as _ <-; auto.
Qed.

(** Every run of the loop is decided by the first strategy whose attempt
    does not end in a [TypeError]: [k] strategies come before it.  The loop
    returns the result of that attempt, turns its exception into a failure
    or lets it through; when there is no such strategy the loop has tried
    them all and reports it. *)
Lemma try_forms_run :
  forall fs last_exc attempts (st : St World),
  exists k,
    (k <= List.length fs)%nat
    /\ (forall i, (i < k)%nat ->
          exists o, nth_error (replay client fs (world st)) i = Some o
                    /\ mismatch (attempt o))
    /\ calls (snd (try_forms client fs last_exc attempts st)) = calls st ++ firstn (S k) fs
    /\ (forall o r,
          nth_error (replay client fs (world st)) k = Some o ->
          attempt o = Returned r ->
          fst (try_forms client fs last_exc attempts st) = Returned r)
    /\ (forall o e,
          nth_error (replay client fs (world st)) k = Some o ->
          attempt o = Raised e ->
          is_TypeError e = false
          /\ fst (try_forms client fs last_exc attempts st)
             = if is_Exception e
               then Returned (result_dict (VBool false) VNone
                                (VStr (exc_str e ++ newline ++ exc_traceback e)%string))
               else Raised e)
    /\ (nth_error (replay client fs (world st)) k = None ->
          k = List.length fs
          /\ exists msg,
               fst (try_forms client fs last_exc attempts st)
               = Returned (result_dict (VBool false) VNone (VStr msg))).
Proof.
  induction fs as [|f fs IH]; intros last_exc attempts st.
  - exists 0%nat. cbn. rewrite app_nil_r.
    repeat split; try discriminate; try lia.
    eexists; reflexivity.
  - rewrite try_forms_cons, replay_cons.
    destruct (attempt (fst (client f (world st)))) as [r|e] eqn:Ha.
    + exists 0%nat. cbn [nth_error List.length firstn fst snd calls].
      split; [lia|]. split; [intros i Hi; lia|]. split; [reflexivity|].
      split; [|split].
      * intros o r' Ho Hr. injection Ho as <-. congruence.
      * intros o e Ho He. injection Ho as <-. congruence.
      * discriminate.
    + destruct (is_TypeError e) eqn:Ht.
      * set (st1 := mkSt _ _ _ _).
        destruct (IH (Some e) (attempts ++ [("TypeError"%string, exc_str e)]) st1)
          as (k & Hk & Hbefore & Hcalls & Hret & Hexc & Hnone).
        exists (S k). cbn [nth_error List.length].
        split; [lia|]. split; [|split; [|split; [|split]]].
        -- intros [|i] Hi.
           ++ exists (fst (client f (world st))). split; [reflexivity|].
              exists e. auto.
           ++ cbn [nth_error]. apply Hbefore. lia.
        -- rewrite Hcalls. subst st1. cbn [calls firstn]. now rewrite <- app_assoc.
        -- exact Hret.
        -- exact Hexc.
        -- intros Hn. destruct (Hnone Hn) as [-> Hmsg]. auto.
      * exists 0%nat. cbn [nth_error List.length firstn].
        split; [lia|]. split; [intros i Hi; lia|].
        split; [destruct (is_Exception e); reflexivity|].
        split; [|split].
        -- intros o r Ho Hr. injection Ho as <-. congruence.
        -- intros o e' Ho He. injection Ho as <-.
           rewrite Ha in He. injection He as <-.
           split; [exact Ht|]. destruct (is_Exception e); reflexivity.
        -- discriminate.
Qed.

End ToolProperties.

Lemma replay_length {World} (client : Invocation -> World -> Outcome PyVal * World) :
  forall fs w, List.length (replay client fs w) = List.length fs.
Proof.
  induction fs as [|f fs IH]; intros w; [reflexivity|].
  rewrite replay_cons. simpl. now rewrite IH.
Qed.

(** The strategies are tried from the first on: when the first [k] attempts
    end in a [TypeError] and the response of the next strategy is read
    without an exception, the result is built from that response, facet by
    facet, and the invocations made are exactly the first [k + 1]
    strategies. *)
Lemma execute_tool_first_readable {World}
    (client : Invocation -> World -> Outcome PyVal * World)
    (user_id : PyVal) (tool_slug : string) (arguments : PyVal)
    (w : World) (k : nat) (resp r : PyVal) :
  (forall i, (i < k)%nat ->
     exists o, nth_error (replay client (forms user_id tool_slug arguments) w) i = Some o
               /\ mismatch (attempt o)) ->
  nth_error (replay client (forms user_id tool_slug arguments) w) k = Some (Returned resp) ->
  normalize_response resp = Returned r ->
  exists st',
    execute_tool client user_id tool_slug arguments (initial w) = (Returned r, st')
    /\ dict_keys r = ["ok"; "data"; "error"]%string
    /\ subscript r "ok" = facet resp "successful" (VBool true)
    /\ subscript r "data" = match resp with
                            | VDict d => dict_get d "data" resp
                            | _ => py_or (getattr resp "data" VNone) resp
                            end
    /\ subscript r "error" = facet resp "error" VNone
    /\ calls st' = firstn (S k) (forms user_id tool_slug arguments)
    /\ List.length (calls st') = S k.
Proof.
  intros Hbefore Hat Hr.
  rewrite execute_tool_eq.
  destruct (try_forms_first_success client k (forms user_id tool_slug arguments) None []
              (mkSt w [] ([] ++ [(tool_slug, arguments)]) []) r Hbefore)
    as (st' & Hrun & Hcalls & _).
  { exists (Returned resp). split; [exact Hat|exact Hr]. }
  exists st'. split; [exact Hrun|]. cbn [calls app] in Hcalls.
  destruct (normalize_response_returned resp r Hr) as [_ ->].
  do 4 (split; [reflexivity|]).
  split; [exact Hcalls|].
  rewrite Hcalls, length_firstn.
  assert (Hk : (k < List.length (forms user_id tool_slug arguments))%nat).
  { rewrite <- (replay_length client _ w). apply nth_error_Some. now rewrite Hat. }
  lia.
Qed.

(** C2 at a response that cannot be read.  The first strategy returns a
    value, so the claim's [k] is 0; reading the response raises a
    [TypeError], which the first [except] clause takes for a signature
    mismatch.  With a remote side that always answers so, [execute_tool]
    invokes all six strategies and reports that every attempt failed; with
    one that answers a mapping from the second invocation on, it returns
    the result of the second strategy. *)
Theorem execute_tool_retries_after_return :
  nth_error (replay (returning unreadable_response)
               (forms (VStr "user") "GOOGLEDRIVE_FIND_FILE" (VDict [])) tt) 0
  = Some (Returned unreadable_response)
  /\ calls (snd (execute_tool (returning unreadable_response) (VStr "user")
                   "GOOGLEDRIVE_FIND_FILE" (VDict []) (initial tt)))
     = forms (VStr "user") "GOOGLEDRIVE_FIND_FILE" (VDict [])
  /\ (exists r,
        fst (execute_tool (returning unreadable_response) (VStr "user")
               "GOOGLEDRIVE_FIND_FILE" (VDict []) (initial tt)) = Returned r
        /\ subscript r "ok" = VBool false
        /\ subscript r "data" = VNone
        /\ subscript r "error"
           = VStr ("All execute attempts failed. Last TypeError: "
                   ++ "not all arguments converted during string formatting"
                   ++ "; attempts: ["
                   ++ join ", "
                        (repeat ("('TypeError', "
                                 ++ "'not all arguments converted during string formatting')")
                           6)
                   ++ "]")%string)
  /\ nth_error (replay (unreadable_then (VDict [("data", VInt 1)]))
                  (forms (VStr "user") "GOOGLEDRIVE_FIND_FILE" (VDict [])) 0%nat) 0
     = Some (Returned unreadable_response)
  /\ calls (snd (execute_tool (unreadable_then (VDict [("data", VInt 1)])) (VStr "user")
                   "GOOGLEDRIVE_FIND_FILE" (VDict []) (initial 0%nat)))
     = firstn 2 (forms (VStr "user") "GOOGLEDRIVE_FIND_FILE" (VDict []))
  /\ fst (execute_tool (unreadable_then (VDict [("data", VInt 1)])) (VStr "user")
            "GOOGLEDRIVE_FIND_FILE" (VDict []) (initial 0%nat))
     = Returned (VDict [("ok", VBool true); ("data", VInt 1); ("error", VNone)]).
Proof.
  split; [reflexivity|]. split; [reflexivity|].
  split; [eexists; split; [reflexivity|]; repeat split|].
  split; [reflexivity|]. split; reflexivity.
Qed.




(** With a remote side that raises nothing outside [Exception], a tool
    call returns a result dictionary and is logged once. *)
Lemma execute_tool_total {World}
    (client : Invocation -> World -> Outcome PyVal * World)
    (user_id : PyVal) (tool_slug : string) (arguments : PyVal) (st : St World) :
  (forall inv w e, fst (client inv w) = Raised e -> is_Exception e = true) ->
  exists r st',
    execute_tool client user_id tool_slug arguments st = (Returned r, st')
    /\ dict_keys r = ["ok"; "data"; "error"]%string
    /\ tool_log st' = tool_log st ++ [(tool_slug, arguments)].
Proof.
  intros Hclient. rewrite execute_tool_eq.
  destruct (try_forms client _ None [] _) as [o st'] eqn:Hrun.
  destruct (try_forms_keeps_logs client _ _ _ _ _ _ Hrun) as [Hlog _].
  cbn [tool_log] in Hlog.
  destruct (try_forms_shape client _ _ _ _ _ _ Hrun)
    as [(inv & w & resp & r & _ & Hr & ->) | [(msg & ->) | (inv & w & e & Hc & Hx & _)]].
  - exists r, st'. split; [reflexivity|].
    destruct (normalize_response_returned resp r Hr) as [_ ->].
    split; [reflexivity|exact Hlog].
  - eexists _, st'. split; [reflexivity|]. split; [reflexivity|exact Hlog].
  - apply Hclient in Hc. congruence.
Qed.




(** C1, as the code has it.  Every run of [execute_tool] is decided by the
    first strategy whose attempt does not end in a [TypeError]; [k]
    strategies come before it, and the invocations made are the first
    [k + 1] strategies.  A result [execute_tool] returns is of one of two
    sorts.  When that strategy returned a response whose facets were read
    without an exception, [ok] and [error] are that response's [successful]
    facet (default [True]) and [error] facet (default [None]), each read on
    its own, so that the invariant holds of the result exactly when it
    holds of those two facets.  When that attempt raised an exception
    derived from [Exception], or when all six attempts ended in a
    [TypeError], the wrapper builds the result itself: [ok] is [False],
    [data] is [None] and [error] is a string, so that the invariant holds.
    In the one remaining case, an exception outside [Exception], nothing is
    returned. *)
Theorem execute_tool_result_facets {World}
    (client : Invocation -> World -> Outcome PyVal * World)
    (user_id : PyVal) (tool_slug : string) (arguments : PyVal) (st : St World) :
  exists k,
    (k <= 6)%nat
    /\ (forall i, (i < k)%nat ->
          exists o,
            nth_error (replay client (forms user_id tool_slug arguments) (world st)) i = Some o
            /\ mismatch (attempt o))
    /\ calls (snd (execute_tool client user_id tool_slug arguments st))
       = calls st ++ firstn (S k) (forms user_id tool_slug arguments)
    /\ (forall resp r,
          nth_error (replay client (forms user_id tool_slug arguments) (world st)) k
          = Some (Returned resp) ->
          normalize_response resp = Returned r ->
          fst (execute_tool client user_id tool_slug arguments st) = Returned r
          /\ subscript r "ok" = facet resp "successful" (VBool true)
          /\ subscript r "error" = facet resp "error" VNone
          /\ (ToolCallResult_invariant r <-> facets_consistent resp))
    /\ (forall o e,
          nth_error (replay client (forms user_id tool_slug arguments) (world st)) k = Some o ->
          attempt o = Raised e ->
          is_TypeError e = false
          /\ (is_Exception e = false ->
              fst (execute_tool client user_id tool_slug arguments st) = Raised e)
          /\ (is_Exception e = true ->
              exists r,
                fst (execute_tool client user_id tool_slug arguments st) = Returned r
                /\ subscript r "ok" = VBool false
                /\ subscript r "data" = VNone
                /\ subscript r "error"
                   = VStr (exc_str e ++ newline ++ exc_traceback e)%string
                /\ ToolCallResult_invariant r))
    /\ (nth_error (replay client (forms user_id tool_slug arguments) (world st)) k = None ->
          k = 6%nat
          /\ exists r msg,
               fst (execute_tool client user_id tool_slug arguments st) = Returned r
               /\ subscript r "ok" = VBool false
               /\ subscript r "data" = VNone
               /\ subscript r "error" = VStr msg
               /\ ToolCallResult_invariant r).
Proof.
  rewrite execute_tool_eq.
  destruct (try_forms_run client (forms user_id tool_slug arguments) None []
              (mkSt (world st) (calls st) (tool_log st ++ [(tool_slug, arguments)]) (out st)))
    as (k & Hk & Hbefore & Hcalls & Hret & Hexc & Hnone).
  cbn [world calls] in *.
  assert (Hfailure : forall msg,
             ToolCallResult_invariant (result_dict (VBool false) VNone (VStr msg))).
  { intros msg. split; [intros _; discriminate|reflexivity]. }
  exists k. split; [exact Hk|]. split; [exact Hbefore|]. split; [exact Hcalls|].
  split; [|split].
  - intros resp r Hat Hr. split; [exact (Hret (Returned resp) r Hat Hr)|].
    destruct (normalize_response_returned resp r Hr) as [_ ->].
    split; [reflexivity|]. split; [reflexivity|].
    unfold ToolCallResult_invariant, facets_consistent. cbn. reflexivity.
  - intros o e Hat He. destruct (Hexc o e Hat He) as [Ht Hrun].
    split; [exact Ht|]. split; intros Hx; rewrite Hx in Hrun; [exact Hrun|].
    eexists. split; [exact Hrun|]. do 3 (split; [reflexivity|]). apply Hfailure.
  - intros Hn. destruct (Hnone Hn) as (Hlen & msg & Hrun).
    split; [exact Hlen|]. eexists _, msg. split; [exact Hrun|].
    do 3 (split; [reflexivity|]). apply Hfailure.
Qed.

(** C1 as stated fails: a response that reports [successful: False] and
    carries no error is normalised to a result with [ok] false and [error]
    [None]. *)
Lemma execute_tool_breaks_invariant :
  exists r st',
    execute_tool (returning silent_failure_response) (VStr "user")
      "NOTION_INSERT_ROW_DATABASE" (VDict []) (initial tt) = (Returned r, st')
    /\ subscript r "ok" = VBool false
    /\ subscript r "error" = VNone
    /\ ~ ToolCallResult_invariant r.
Proof.
  eexists _, _. split; [reflexivity|]. cbn. repeat split.
  intros [H _]. now apply H.
Qed.

(** C4 at a response object whose [data] attribute is the empty list: the
    attribute is present, yet the result's [data] is the whole response and
    not the attribute's value, whereas the mapping with the same three facets
    keeps the empty list. *)
Theorem execute_tool_object_empty_data :
  hasattr empty_data_response "data" = true
  /\ getattr empty_data_response "data" VNone = VList []
  /\ fst (execute_tool (returning empty_data_response) (VStr "user") "GOOGLEDRIVE_FIND_FILE"
            (VDict []) (initial tt))
     = Returned (result_dict (VBool true) empty_data_response VNone)
  /\ fst (execute_tool (returning empty_data_mapping) (VStr "user") "GOOGLEDRIVE_FIND_FILE"
            (VDict []) (initial tt))
     = Returned (result_dict (VBool true) (VList []) VNone).
Proof.
  repeat split.
Qed.

(* ================================================================== *)
(** * Properties of parse_lessons *)
(* ================================================================== *)

Section SliceFacts.

Context {A : Type}.

Lemma firstn_min_length (n : nat) (l : list A) :
  firstn (Nat.min n (List.length l)) l = firstn n l.
Proof.
  destruct (Nat.le_ge_cases n (List.length l)) as [H|H].
  - now rewrite Nat.min_l.
  - rewrite Nat.min_r by exact H. now rewrite !firstn_all2 by lia.
Qed.

(** A slice with bounds [0 <= a <= b] is a [firstn] of a [skipn]. *)
Lemma py_slice_nonneg (l : list A) (a b : Z) :
  0 <= a <= b ->
  py_slice l a b = firstn (Z.to_nat (b - a)) (skipn (Z.to_nat a) l).
Proof.
  intros Hab. unfold py_slice, slice_bound.
  destruct (Z.ltb_spec a 0) as [?|_]; [lia|].
  destruct (Z.ltb_spec b 0) as [?|_]; [lia|].
  destruct (Z.le_gt_cases (Z.of_nat (List.length l)) a) as [Hlen|Hlen].
  - rewrite (skipn_all2 l (n := Z.to_nat a)) by lia.
    rewrite (skipn_all2 l (n := Z.to_nat (Z.min a (Z.of_nat (List.length l))))) by lia.
    now rewrite !firstn_nil.
  - rewrite (Z.min_l a) by lia.
    rewrite <- (firstn_min_length (Z.to_nat (b - a)) (skipn (Z.to_nat a) l)).
    rewrite length_skipn. f_equal. lia.
Qed.

(** [l[:n]] for a bound that is not negative. *)
Lemma py_slice_prefix (l : list A) (n : Z) :
  0 <= n -> py_slice l 0 n = firstn (Z.to_nat n) l.
Proof.
  intros Hn. rewrite py_slice_nonneg by lia.
  rewrite Z.sub_0_r. reflexivity.
Qed.

(** [l[a:len(l)]]. *)
Lemma py_slice_suffix (l : list A) (a : Z) :
  0 <= a -> py_slice l a (Z.of_nat (List.length l)) = skipn (Z.to_nat a) l.
Proof.
  intros Ha.
  destruct (Z.le_gt_cases a (Z.of_nat (List.length l))) as [Hlen|Hlen].
  - rewrite py_slice_nonneg by lia.
    apply firstn_all2. rewrite length_skipn. lia.
  - unfold py_slice, slice_bound.
    destruct (Z.ltb_spec a 0) as [?|_]; [lia|].
    destruct (Z.ltb_spec (Z.of_nat (List.length l)) 0) as [?|_]; [lia|].
    rewrite (Z.min_r a) by lia. rewrite Z.min_id, Z.sub_diag. cbn [Z.to_nat firstn].
    symmetry. apply skipn_all2. lia.
Qed.

(** Consecutive chunks of [c] items followed by what remains give the
    list back. *)
Lemma chunks_concat (c : nat) (l : list A) :
  forall m,
    List.concat (map (fun k => firstn c (skipn (k * c) l)) (seq 0 m)) ++ skipn (m * c) l = l.
Proof.
  induction m as [|m IH]; [reflexivity|].
  rewrite seq_S, map_app, concat_app. cbn [map List.concat Nat.add].
  rewrite app_nil_r, <- app_assoc.
  replace (S m * c)%nat with (c + m * c)%nat by lia.
  rewrite <- skipn_skipn, firstn_skipn. exact IH.
Qed.

End SliceFacts.

Lemma match_header_is_week_line (ln : string) :
  match_header ln = None <-> is_week_line ln = false.
Proof.
  unfold match_header, is_week_line.
  destruct (match_week_number ln) as [[g1 r]|]; split; intros H; try discriminate; reflexivity.
Qed.

Lemma header_title_not_week (ln : string) :
  is_week_line ln = false -> header_title ln = [].
Proof.
  intros H. apply match_header_is_week_line in H. unfold header_title. now rewrite H.
Qed.

(** The inner loop stops at the next header line or at the end, and skips
    no header. *)
Lemma collect_body_rest :
  forall ls desc_parts,
    header_titles (snd (collect_body ls desc_parts)) = header_titles ls
    /\ (List.length (snd (collect_body ls desc_parts)) <= List.length ls)%nat.
Proof.
  induction ls as [|l ls IH]; intros desc_parts; [split; reflexivity|].
  cbn [collect_body]. destruct (is_week_line l) eqn:Hl.
  - split; reflexivity.
  - destruct (IH (desc_parts ++ [l])) as [Ht Hlen]. split.
    + rewrite Ht. unfold header_titles. cbn [flat_map].
      now rewrite (header_title_not_week l Hl).
    + cbn [List.length]. lia.
Qed.

(** The header scan appends one lesson per header line, titled with the
    header, in the order of the lines. *)
Lemma scan_titles :
  forall fuel ls lessons,
    (List.length ls <= fuel)%nat ->
    map fst (scan fuel ls lessons) = map fst lessons ++ header_titles ls.
Proof.
  induction fuel as [|fuel IH]; intros ls lessons Hfuel.
  - destruct ls; [|cbn in Hfuel; lia]. cbn. now rewrite app_nil_r.
  - destruct ls as [|l rest]; [cbn; now rewrite app_nil_r|].
    cbn [scan]. unfold header_titles. cbn [flat_map]. unfold header_title at 1.
    destruct (match_header l) as [[header g2]|].
    + destruct (collect_body rest _) as [parts rest'] eqn:Hbody.
      pose proof (collect_body_rest rest
                    (if nonempty (strip g2) then [strip g2] else [])) as [Ht Hlen].
      rewrite Hbody in Ht, Hlen. cbn [snd] in Ht, Hlen.
      rewrite IH by (cbn in Hfuel; lia).
      rewrite map_app, <- app_assoc. cbn [map fst app]. now rewrite Ht.
    + rewrite IH by (cbn in Hfuel; lia). reflexivity.
Qed.

Lemma header_lessons_titles (lines : list string) :
  map fst (header_lessons lines) = header_titles lines.
Proof.
  unfold header_lessons. now rewrite scan_titles.
Qed.

Lemma header_titles_nil (lines : list string) :
  (forall ln, In ln lines -> is_week_line ln = false) -> header_titles lines = [].
Proof.
  induction lines as [|l lines IH]; intros H; [reflexivity|].
  unfold header_titles. cbn [flat_map].
  rewrite (header_title_not_week l) by (apply H; now left).
  apply IH. intros ln Hln. apply H. now right.
Qed.




(** The worked example of the design: two headers give two lessons. *)
Example parse_lessons_sample :
  parse_lessons sample_syllabus MAX_LESSONS
  = Returned [("Week 1", "Intro Hello"); ("Week 2", "Loops World")]%string.
Proof.
  reflexivity.
Qed.

(* ------------------------------------------------------------------ *)
(** ** Words *)
(* ------------------------------------------------------------------ *)

Lemma spaceless_app (a b : string) :
  spaceless (a ++ b)%string = spaceless a && spaceless b.
Proof.
  induction a as [|c a IH]; [reflexivity|].
  cbn. rewrite IH. now rewrite andb_assoc.
Qed.

Lemma nonempty_app_char (a : string) (c : ascii) :
  nonempty (a ++ String c "")%string = true.
Proof.
  destruct a; reflexivity.
Qed.

(** [split] yields words. *)
Lemma split_from_words :
  forall s cur,
    spaceless cur = true ->
    Forall (fun w => is_word w = true) (split_from s cur).
Proof.
  induction s as [|c s IH]; intros cur Hcur.
  - cbn. destruct cur; constructor; [|constructor].
    unfold is_word. now rewrite Hcur.
  - cbn [split_from]. destruct (isspace c) eqn:Hc.
    + destruct cur as [|c' cur'].
      * now apply IH.
      * constructor; [|now apply IH]. unfold is_word. now rewrite Hcur.
    + apply IH. rewrite spaceless_app, Hcur. cbn. now rewrite Hc.
Qed.

Lemma split_words (s : string) : Forall (fun w => is_word w = true) (split s).
Proof.
  now apply split_from_words.
Qed.

Lemma string_app_assoc (a b c : string) :
  ((a ++ b) ++ c = a ++ (b ++ c))%string.
Proof.
  induction a as [|x a IH]; [reflexivity|]. cbn. now rewrite IH.
Qed.

Lemma string_app_nil_r (a : string) : (a ++ "")%string = a.
Proof.
  induction a as [|x a IH]; [reflexivity|]. cbn. now rewrite IH.
Qed.

(** Reading a stretch free of white space only lengthens the current word. *)
Lemma split_from_spaceless :
  forall w rest cur,
    spaceless w = true ->
    split_from (w ++ rest)%string cur = split_from rest (cur ++ w)%string.
Proof.
  induction w as [|c w IH]; intros rest cur Hw.
  - cbn. now rewrite string_app_nil_r.
  - cbn in Hw. apply andb_prop in Hw as [Hc Hw].
    cbn [append split_from]. apply negb_true_iff in Hc. rewrite Hc.
    rewrite IH by exact Hw. now rewrite string_app_assoc.
Qed.

(** Splitting the words joined by single spaces gives the words back. *)
Lemma split_join_words :
  forall ws,
    Forall (fun w => is_word w = true) ws ->
    split (join " " ws) = ws.
Proof.
  induction ws as [|w ws IH]; intros Hws; [reflexivity|].
  inversion Hws as [|w' ws' Hw Hrest]; subst.
  unfold is_word in Hw. apply andb_prop in Hw as [Hne Hsp].
  unfold split in *. destruct ws as [|w2 ws].
  - cbn [join]. rewrite <- (string_app_nil_r w) at 1.
    rewrite split_from_spaceless by exact Hsp.
    cbn. destruct w; [discriminate|reflexivity].
  - change (join " " (w :: w2 :: ws)) with (w ++ " " ++ join " " (w2 :: ws))%string.
    rewrite split_from_spaceless by exact Hsp.
    cbn [append split_from]. change (isspace " ") with true. cbn iota.
    destruct w as [|c w]; [discriminate|]. cbn [append].
    f_equal. now apply IH.
Qed.

Lemma Forall_firstn_skipn {A} (P : A -> Prop) (l : list A) (n m : nat) :
  Forall P l -> Forall P (firstn n (skipn m l)).
Proof.
  intros H.
  rewrite <- (firstn_skipn m l) in H. apply Forall_app in H as [_ H].
  rewrite <- (firstn_skipn n (skipn m l)) in H. now apply Forall_app in H as [H _].
Qed.

(* ------------------------------------------------------------------ *)
(** ** The equal-chunk fallback *)
(* ------------------------------------------------------------------ *)

Lemma range_length (n : Z) : List.length (range n) = Z.to_nat n.
Proof.
  unfold range. now rewrite length_map, length_seq.
Qed.

Lemma range_nth (n k : Z) :
  0 <= k < n -> nth_error (range n) (Z.to_nat k) = Some k.
Proof.
  intros Hk. unfold range.
  rewrite nth_error_map, nth_error_seq.
  destruct (Nat.ltb_spec (Z.to_nat k) (Z.to_nat n)) as [_|?]; [|lia].
  cbn. f_equal. lia.
Qed.

(** The chunks the fallback cuts are consecutive and cover all the words. *)
Lemma fallback_chunks {A} (words : list A) (max_lessons chunk : Z) :
  0 < max_lessons ->
  0 < chunk ->
  List.concat
    (map (fun k => py_slice words (k * chunk)
                     (if k <? max_lessons - 1 then k * chunk + chunk
                      else Z.of_nat (List.length words)))
         (range max_lessons))
  = words.
Proof.
  intros Hmax Hchunk. unfold range.
  replace (Z.to_nat max_lessons) with (S (Z.to_nat (max_lessons - 1))) by lia.
  rewrite seq_S, !map_app, concat_app. cbn [map List.concat Nat.add].
  rewrite app_nil_r.
  destruct (Z.ltb_spec (Z.of_nat (Z.to_nat (max_lessons - 1))) (max_lessons - 1)) as [?|_];
    [lia|].
  rewrite py_slice_suffix by nia.
  etransitivity;
    [|exact (chunks_concat (Z.to_nat chunk) words (Z.to_nat (max_lessons - 1)))].
  f_equal.
  - f_equal. rewrite map_map. apply map_ext_in. intros k Hk. apply in_seq in Hk.
    destruct (Z.ltb_spec (Z.of_nat k) (max_lessons - 1)) as [_|?]; [|lia].
    rewrite py_slice_nonneg by nia.
    rewrite Z2Nat.inj_mul, Nat2Z.id by lia. f_equal. lia.
  - rewrite Z2Nat.inj_mul, Nat2Z.id by lia. reflexivity.
Qed.

(** C6.  When no line of the text is a header, the text holds a word and
    the bound is positive, [parse_lessons] returns exactly [max_lessons]
    lessons; lesson [k] (from 0) is titled "Week k+1" and its body joins
    the words of chunk [k]; every chunk but the last spans [chunk] words and
    the last runs to the end of the words; and the words of the bodies, taken
    in order, are the words of the text. *)
Theorem parse_lessons_fallback (text : string) (max_lessons : Z) :
  0 < max_lessons ->
  (forall ln, In ln (lines_of text) -> is_week_line ln = false) ->
  split text <> [] ->
  let words := split text in
  let total := Z.of_nat (List.length words) in
  let chunk := Z.max (total / max_lessons) 1 in
  exists lessons,
    parse_lessons text max_lessons = Returned lessons
    /\ Z.of_nat (List.length lessons) = max_lessons
    /\ (forall k, 0 <= k < max_lessons ->
          nth_error lessons (Z.to_nat k)
          = Some (("Week " ++ str_int (k + 1))%string,
                  join " " (py_slice words (k * chunk)
                              (if k <? max_lessons - 1 then k * chunk + chunk else total))))
    /\ nth_error lessons (Z.to_nat (max_lessons - 1))
       = Some (("Week " ++ str_int max_lessons)%string,
               join " " (skipn (Z.to_nat ((max_lessons - 1) * chunk)) words))
    /\ List.concat (map (fun l : Lesson => split (snd l)) lessons) = words.
Proof.
  intros Hmax Hnone Hwords words total chunk.
  assert (Hchunk : 0 < chunk) by (unfold chunk; lia).
  assert (Hscan : header_lessons (lines_of text) = []).
  { apply (map_eq_nil fst). rewrite header_lessons_titles. now apply header_titles_nil. }
  assert (Htotal : total <> 0).
  { unfold total, words. destruct (split text); [congruence|cbn; lia]. }
  set (lessons := map (chunk_lesson words total chunk max_lessons) (range max_lessons)).
  assert (Hlen : List.length lessons = Z.to_nat max_lessons).
  { unfold lessons. now rewrite length_map, range_length. }
  assert (Hnth : forall k, 0 <= k < max_lessons ->
                   nth_error lessons (Z.to_nat k)
                   = Some (chunk_lesson words total chunk max_lessons k)).
  { intros k Hk. unfold lessons. rewrite nth_error_map, range_nth by exact Hk. reflexivity. }
  exists lessons. split; [|split; [lia|split; [exact Hnth|split]]].
  - unfold parse_lessons. rewrite Hscan. unfold fallback.
    fold words. fold total.
    destruct (Z.eqb_spec total 0) as [?|_]; [contradiction|].
    destruct (Z.eqb_spec max_lessons 0) as [?|_]; [lia|].
    fold chunk. fold lessons. f_equal.
    rewrite py_slice_prefix by lia. apply firstn_all2. lia.
  - rewrite Hnth by lia. unfold chunk_lesson.
    destruct (Z.ltb_spec (max_lessons - 1) (max_lessons - 1)) as [?|_]; [lia|].
    unfold total. rewrite py_slice_suffix by nia.
    now replace (max_lessons - 1 + 1) with max_lessons by lia.
  - unfold lessons. rewrite map_map. cbn [chunk_lesson snd].
    etransitivity; [|exact (fallback_chunks words max_lessons chunk Hmax Hchunk)].
    f_equal. apply map_ext. intros k. fold total.
    apply split_join_words. unfold py_slice.
    apply Forall_firstn_skipn, split_words.
Qed.

Lemma parse_lessons_fallback_witness :
  let words := split sample_notes in
  let total := Z.of_nat (List.length words) in
  let chunk := Z.max (total / 3) 1 in
  exists lessons,
    parse_lessons sample_notes 3 = Returned lessons
    /\ Z.of_nat (List.length lessons) = 3
    /\ (forall k, 0 <= k < 3 ->
          nth_error lessons (Z.to_nat k)
          = Some (("Week " ++ str_int (k + 1))%string,
                  join " " (py_slice words (k * chunk)
                              (if k <? 3 - 1 then k * chunk + chunk else total))))
    /\ nth_error lessons (Z.to_nat (3 - 1))
       = Some (("Week " ++ str_int 3)%string,
               join " " (skipn (Z.to_nat ((3 - 1) * chunk)) words))
    /\ List.concat (map (fun l : Lesson => split (snd l)) lessons) = words.
Proof.
  apply (parse_lessons_fallback sample_notes 3).
  - lia.
  - intros ln Hln. vm_compute in Hln.
    destruct Hln as [<-|[<-|[]]]; reflexivity.
  - vm_compute. discriminate.
Defined.

(** Seven words in three chunks: two, two, and the last takes three. *)
Example parse_lessons_notes :
  parse_lessons sample_notes 3
  = Returned [("Week 1", "intro to"); ("Week 2", "loops then");
              ("Week 3", "lists and maps")]%string.
Proof.
  reflexivity.
Qed.

(* ================================================================== *)
(** * Properties of the directory sweep *)
(* ================================================================== *)

(** Inside one directory the file with the configured name wins, wherever
    it stands among the directory's files. *)
Lemma sweep_files_exact (abspath : string -> string) (name root : string) :
  forall files local_path,
    In name files ->
    sweep_files abspath name root files local_path = Some (abspath (path_join root name)).
Proof.
  induction files as [|fname files IH]; intros local_path Hin; [contradiction|].
  cbn [sweep_files]. destruct (String.eqb_spec fname name) as [->|Hne].
  - reflexivity.
  - destruct Hin as [?|Hin]; [congruence|].
    cbn [orb]. destruct (endswith (lower fname) ".pdf").
    + destruct (negb (path_found local_path)); now apply IH.
    + now apply IH.
Qed.

(** C8 at a download directory with [notes.pdf] at its top and
    [syllabus.pdf] one level down: the only file with the configured name is
    the one in [week1], yet the sweep stops in the top directory and yields
    the stray PDF. *)
Theorem directory_sweep_stray_pdf :
  paths_named "syllabus.pdf" "/srv/downloads" stray_pdf_tree
  = ["/srv/downloads/week1/syllabus.pdf"]%string
  /\ directory_sweep abspath_of_absolute "syllabus.pdf" "/srv/downloads" stray_pdf_tree
     = Some "/srv/downloads/notes.pdf"%string.
Proof.
  split; reflexivity.
Qed.

(* ================================================================== *)
(** * Properties of the schedule *)
(* ================================================================== *)

Lemma valid_datetime_bounds (dt : datetime) :
  valid_datetime dt = true ->
  1 <= ordinal dt <= MAXORDINAL
  /\ 0 <= hour dt < 24 /\ 0 <= minute dt < 60 /\ 0 <= second dt < 60
  /\ 0 <= microsecond dt < 1000000.
Proof.
  unfold valid_datetime. rewrite !andb_true_iff, !Z.leb_le, !Z.ltb_lt. tauto.
Qed.

Lemma timedelta_weeks_small (i : Z) :
  0 <= i -> 7 * i <= MAXORDINAL ->
  timedelta_weeks i = Returned (mkTimedelta (7 * i) 0 0).
Proof.
  intros Hi Hmax. unfold timedelta_weeks, make_timedelta, MAX_DELTA_DAYS, MAXORDINAL in *.
  cbn [Z.div Z.modulo Z.div_eucl Z.add]. rewrite !Z.add_0_r.
  destruct (Z.gtb_spec (Z.abs (7 * i)) 999999999) as [?|_]; [lia|reflexivity].
Qed.

(** Adding whole days to a valid datetime moves the ordinal and leaves the
    time of day alone. *)
Lemma datetime_add_days (dt : datetime) (d : Z) :
  valid_datetime dt = true ->
  0 < ordinal dt + d <= MAXORDINAL ->
  datetime_add dt (mkTimedelta d 0 0)
  = Returned (mkDatetime (ordinal dt + d) (hour dt) (minute dt) (second dt) (microsecond dt)).
Proof.
  intros Hvalid Hrange.
  apply valid_datetime_bounds in Hvalid as (_ & Hh & Hm & Hs & Hus).
  unfold datetime_add. cbn [days seconds microseconds]. rewrite !Z.add_0_r.
  rewrite (Z.div_small (microsecond dt)), (Z.mod_small (microsecond dt)) by lia.
  rewrite Z.add_0_r.
  set (s := hour dt * 3600 + minute dt * 60 + second dt).
  assert (Hs86400 : 0 <= s < 86400) by (unfold s; lia).
  rewrite (Z.div_small s), (Z.mod_small s), Z.add_0_r by lia.
  destruct (Z.ltb_spec 0 (ordinal dt + d)) as [_|?]; [|lia].
  destruct (Z.leb_spec (ordinal dt + d) MAXORDINAL) as [_|?]; [|lia].
  cbn [andb]. do 2 f_equal.
  - symmetry. apply (Z.div_unique s 3600 (hour dt) (minute dt * 60 + second dt)); lia.
  - assert (Hmod : s mod 3600 = minute dt * 60 + second dt).
    { symmetry. apply (Z.mod_unique s 3600 (hour dt)); lia. }
    rewrite Hmod. symmetry.
    apply (Z.div_unique _ 60 (minute dt) (second dt)); lia.
  - symmetry. apply (Z.mod_unique s 60 (hour dt * 60 + minute dt)); unfold s; lia.
Qed.

Lemma event_time_in_range (dt0 : datetime) (i : Z) :
  valid_datetime dt0 = true ->
  0 <= i ->
  ordinal dt0 + 7 * i <= MAXORDINAL ->
  event_time dt0 i = Returned (week_offset dt0 i).
Proof.
  intros Hvalid Hi Hmax.
  pose proof (valid_datetime_bounds dt0 Hvalid) as (Hord & _).
  unfold event_time. rewrite timedelta_weeks_small by lia.
  rewrite datetime_add_days by (try exact Hvalid; lia). reflexivity.
Qed.






(** The worked example of the design: 2024-01-08 at 09:00 and two lessons. *)
Example event_times_sample :
  map (fun k => match event_time (mkDatetime 738893 9 0 0 0) k with
                | Returned dt => isoformat dt
                | Raised _ => ""%string
                end) [0; 1]
  = ["2024-01-08T09:00:00"; "2024-01-15T09:00:00"]%string.
Proof.
  reflexivity.
Qed.

(* ================================================================== *)
(** * Properties of the per-lesson writes *)
(* ================================================================== *)

Section WriteProperties.

Context {World : Type}.
Variable client : Invocation -> World -> Outcome PyVal * World.
Variable user_id : PyVal.

(** The remote side raises nothing outside [Exception]. *)
Hypothesis client_raises_exceptions :
  forall inv w e, fst (client inv w) = Raised e -> is_Exception e = true.

Lemma bind_returned {A B} (m : M World A) (k : A -> M World B) st a st' :
  m st = (Returned a, st') -> bind m k st = k a st'.
Proof.
  intros H. unfold bind. now rewrite H.
Qed.

(** One turn of either loop: the write is requested and logged, its
    outcome is printed, and the run goes on, whatever [ok] says. *)
Lemma write_and_report (tool_slug : string) (arguments : PyVal)
    (failure success : string) (st : St World) :
  exists st',
    (res <- execute_tool client user_id tool_slug arguments ;;
     if negb (truthy (subscript res "ok"))
     then print (LogError failure (subscript res "error"))
     else print (LogInfo success)) st
    = (Returned tt, st')
    /\ tool_log st' = tool_log st ++ [(tool_slug, arguments)].
Proof.
  destruct (execute_tool_total client user_id tool_slug arguments st
              client_raises_exceptions) as (r & st1 & Hrun & _ & Hlog).
  rewrite (bind_returned _ _ _ _ _ Hrun).
  destruct (negb (truthy (subscript r "ok"))); eexists; (split; [reflexivity|exact Hlog]).
Qed.

Lemma notion_loop_all (database_id : string) :
  forall lessons (st : St World),
    exists st',
      notion_loop client user_id database_id lessons st = (Returned tt, st')
      /\ tool_log st'
         = tool_log st
           ++ map (fun l : Lesson =>
                     ("NOTION_INSERT_ROW_DATABASE"%string,
                      notion_row_arguments database_id (fst l) (snd l))) lessons.
Proof.
  induction lessons as [|[title desc] rest IH]; intros st.
  - exists st. cbn. now rewrite app_nil_r.
  - cbn [notion_loop].
    set (st0 := mkSt (world st) (calls st) (tool_log st)
                     (out st ++ [LogInfo (" -> Notion row: " ++ title)%string])).
    destruct (write_and_report "NOTION_INSERT_ROW_DATABASE"
                (notion_row_arguments database_id title desc)
                "Notion create failed: " "   Notion row created." st0)
      as (st1 & Hstep & Hlog1).
    destruct (IH st1) as (st2 & Hrest & Hlog2).
    exists st2. split.
    + unfold bind at 1. cbn [print]. fold st0.
      unfold create_notion_row.
      unfold bind at 1. unfold bind at 1 in Hstep.
      destruct (execute_tool client user_id _ _ st0) as [[r|e] stx]; [|discriminate].
      unfold bind at 1. rewrite Hstep. exact Hrest.
    + rewrite Hlog2, Hlog1. subst st0. cbn [tool_log map fst snd].
      now rewrite <- app_assoc.
Qed.

Lemma calendar_loop_all (cfg : Config) (dt0 : datetime) :
  valid_datetime dt0 = true ->
  forall lessons i (st : St World),
    0 <= i ->
    ordinal dt0 + 7 * (i + Z.of_nat (List.length lessons) - 1) <= MAXORDINAL ->
    exists st',
      calendar_loop client user_id cfg dt0 i lessons st = (Returned tt, st')
      /\ tool_log st' = tool_log st ++ calendar_writes cfg dt0 i lessons.
Proof.
  intros Hvalid.
  induction lessons as [|[title desc] rest IH]; intros i st Hi Hmax.
  - exists st. cbn. now rewrite app_nil_r.
  - cbn [List.length] in Hmax. cbn [calendar_loop calendar_writes fst snd].
    unfold bind at 1. unfold lift.
    rewrite event_time_in_range by (try exact Hvalid; lia).
    set (start_iso := isoformat (week_offset dt0 i)).
    unfold bind at 1. cbn [print].
    set (st0 := mkSt (world st) (calls st) (tool_log st) _).
    destruct (write_and_report CALENDAR_CREATE_EVENT_SLUG
                (calendar_event_arguments (CALENDAR_ID cfg) start_iso (TIMEZONE cfg)
                   title desc)
                "Calendar create failed: " "   Event created." st0)
      as (st1 & Hstep & Hlog1).
    destruct (IH (i + 1) st1 ltac:(lia) ltac:(lia)) as (st2 & Hrest & Hlog2).
    exists st2. split.
    + unfold create_calendar_event.
      unfold bind at 1. unfold bind at 1 in Hstep.
      destruct (execute_tool client user_id _ _ st0) as [[r|e] stx]; [|discriminate].
      unfold bind at 1. rewrite Hstep. exact Hrest.
    + rewrite Hlog2, Hlog1. subst st0. cbn [tool_log].
      now rewrite <- app_assoc.
Qed.

End WriteProperties.

Lemma replace_time_valid (start dt0 : datetime) (hh mm : Z) :
  valid_datetime start = true ->
  replace_time start hh mm = Returned dt0 ->
  valid_datetime dt0 = true /\ dt0 = mkDatetime (ordinal start) hh mm 0 0.
Proof.
  intros Hvalid Hrep.
  apply valid_datetime_bounds in Hvalid as (Hord & _).
  unfold replace_time in Hrep.
  destruct (0 <=? hh) eqn:H1, (hh <? 24) eqn:H2; try discriminate.
  destruct (0 <=? mm) eqn:H3, (mm <? 60) eqn:H4; try discriminate.
  cbn in Hrep. injection Hrep as <-. split; [|reflexivity].
  unfold valid_datetime. cbn [ordinal hour minute second microsecond].
  rewrite H1, H2, H3, H4.
  destruct (Z.leb_spec 1 (ordinal start)) as [_|?]; [|lia].
  destruct (Z.leb_spec (ordinal start) MAXORDINAL) as [_|?]; [|lia].
  reflexivity.
Qed.

(** C9.  Whatever the remote side answers to each write, in particular
    when it answers [ok: False], the run of the two loops is not cut short:
    it ends normally, and the tool calls it requested are one row insertion
    per lesson followed by one event creation per lesson, in the order of the
    lessons.  The remote side is taken to raise nothing outside [Exception],
    the start time to be a time of day, and the last lesson to fall on or
    before 9999-12-31. *)
Theorem write_lessons_attempts_all {World}
    (client : Invocation -> World -> Outcome PyVal * World)
    (user_id : PyVal) (cfg : Config) (start dt0 : datetime) (hh mm : Z)
    (lessons : list Lesson) (w : World) :
  (forall inv w' e, fst (client inv w') = Raised e -> is_Exception e = true) ->
  valid_datetime start = true ->
  replace_time start hh mm = Returned dt0 ->
  ordinal dt0 + 7 * (Z.of_nat (List.length lessons) - 1) <= MAXORDINAL ->
  exists st',
    write_lessons client user_id cfg start hh mm lessons (initial w) = (Returned tt, st')
    /\ tool_log st' = notion_writes cfg lessons ++ calendar_writes cfg dt0 0 lessons.
Proof.
  intros Hclient Hvalid Hrep Hmax.
  destruct (replace_time_valid start dt0 hh mm Hvalid Hrep) as [Hvalid0 _].
  unfold write_lessons.
  assert (Hnotion : exists st1,
             (match NOTION_DATABASE_ID cfg with
              | Some database_id =>
                  if nonempty database_id
                  then print (LogInfo "Creating Notion rows...") ;;;
                       notion_loop client user_id database_id lessons
                  else print (LogInfo "NOTION_DATABASE_ID not set; skipping Notion creation.")
              | None => print (LogInfo "NOTION_DATABASE_ID not set; skipping Notion creation.")
              end) (initial w) = (Returned tt, st1)
             /\ tool_log st1 = notion_writes cfg lessons).
  { unfold notion_writes. destruct (NOTION_DATABASE_ID cfg) as [database_id|].
    - destruct (nonempty database_id).
      + unfold bind at 1. cbn [print].
        destruct (notion_loop_all client user_id Hclient database_id lessons
                    (mkSt w [] [] ([] ++ [LogInfo "Creating Notion rows..."])))
          as (st1 & Hrun & Hlog).
        exists st1. split; [exact Hrun|exact Hlog].
      + eexists. split; reflexivity.
    - eexists. split; reflexivity. }
  destruct Hnotion as (st1 & Hrun1 & Hlog1).
  rewrite (bind_returned _ _ _ _ _ Hrun1).
  unfold bind at 1. unfold lift. rewrite Hrep.
  unfold bind at 1. cbn [print].
  set (st2 := mkSt (world st1) (calls st1) (tool_log st1) _).
  destruct (calendar_loop_all client user_id Hclient cfg dt0 Hvalid0 lessons 0 st2
              ltac:(lia) ltac:(lia)) as (st3 & Hrun3 & Hlog3).
  rewrite (bind_returned _ _ _ _ _ Hrun3).
  eexists. split; [reflexivity|].
  cbn [print tool_log]. rewrite Hlog3. subst st2. cbn [tool_log]. now rewrite Hlog1.
Qed.

Lemma write_lessons_attempts_all_witness :
  exists st',
    write_lessons rejecting (VStr "user") sample_config sample_start 9 0 two_lessons
      (initial tt) = (Returned tt, st')
    /\ tool_log st'
       = notion_writes sample_config two_lessons
         ++ calendar_writes sample_config (mkDatetime 738893 9 0 0 0) 0 two_lessons.
Proof.
  apply (write_lessons_attempts_all rejecting (VStr "user") sample_config sample_start
           (mkDatetime 738893 9 0 0 0) 9 0 two_lessons tt).
  - intros inv w' e He. unfold rejecting, returning in He. simpl in He. discriminate.
  - reflexivity.
  - reflexivity.
  - vm_compute. discriminate.
Defined.

(** With a remote side that refuses every write, the four writes of two
    lessons are all made and all reported. *)
Example write_lessons_all_rejected :
  map fst (tool_log (snd (write_lessons rejecting (VStr "user") sample_config sample_start
                            9 0 two_lessons (initial tt))))
  = ["NOTION_INSERT_ROW_DATABASE"; "NOTION_INSERT_ROW_DATABASE";
     "GOOGLECALENDAR_CREATE_EVENT"; "GOOGLECALENDAR_CREATE_EVENT"]%string
  /\ List.length (filter (fun l => match l with LogError _ _ => true | LogInfo _ => false end)
                    (out (snd (write_lessons rejecting (VStr "user") sample_config
                                 sample_start 9 0 two_lessons (initial tt)))))
     = 4%nat.
Proof.
  split; reflexivity.
Qed.

(* ================================================================== *)
(** * Further properties of execute_tool *)
(* ================================================================== *)

Lemma last_cons_default {A} (x : A) (l : list A) (d1 d2 : A) :
  last (x :: l) d1 = last (x :: l) d2.
Proof.
  revert x. induction l as [|y l IH]; intros x; [reflexivity|].
  change (last (x :: y :: l) d1) with (last (y :: l) d1).
  change (last (x :: y :: l) d2) with (last (y :: l) d2).
  apply IH.
Qed.

Lemma last_mismatch_cons (last_exc : option Exc) (e : Exc) (es : list Exc) :
  last_mismatch last_exc (e :: es) = last_mismatch (Some e) es.
Proof.
  unfold last_mismatch. cbn [map].
  destruct es as [|e' es]; [reflexivity|]. cbn [map].
  change (last (Some e :: Some e' :: map Some es) last_exc)
    with (last (Some e' :: map Some es) last_exc).
  apply last_cons_default.
Qed.

Section ExhaustedStrategies.

Context {World : Type}.
Variable client : Invocation -> World -> Outcome PyVal * World.

(** When every remaining strategy raises a signature mismatch the loop
    tries them all and reports them all. *)
Lemma try_forms_all_mismatch :
  forall fs es last_exc attempts (st : St World),
    replay client fs (world st) = map Raised es ->
    Forall (fun e => is_TypeError e = true) es ->
    exists st',
      try_forms client fs last_exc attempts st
      = (Returned (result_dict (VBool false) VNone
                     (VStr (exhausted_message (last_mismatch last_exc es)
                              (attempts ++ attempts_of es)))), st')
      /\ calls st' = calls st ++ fs.
Proof.
  induction fs as [|f fs IH]; intros es last_exc attempts st Hreplay Hes.
  - destruct es; [|discriminate]. exists st. cbn. now rewrite !app_nil_r.
  - rewrite replay_cons in Hreplay. destruct es as [|e es]; [discriminate|].
    cbn [map] in Hreplay. injection Hreplay as Hf Hrest.
    inversion Hes as [|e' es' He Hes']; subst.
    rewrite try_forms_cons, Hf. cbn [attempt]. rewrite He.
    set (st1 := mkSt _ _ _ _).
    destruct (IH es (Some e) (attempts ++ [("TypeError"%string, exc_str e)]) st1 Hrest Hes')
      as (st' & Hrun & Hcalls).
    exists st'. split.
    + rewrite Hrun, last_mismatch_cons. unfold attempts_of. cbn [map].
      now rewrite <- app_assoc.
    + rewrite Hcalls. subst st1. cbn [calls]. now rewrite <- app_assoc.
Qed.

(** The loop invokes a prefix of the strategies, in their order, and at
    least one of them when there is one. *)
Lemma try_forms_calls_prefix :
  forall fs last_exc attempts (st : St World),
    exists n,
      (n <= List.length fs)%nat
      /\ (fs <> [] -> (1 <= n)%nat)
      /\ calls (snd (try_forms client fs last_exc attempts st)) = calls st ++ firstn n fs.
Proof.
  induction fs as [|f fs IH]; intros last_exc attempts st.
  - exists 0%nat. cbn. rewrite app_nil_r. repeat split; [lia|congruence].
  - rewrite try_forms_cons.
    destruct (attempt (fst (client f (world st)))) as [r|e].
    + exists 1%nat. cbn. repeat split; lia.
    + destruct (is_TypeError e).
      * set (st1 := mkSt _ _ _ _).
        destruct (IH (Some e) (attempts ++ [("TypeError"%string, exc_str e)]) st1)
          as (n & Hn & _ & Hcalls).
        exists (S n). cbn [List.length firstn]. split; [lia|]. split; [lia|].
        rewrite Hcalls. subst st1. cbn [calls]. now rewrite <- app_assoc.
      * exists 1%nat. destruct (is_Exception e); cbn; repeat split; lia.
Qed.

End ExhaustedStrategies.

(** When all six strategies raise a signature mismatch, [execute_tool]
    has invoked the six of them, in order, and returns a failure whose text
    names the last mismatch and lists every attempt. *)
Theorem execute_tool_all_mismatch {World}
    (client : Invocation -> World -> Outcome PyVal * World)
    (user_id : PyVal) (tool_slug : string) (arguments : PyVal) (w : World)
    (es : list Exc) :
  replay client (forms user_id tool_slug arguments) w = map Raised es ->
  Forall (fun e => is_TypeError e = true) es ->
  exists st',
    execute_tool client user_id tool_slug arguments (initial w)
    = (Returned (result_dict (VBool false) VNone
                   (VStr (exhausted_message (last_mismatch None es) (attempts_of es)))), st')
    /\ calls st' = forms user_id tool_slug arguments
    /\ List.length es = 6%nat.
Proof.
  intros Hreplay Hes. rewrite execute_tool_eq.
  destruct (try_forms_all_mismatch client (forms user_id tool_slug arguments) es None []
              (mkSt w [] ([] ++ [(tool_slug, arguments)]) []) Hreplay Hes)
    as (st' & Hrun & Hcalls).
  exists st'. split; [exact Hrun|]. split; [exact Hcalls|].
  apply (f_equal (@List.length _)) in Hreplay.
  rewrite replay_length, length_map in Hreplay. now rewrite <- Hreplay.
Qed.

Lemma execute_tool_all_mismatch_witness :
  exists st',
    execute_tool always_mismatch (VStr "user") "GOOGLEDRIVE_FIND_FILE" (VDict []) (initial tt)
    = (Returned (result_dict (VBool false) VNone
                   (VStr (exhausted_message
                            (last_mismatch None
                               (repeat (mkExc TypeError "execute() takes 1 positional argument"
                                          "Traceback") 6))
                            (attempts_of
                               (repeat (mkExc TypeError "execute() takes 1 positional argument"
                                          "Traceback") 6))))), st')
    /\ calls st' = forms (VStr "user") "GOOGLEDRIVE_FIND_FILE" (VDict [])
    /\ List.length (repeat (mkExc TypeError "execute() takes 1 positional argument"
                              "Traceback") 6) = 6%nat.
Proof.
  apply (execute_tool_all_mismatch always_mismatch (VStr "user") "GOOGLEDRIVE_FIND_FILE"
           (VDict []) tt).
  - reflexivity.
  - repeat constructor.
Defined.

(** One tool call costs between one and six invocations of the remote
    side, and they are the first strategies of the list, in order. *)
Theorem execute_tool_invocations_bounded {World}
    (client : Invocation -> World -> Outcome PyVal * World)
    (user_id : PyVal) (tool_slug : string) (arguments : PyVal) (st : St World) :
  exists n,
    (1 <= n <= 6)%nat
    /\ calls (snd (execute_tool client user_id tool_slug arguments st))
       = calls st ++ firstn n (forms user_id tool_slug arguments).
Proof.
  rewrite execute_tool_eq.
  destruct (try_forms_calls_prefix client (forms user_id tool_slug arguments) None []
              (mkSt (world st) (calls st) (tool_log st ++ [(tool_slug, arguments)]) (out st)))
    as (n & Hn & Hpos & Hcalls).
  exists n. split; [|exact Hcalls].
  split; [apply Hpos; discriminate|exact Hn].
Qed.

(* ================================================================== *)
(** * Further properties of parse_lessons *)
(* ================================================================== *)

(** The count of turns given to the outer loop does not matter once it
    covers the lines. *)
Lemma scan_two_fuels :
  forall fuel1 fuel2 ls acc1 acc2,
    (List.length ls <= fuel1)%nat ->
    (List.length ls <= fuel2)%nat ->
    exists tail, scan fuel1 ls acc1 = acc1 ++ tail /\ scan fuel2 ls acc2 = acc2 ++ tail.
Proof.
  induction fuel1 as [|fuel1 IH]; intros fuel2 ls acc1 acc2 H1 H2.
  - destruct ls; [|cbn in H1; lia]. exists []. rewrite !app_nil_r.
    split; [reflexivity|now destruct fuel2].
  - destruct ls as [|l rest].
    + exists []. rewrite !app_nil_r. split; [reflexivity|now destruct fuel2].
    + destruct fuel2 as [|fuel2]; [cbn in H2; lia|].
      cbn [List.length] in H1, H2. cbn [scan].
      destruct (match_header l) as [[header g2]|].
      * pose proof (collect_body_rest rest
                      (if nonempty (strip g2) then [strip g2] else [])) as [_ Hlen].
        destruct (collect_body rest _) as [parts rest']. cbn [snd] in Hlen.
        destruct (IH fuel2 rest'
                    (acc1 ++ [(header, strip (join " " parts))])
                    (acc2 ++ [(header, strip (join " " parts))])
                    ltac:(lia) ltac:(lia)) as (tail & E1 & E2).
        exists ((header, strip (join " " parts)) :: tail).
        rewrite E1, E2, <- !app_assoc. split; reflexivity.
      * apply IH; lia.
Qed.

Lemma scan_eq (fuel : nat) (ls : list string) (acc : list Lesson) :
  (List.length ls <= fuel)%nat -> scan fuel ls acc = acc ++ header_lessons ls.
Proof.
  intros Hfuel.
  destruct (scan_two_fuels fuel (List.length ls) ls acc [] Hfuel (Nat.le_refl _))
    as (tail & E1 & E2).
  unfold header_lessons. now rewrite E1, E2.
Qed.

Lemma header_lessons_skip (l : string) (rest : list string) :
  is_week_line l = false -> header_lessons (l :: rest) = header_lessons rest.
Proof.
  intros Hl. apply match_header_is_week_line in Hl.
  unfold header_lessons. cbn [List.length scan]. now rewrite Hl.
Qed.

Lemma header_lessons_header (l : string) (rest : list string) (title g2 : string) :
  match_header l = Some (title, g2) ->
  header_lessons (l :: rest)
  = (title, strip (join " " (fst (collect_body rest (header_rest l)))))
    :: header_lessons (snd (collect_body rest (header_rest l))).
Proof.
  intros Hl. unfold header_lessons at 1, header_rest. cbn [List.length scan]. rewrite Hl.
  pose proof (collect_body_rest rest
                (if nonempty (strip g2) then [strip g2] else [])) as [_ Hlen].
  destruct (collect_body rest _) as [parts rest']. cbn [fst snd] in *.
  now rewrite scan_eq.
Qed.

(** The inner loop takes the lines up to the next header line. *)
Lemma collect_body_app (body rest : list string) :
  Forall (fun ln => is_week_line ln = false) body ->
  match rest with
  | [] => True
  | r :: _ => is_week_line r = true
  end ->
  forall desc_parts, collect_body (body ++ rest) desc_parts = (desc_parts ++ body, rest).
Proof.
  intros Hbody Hrest. induction Hbody as [|b body Hb _ IH]; intros desc_parts.
  - rewrite app_nil_r. destruct rest as [|r rest]; [reflexivity|].
    cbn. now rewrite Hrest.
  - cbn [app collect_body]. rewrite Hb, IH, <- app_assoc. reflexivity.
Qed.

(** The lines before the first header line leave no trace in the lessons. *)
Theorem header_lessons_preamble (preamble ls : list string) :
  Forall (fun ln => is_week_line ln = false) preamble ->
  header_lessons (preamble ++ ls) = header_lessons ls.
Proof.
  induction 1 as [|l preamble Hl _ IH]; [reflexivity|].
  cbn [app]. now rewrite header_lessons_skip.
Qed.

Lemma header_lessons_preamble_witness :
  header_lessons (["Course outline"; "Weekly plan"] ++ ["Week 1: Intro"; "Hello"])
  = header_lessons ["Week 1: Intro"; "Hello"].
Proof.
  apply (header_lessons_preamble ["Course outline"; "Weekly plan"]
           ["Week 1: Intro"; "Hello"]).
  repeat constructor.
Defined.

(** A header line followed by lines that are no headers, up to the next
    header line or the end, gives one lesson: its title is the header, its
    description joins with single spaces the text that follows the header on
    its line (when there is some) and the lines of the block, stripped; the
    scan then goes on from the next header line. *)
Theorem header_lessons_block (h title g2 : string) (body rest : list string) :
  match_header h = Some (title, g2) ->
  Forall (fun ln => is_week_line ln = false) body ->
  match rest with
  | [] => True
  | r :: _ => is_week_line r = true
  end ->
  header_lessons (h :: body ++ rest)
  = (title, strip (join " " (header_rest h ++ body))) :: header_lessons rest.
Proof.
  intros Hh Hbody Hrest.
  rewrite (header_lessons_header h (body ++ rest) title g2 Hh).
  now rewrite (collect_body_app body rest Hbody Hrest).
Qed.

Lemma header_lessons_block_witness :
  header_lessons ("Week 1: Intro" :: ["Hello"; "World"] ++ ["Week 2"])
  = ("Week 1", strip (join " " (header_rest "Week 1: Intro" ++ ["Hello"; "World"])))
    :: header_lessons ["Week 2"].
Proof.
  apply (header_lessons_block "Week 1: Intro" "Week 1" "Intro" ["Hello"; "World"]
           ["Week 2"]).
  - reflexivity.
  - repeat constructor.
  - reflexivity.
Defined.

(* ------------------------------------------------------------------ *)
(** ** Bounds and degenerate inputs *)
(* ------------------------------------------------------------------ *)

Lemma py_slice_prefix_length {A} (l : list A) (n : Z) :
  0 <= n -> Z.of_nat (List.length (py_slice l 0 n)) <= n.
Proof.
  intros Hn. rewrite py_slice_prefix by exact Hn. rewrite length_firstn. lia.
Qed.

(** [l[:n]] for a negative [n] drops the last [-n] items. *)
Lemma py_slice_prefix_negative {A} (l : list A) (n : Z) :
  n < 0 -> py_slice l 0 n = firstn (List.length l - Z.to_nat (- n)) l.
Proof.
  intros Hn. unfold py_slice, slice_bound.
  destruct (Z.ltb_spec 0 0) as [?|_]; [lia|].
  destruct (Z.ltb_spec n 0) as [_|?]; [|lia].
  rewrite Z.min_l by lia. cbn [Z.to_nat skipn]. rewrite Z.sub_0_r.
  f_equal. lia.
Qed.

Lemma no_header_lessons (text : string) :
  (forall ln, In ln (lines_of text) -> is_week_line ln = false) ->
  header_lessons (lines_of text) = [].
Proof.
  intros Hnone. apply (map_eq_nil fst).
  rewrite header_lessons_titles. now apply header_titles_nil.
Qed.

(** Both strategies end in the same cut. *)
Lemma parse_lessons_sliced (text : string) (max_lessons : Z) (lessons : list Lesson) :
  parse_lessons text max_lessons = Returned lessons ->
  lessons = [] \/ exists found : list Lesson, lessons = py_slice found 0 max_lessons.
Proof.
  unfold parse_lessons, fallback.
  destruct (header_lessons (lines_of text)) as [|l ls].
  - destruct (Z.of_nat (List.length (split text)) =? 0).
    + intros H. injection H as <-. now left.
    + destruct (max_lessons =? 0); [discriminate|].
      intros H. injection H as <-. right. eexists; reflexivity.
  - intros H. injection H as <-. right. eexists; reflexivity.
Qed.

(** Whenever [parse_lessons] returns for a bound that is not negative, it
    returns at most [max_lessons] lessons, whichever strategy produced
    them. *)
Theorem parse_lessons_length_bound (text : string) (max_lessons : Z) (lessons : list Lesson) :
  0 <= max_lessons ->
  parse_lessons text max_lessons = Returned lessons ->
  Z.of_nat (List.length lessons) <= max_lessons.
Proof.
  intros Hmax Hrun.
  destruct (parse_lessons_sliced text max_lessons lessons Hrun) as [->|(found & ->)].
  - cbn. lia.
  - now apply py_slice_prefix_length.
Qed.

Lemma parse_lessons_length_bound_witness :
  Z.of_nat (List.length [("Week 1", "intro to loops"); ("Week 2", "then lists and maps")])
  <= 2.
Proof.
  apply (parse_lessons_length_bound sample_notes 2).
  - lia.
  - reflexivity.
Defined.

(** With a bound of zero, a text without header line that holds a word
    makes [parse_lessons] raise [ZeroDivisionError]. *)
Theorem parse_lessons_zero_bound_raises (text : string) :
  (forall ln, In ln (lines_of text) -> is_week_line ln = false) ->
  split text <> [] ->
  parse_lessons text 0 = Raised division_by_zero.
Proof.
  intros Hnone Hwords. unfold parse_lessons. rewrite (no_header_lessons text Hnone).
  unfold fallback. destruct (split text); [congruence|]. reflexivity.
Qed.

Lemma parse_lessons_zero_bound_raises_witness :
  parse_lessons sample_notes 0 = Raised division_by_zero.
Proof.
  apply (parse_lessons_zero_bound_raises sample_notes).
  - intros ln Hln. vm_compute in Hln.
    destruct Hln as [<-|[<-|[]]]; reflexivity.
  - vm_compute. discriminate.
Defined.

(** With a negative bound [parse_lessons] returns the lessons of the header
    scan without the last [-max_lessons] of them; for a text without header
    line that is no lesson at all, words or not. *)
Theorem parse_lessons_negative_bound (text : string) (max_lessons : Z) :
  max_lessons < 0 ->
  parse_lessons text max_lessons
  = Returned (firstn (List.length (header_lessons (lines_of text)) - Z.to_nat (- max_lessons))
                (header_lessons (lines_of text))).
Proof.
  intros Hmax. unfold parse_lessons, fallback.
  destruct (header_lessons (lines_of text)) as [|l ls] eqn:Hscan.
  - destruct (Z.eqb_spec (Z.of_nat (List.length (split text))) 0) as [_|_]; [reflexivity|].
    destruct (Z.eqb_spec max_lessons 0) as [?|_]; [lia|].
    unfold range. replace (Z.to_nat max_lessons) with 0%nat by lia. cbn [seq map].
    now rewrite py_slice_prefix_negative.
  - now rewrite py_slice_prefix_negative.
Qed.

Lemma parse_lessons_negative_bound_witness :
  parse_lessons sample_syllabus (-1)
  = Returned (firstn (List.length (header_lessons (lines_of sample_syllabus)) - Z.to_nat (- -1))
                (header_lessons (lines_of sample_syllabus))).
Proof.
  apply (parse_lessons_negative_bound sample_syllabus (-1)). lia.
Defined.

(** With a bound of minus one the second of two lessons is lost. *)
Example parse_lessons_minus_one :
  parse_lessons sample_syllabus (-1) = Returned [("Week 1", "Intro Hello")].
Proof.
  reflexivity.
Qed.

(* ------------------------------------------------------------------ *)
(** ** Blank text *)
(* ------------------------------------------------------------------ *)

Lemma blank_app (a b : string) : blank (a ++ b)%string = blank a && blank b.
Proof.
  induction a as [|c a IH]; [reflexivity|]. cbn. rewrite IH. now rewrite andb_assoc.
Qed.

Lemma lstrip_blank (s : string) : blank s = true -> lstrip s = ""%string.
Proof.
  induction s as [|c s IH]; [reflexivity|].
  cbn. intros H. apply andb_prop in H as [Hc Hs]. rewrite Hc. now apply IH.
Qed.

Lemma strip_blank (s : string) : blank s = true -> strip s = ""%string.
Proof.
  intros H. unfold strip. now rewrite lstrip_blank.
Qed.

Lemma splitlines_from_blank :
  forall n s cur,
    (String.length s <= n)%nat ->
    blank s = true -> blank cur = true ->
    Forall (fun ln => blank ln = true) (splitlines_from s cur).
Proof.
  induction n as [|n IH]; intros s cur Hlen Hs Hcur.
  - destruct s; [|cbn in Hlen; lia]. cbn. destruct cur; repeat constructor. exact Hcur.
  - destruct s as [|c s]; [cbn; destruct cur; repeat constructor; exact Hcur|].
    cbn in Hlen, Hs. apply andb_prop in Hs as [Hc Hs].
    cbn [splitlines_from]. destruct (islinebreak c).
    + destruct s as [|c' s'].
      * repeat constructor. exact Hcur.
      * cbn in Hlen, Hs. apply andb_prop in Hs as [Hc' Hs'].
        destruct ((code c =? 13)%nat && (code c' =? 10)%nat).
        -- constructor; [exact Hcur|]. apply IH; [lia|exact Hs'|reflexivity].
        -- constructor; [exact Hcur|]. apply IH; [cbn; lia| |reflexivity].
           cbn. now rewrite Hc', Hs'.
    + apply IH; [lia|exact Hs|]. rewrite blank_app, Hcur. cbn. now rewrite Hc.
Qed.

Lemma lines_of_blank (text : string) : blank text = true -> lines_of text = [].
Proof.
  intros Hblank. unfold lines_of, splitlines.
  pose proof (splitlines_from_blank (String.length text) text "" (Nat.le_refl _)
                Hblank eq_refl) as Hlines.
  induction Hlines as [|ln lines Hln _ IH]; [reflexivity|].
  cbn [filter]. rewrite (strip_blank ln Hln). exact IH.
Qed.

Lemma split_from_blank (s : string) : blank s = true -> split_from s "" = [].
Proof.
  induction s as [|c s IH]; [reflexivity|].
  cbn. intros H. apply andb_prop in H as [Hc Hs]. rewrite Hc. now apply IH.
Qed.

(** A text that is empty or made of white space only gives no lesson,
    whatever the bound: the division of the fallback is not reached, even
    with a bound of zero. *)
Theorem parse_lessons_blank (text : string) (max_lessons : Z) :
  blank text = true -> parse_lessons text max_lessons = Returned [].
Proof.
  intros Hblank. unfold parse_lessons. rewrite (lines_of_blank text Hblank).
  cbn. unfold fallback, split. now rewrite (split_from_blank text Hblank).
Qed.

Lemma parse_lessons_blank_witness :
  parse_lessons ("  " ++ newline ++ " ")%string 0 = Returned [].
Proof.
  apply (parse_lessons_blank ("  " ++ newline ++ " ")%string 0). reflexivity.
Defined.

(* ------------------------------------------------------------------ *)
(** ** The shape of the lessons *)
(* ------------------------------------------------------------------ *)

Lemma Forall_py_slice {A} (P : A -> Prop) (l : list A) (a b : Z) :
  Forall P l -> Forall P (py_slice l a b).
Proof.
  intros H. unfold py_slice. now apply Forall_firstn_skipn.
Qed.

Lemma string_length_app (a b : string) :
  String.length (a ++ b)%string = (String.length a + String.length b)%nat.
Proof.
  induction a as [|c a IH]; [reflexivity|]. cbn. now rewrite IH.
Qed.

(** Group 1 of a header holds four letters and at least one digit. *)
Lemma match_week_number_length (s g1 r : string) :
  match_week_number s = Some (g1, r) -> (5 <= String.length g1)%nat.
Proof.
  unfold match_week_number, match_week.
  destruct s as [|a [|b [|c [|d rest]]]]; try discriminate.
  destruct (ci_letter "w" a && ci_letter "e" b && ci_letter "e" c && ci_letter "k" d);
    [|discriminate].
  destruct (span isspace rest) as [ws r1]. destruct (span isdigit r1) as [ds r2].
  destruct ds as [|digit ds]; [discriminate|]. intros H. injection H as <- _.
  cbn [append String.length]. rewrite string_length_app. cbn [String.length]. lia.
Qed.

Lemma header_titles_length (lines : list string) :
  Forall (fun title => (5 <= String.length title)%nat) (header_titles lines).
Proof.
  induction lines as [|ln lines IH]; [constructor|].
  unfold header_titles. cbn [flat_map]. apply Forall_app. split; [|exact IH].
  unfold header_title, match_header.
  destruct (match_week_number ln) as [[g1 r]|] eqn:Hm; constructor; [|constructor].
  now apply (match_week_number_length ln g1 r).
Qed.

(** No lesson [parse_lessons] returns has an empty title: every title has
    at least five characters, the four of the header word and at least one
    more. *)
Theorem parse_lessons_titles (text : string) (max_lessons : Z) (lessons : list Lesson) :
  parse_lessons text max_lessons = Returned lessons ->
  Forall (fun l : Lesson => (5 <= String.length (fst l))%nat /\ fst l <> ""%string) lessons.
Proof.
  intros Hrun.
  assert (Hlong : Forall (fun l : Lesson => (5 <= String.length (fst l))%nat) lessons).
  { unfold parse_lessons in Hrun.
    destruct (header_lessons (lines_of text)) as [|l ls] eqn:Hscan.
    - unfold fallback in Hrun.
      destruct (Z.of_nat (List.length (split text)) =? 0).
      + injection Hrun as <-. constructor.
      + destruct (max_lessons =? 0); [discriminate|]. injection Hrun as <-.
        apply Forall_py_slice, Forall_map, Forall_forall. intros k _.
        cbn [chunk_lesson fst]. rewrite string_length_app. cbn [String.length]. lia.
    - injection Hrun as <-. apply Forall_py_slice. rewrite <- Hscan.
      pose proof (header_titles_length (lines_of text)) as Htitles.
      rewrite Forall_forall in Htitles. apply Forall_forall. intros x Hx.
      apply Htitles. rewrite <- header_lessons_titles. now apply in_map. }
  apply Forall_impl with (2 := Hlong). intros l Hl. split; [exact Hl|].
  intros Hempty. rewrite Hempty in Hl. cbn in Hl. lia.
Qed.

Lemma parse_lessons_titles_witness :
  Forall (fun l : Lesson => (5 <= String.length (fst l))%nat /\ fst l <> ""%string)
         [("Week 1", "Intro Hello"); ("Week 2", "Loops World")].
Proof.
  apply (parse_lessons_titles sample_syllabus 12). reflexivity.
Defined.

Lemma lstrip_starts_clean (s : string) : starts_clean (lstrip s) = true.
Proof.
  induction s as [|c s IH]; [reflexivity|].
  cbn [lstrip]. destruct (isspace c) eqn:Hc; [exact IH|]. cbn. now rewrite Hc.
Qed.

Lemma lstrip_fixed (s : string) : starts_clean s = true -> lstrip s = s.
Proof.
  destruct s as [|c s]; [reflexivity|].
  cbn. intros H. apply negb_true_iff in H. now rewrite H.
Qed.

Lemma rstrip_starts_clean (s : string) :
  starts_clean s = true -> starts_clean (rstrip s) = true.
Proof.
  destruct s as [|c s]; [reflexivity|].
  cbn [starts_clean rstrip]. intros Hc. apply negb_true_iff in Hc.
  destruct (rstrip s); rewrite ?Hc; cbn; rewrite ?Hc; reflexivity.
Qed.

Lemma rstrip_idem (s : string) : rstrip (rstrip s) = rstrip s.
Proof.
  induction s as [|c s IH]; [reflexivity|].
  cbn [rstrip]. destruct (rstrip s) as [|c' r] eqn:Hr.
  - destruct (isspace c) eqn:Hc; [reflexivity|]. cbn. now rewrite Hc.
  - cbn [rstrip]. cbn [rstrip] in IH. now rewrite IH.
Qed.

Lemma strip_idem (s : string) : strip (strip s) = strip s.
Proof.
  unfold strip.
  rewrite (lstrip_fixed (rstrip (lstrip s)))
    by apply rstrip_starts_clean, lstrip_starts_clean.
  apply rstrip_idem.
Qed.

Lemma rstrip_spaceless (w : string) : spaceless w = true -> rstrip w = w.
Proof.
  induction w as [|c w IH]; [reflexivity|].
  cbn. intros H. apply andb_prop in H as [Hc Hw]. apply negb_true_iff in Hc.
  rewrite (IH Hw). destruct w; [now rewrite Hc|reflexivity].
Qed.

Lemma rstrip_app_fixed (a b : string) :
  rstrip b = b -> nonempty b = true -> rstrip (a ++ b)%string = (a ++ b)%string.
Proof.
  intros Hb Hne. induction a as [|c a IH]; [exact Hb|].
  cbn [append rstrip]. rewrite IH.
  destruct (a ++ b)%string eqn:Hab; [|reflexivity].
  destruct a; [cbn in Hab; subst b; discriminate|discriminate].
Qed.

Lemma join_words_rstrip :
  forall ws,
    Forall (fun w => is_word w = true) ws ->
    rstrip (join " " ws) = join " " ws
    /\ (ws <> [] -> nonempty (join " " ws) = true).
Proof.
  induction ws as [|w ws IH]; intros Hws; [split; [reflexivity|congruence]|].
  inversion Hws as [|w' ws' Hw Hrest]; subst.
  unfold is_word in Hw. apply andb_prop in Hw as [Hne Hsp].
  destruct ws as [|w2 ws].
  - cbn [join]. split; [now apply rstrip_spaceless|auto].
  - destruct (IH Hrest) as [Hfix Hnonempty].
    change (join " " (w :: w2 :: ws)) with (w ++ " " ++ join " " (w2 :: ws))%string.
    split.
    + apply rstrip_app_fixed; [|reflexivity].
      cbn [append rstrip]. rewrite Hfix.
      specialize (Hnonempty ltac:(discriminate)).
      destruct (join " " (w2 :: ws)); [discriminate|reflexivity].
    + intros _. destruct w; [discriminate|reflexivity].
Qed.

Lemma strip_join_words (ws : list string) :
  Forall (fun w => is_word w = true) ws -> strip (join " " ws) = join " " ws.
Proof.
  intros Hws. unfold strip.
  assert (Hclean : starts_clean (join " " ws) = true).
  { destruct ws as [|w ws]; [reflexivity|].
    inversion Hws as [|w' ws' Hw _]; subst.
    unfold is_word in Hw. apply andb_prop in Hw as [Hne Hsp].
    destruct w as [|c w]; [discriminate|]. cbn in Hsp.
    apply andb_prop in Hsp as [Hc _].
    destruct ws; cbn; exact Hc. }
  rewrite (lstrip_fixed _ Hclean). now apply join_words_rstrip.
Qed.

Lemma scan_bodies_stripped :
  forall fuel ls lessons,
    Forall (fun l : Lesson => strip (snd l) = snd l) lessons ->
    Forall (fun l : Lesson => strip (snd l) = snd l) (scan fuel ls lessons).
Proof.
  induction fuel as [|fuel IH]; intros ls lessons Hacc; [exact Hacc|].
  destruct ls as [|l rest]; [exact Hacc|]. cbn [scan].
  destruct (match_header l) as [[header g2]|]; [|now apply IH].
  destruct (collect_body rest _) as [parts rest']. apply IH.
  apply Forall_app. split; [exact Hacc|]. constructor; [|constructor].
  cbn [snd]. apply strip_idem.
Qed.

(** The description of every lesson [parse_lessons] returns is stripped:
    it neither begins nor ends with white space. *)
Theorem parse_lessons_bodies_stripped (text : string) (max_lessons : Z)
    (lessons : list Lesson) :
  parse_lessons text max_lessons = Returned lessons ->
  Forall (fun l : Lesson => strip (snd l) = snd l) lessons.
Proof.
  unfold parse_lessons. intros Hrun.
  destruct (header_lessons (lines_of text)) as [|l ls] eqn:Hscan.
  - unfold fallback in Hrun.
    destruct (Z.of_nat (List.length (split text)) =? 0).
    + injection Hrun as <-. constructor.
    + destruct (max_lessons =? 0); [discriminate|]. injection Hrun as <-.
      apply Forall_py_slice, Forall_map, Forall_forall. intros k _.
      cbn [chunk_lesson snd]. apply strip_join_words.
      apply Forall_py_slice, split_words.
  - injection Hrun as <-. apply Forall_py_slice. rewrite <- Hscan.
    unfold header_lessons. apply scan_bodies_stripped. constructor.
Qed.

Lemma parse_lessons_bodies_stripped_witness :
  Forall (fun l : Lesson => strip (snd l) = snd l)
         [("Week 1", "Intro Hello"); ("Week 2", "Loops World")].
Proof.
  apply (parse_lessons_bodies_stripped sample_syllabus 12). reflexivity.
Defined.

(* ================================================================== *)
(** * Further properties of the directory sweep *)
(* ================================================================== *)

Section SweepProperties.

Variable abspath : string -> string.
Variable name : string.

(** A directory without candidate leaves [local_path] as it was. *)
Lemma sweep_files_no_candidate (root : string) :
  forall files local_path,
    (forall fname, In fname files -> is_candidate name fname = false) ->
    sweep_files abspath name root files local_path = local_path.
Proof.
  induction files as [|fname files IH]; intros local_path Hnone; [reflexivity|].
  cbn [sweep_files]. pose proof (Hnone fname (or_introl eq_refl)) as Hf.
  unfold is_candidate in Hf. rewrite Hf. apply IH.
  intros f Hin. apply Hnone. now right.
Qed.

(** What the inner loop leaves in [local_path] is what was there or a
    candidate of the directory. *)
Lemma sweep_files_result (root : string) :
  forall files local_path,
    sweep_files abspath name root files local_path = local_path
    \/ exists fname,
         In fname files /\ is_candidate name fname = true
         /\ sweep_files abspath name root files local_path
            = Some (abspath (path_join root fname)).
Proof.
  induction files as [|fname files IH]; intros local_path; [now left|].
  cbn [sweep_files]. fold (is_candidate name fname).
  destruct (is_candidate name fname) eqn:Hcand.
  - destruct (String.eqb fname name).
    + right. exists fname. split; [now left|]. split; [exact Hcand|reflexivity].
    + destruct (negb (path_found local_path)).
      * destruct (IH (Some (abspath (path_join root fname)))) as [E|(f & Hin & Hc & E)].
        -- right. exists fname. split; [now left|]. split; [exact Hcand|exact E].
        -- right. exists f. split; [now right|]. split; [exact Hc|exact E].
      * destruct (IH local_path) as [E|(f & Hin & Hc & E)]; [now left|].
        right. exists f. split; [now right|]. split; [exact Hc|exact E].
  - destruct (IH local_path) as [E|(f & Hin & Hc & E)]; [now left|].
    right. exists f. split; [now right|]. split; [exact Hc|exact E].
Qed.

Lemma sweep_walk_result :
  forall entries local_path,
    sweep_walk abspath name entries local_path = local_path
    \/ exists root dirs files fname,
         In (root, dirs, files) entries /\ In fname files
         /\ is_candidate name fname = true
         /\ sweep_walk abspath name entries local_path
            = Some (abspath (path_join root fname)).
Proof.
  induction entries as [|[[root dirs] files] entries IH]; intros local_path; [now left|].
  cbn [sweep_walk].
  destruct (sweep_files_result root files local_path) as [E|(f & Hin & Hc & E)].
  - rewrite E. destruct (path_found local_path); [now left|].
    destruct (IH local_path) as [E'|(r & d & fs & f & Hin & Hf & Hc & E')]; [now left|].
    right. exists r, d, fs, f. split; [now right|]. auto.
  - destruct (path_found (sweep_files abspath name root files local_path)) eqn:Hfound.
    + right. exists root, dirs, files, f. split; [now left|]. auto.
    + rewrite E in *.
      destruct (IH (Some (abspath (path_join root f))))
        as [E'|(r & d & fs & f' & Hin' & Hf & Hc' & E')].
      * right. exists root, dirs, files, f. split; [now left|]. auto.
      * right. exists r, d, fs, f'. split; [now right|]. auto.
Qed.

(** With paths that are never empty, a directory that holds a candidate
    ends the walk. *)
Lemma sweep_files_finds (root : string) :
  (forall p, nonempty (abspath p) = true) ->
  forall files local_path,
    (exists fname, In fname files /\ is_candidate name fname = true) ->
    path_found (sweep_files abspath name root files local_path) = true.
Proof.
  intros Hpath. induction files as [|fname files IH]; intros local_path (f & Hin & Hc);
    [contradiction|].
  cbn [sweep_files]. fold (is_candidate name fname).
  destruct (is_candidate name fname) eqn:Hcand.
  - destruct (String.eqb fname name); [apply Hpath|].
    destruct (path_found local_path) eqn:Hfound; cbn [negb].
    + destruct (sweep_files_result root files local_path) as [E|(f' & _ & _ & E)];
        rewrite E; [exact Hfound|apply Hpath].
    + destruct (sweep_files_result root files (Some (abspath (path_join root fname))))
        as [E|(f' & _ & _ & E)]; rewrite E; apply Hpath.
  - destruct Hin as [->|Hin]; [congruence|]. apply IH. now exists f.
Qed.

Lemma sweep_walk_finds :
  (forall p, nonempty (abspath p) = true) ->
  forall entries local_path,
    path_found local_path = false ->
    (exists root dirs files fname,
        In (root, dirs, files) entries /\ In fname files
        /\ is_candidate name fname = true) ->
    path_found (sweep_walk abspath name entries local_path) = true.
Proof.
  intros Hpath.
  induction entries as [|[[r d] fs] entries IH];
    intros local_path Hlp (root & dirs & files & fname & Hin & Hf & Hc); [contradiction|].
  cbn [sweep_walk].
  destruct (path_found (sweep_files abspath name r fs local_path)) eqn:Hfound;
    [exact Hfound|].
  destruct Hin as [Heq|Hin].
  - injection Heq as -> -> ->.
    rewrite (sweep_files_finds root Hpath files local_path) in Hfound;
      [discriminate|now exists fname].
  - destruct (sweep_files_result r fs local_path) as [E|(f' & _ & _ & E)].
    + rewrite E. apply IH; [exact Hlp|]. now exists root, dirs, files, fname.
    + rewrite E in Hfound. cbn in Hfound. now rewrite Hpath in Hfound.
Qed.

End SweepProperties.


(** The sweep only returns files of the tree: a path it yields is the
    absolute path of a file listed in one of the walked directories, and that
    file has the configured name or the PDF extension. *)
Theorem directory_sweep_sound (abspath : string -> string) (name dir : string) (tree : Dir)
    (p : string) :
  directory_sweep abspath name dir tree = Some p ->
  exists root dirs files fname,
    In (root, dirs, files) (walk dir tree) /\ In fname files
    /\ is_candidate name fname = true
    /\ p = abspath (path_join root fname).
Proof.
  unfold directory_sweep. intros Hrun.
  destruct (sweep_walk_result abspath name (walk dir tree) None)
    as [E|(root & dirs & files & fname & Hin & Hf & Hc & E)]; [congruence|].
  exists root, dirs, files, fname. rewrite E in Hrun. injection Hrun as <-. auto.
Qed.

Lemma directory_sweep_sound_witness :
  exists root dirs files fname,
    In (root, dirs, files) (walk "/srv/downloads" stray_pdf_tree) /\ In fname files
    /\ is_candidate "syllabus.pdf" fname = true
    /\ "/srv/downloads/notes.pdf"%string = abspath_of_absolute (path_join root fname).
Proof.
  apply (directory_sweep_sound abspath_of_absolute "syllabus.pdf" "/srv/downloads"
           stray_pdf_tree "/srv/downloads/notes.pdf").
  reflexivity.
Defined.

(** The sweep comes back empty-handed exactly when no file under the
    download directory has the configured name or the PDF extension. *)
Theorem directory_sweep_none_iff (abspath : string -> string) (name dir : string)
    (tree : Dir) :
  (forall p, nonempty (abspath p) = true) ->
  directory_sweep abspath name dir tree = None <-> no_candidate name (walk dir tree).
Proof.
  intros Hpath. unfold directory_sweep. split.
  - intros Hnone root dirs files fname Hin Hf.
    destruct (is_candidate name fname) eqn:Hc; [exfalso|reflexivity].
    assert (Hfound : path_found (sweep_walk abspath name (walk dir tree) None) = true).
    { apply sweep_walk_finds; [exact Hpath|reflexivity|].
      now exists root, dirs, files, fname. }
    rewrite Hnone in Hfound. discriminate.
  - intros Hnone. induction (walk dir tree) as [|[[r d] fs] entries IH]; [reflexivity|].
    cbn [sweep_walk]. rewrite sweep_files_no_candidate.
    + cbn [path_found]. apply IH. intros root dirs files fname Hin Hf.
      apply (Hnone root dirs files fname); [now right|exact Hf].
    + intros fname Hf. apply (Hnone r d fs fname); [now left|exact Hf].
Qed.

Lemma directory_sweep_none_iff_witness :
  directory_sweep (abspath_in "/srv") "syllabus.pdf" "downloads"
    (mkDir ["readme.txt"] [("old", mkDir [] [])]) = None
  <-> no_candidate "syllabus.pdf"
        (walk "downloads" (mkDir ["readme.txt"] [("old", mkDir [] [])])).
Proof.
  apply (directory_sweep_none_iff (abspath_in "/srv") "syllabus.pdf" "downloads"
           (mkDir ["readme.txt"] [("old", mkDir [] [])])).
  intros p. unfold abspath_in. destruct p as [|c p]; [reflexivity|].
  destruct (starts_with_slash (String c p)); reflexivity.
Defined.

(** The exactly-named file wins when it sits in the first directory of the
    walk that holds any candidate, wherever it stands among that directory's
    files. *)
Theorem directory_sweep_first_directory (abspath : string -> string) (name dir : string)
    (tree : Dir) (before after : list (string * list string * list string))
    (root : string) (dirs files : list string) :
  walk dir tree = before ++ (root, dirs, files) :: after ->
  no_candidate name before ->
  In name files ->
  nonempty (abspath (path_join root name)) = true ->
  directory_sweep abspath name dir tree = Some (abspath (path_join root name)).
Proof.
  intros Hwalk Hbefore Hin Hpath. unfold directory_sweep. rewrite Hwalk. clear Hwalk.
  induction before as [|[[r d] fs] before IH].
  - cbn [app sweep_walk]. rewrite (sweep_files_exact abspath name root files None Hin).
    cbn [path_found]. now rewrite Hpath.
  - cbn [app sweep_walk]. rewrite sweep_files_no_candidate.
    + cbn [path_found]. apply IH. intros r' d' fs' f Hin' Hf.
      apply (Hbefore r' d' fs' f); [now right|exact Hf].
    + intros f Hf. apply (Hbefore r d fs f); [now left|exact Hf].
Qed.

Lemma directory_sweep_first_directory_witness :
  directory_sweep abspath_of_absolute "syllabus.pdf" "/srv/downloads"
    (mkDir ["readme.txt"] [("week1", mkDir ["notes.pdf"; "syllabus.pdf"] [])])
  = Some (abspath_of_absolute (path_join "/srv/downloads/week1" "syllabus.pdf")).
Proof.
  apply (directory_sweep_first_directory abspath_of_absolute "syllabus.pdf" "/srv/downloads"
           (mkDir ["readme.txt"] [("week1", mkDir ["notes.pdf"; "syllabus.pdf"] [])])
           [("/srv/downloads"%string, ["week1"%string], ["readme.txt"%string])] []
           "/srv/downloads/week1" [] ["notes.pdf"; "syllabus.pdf"]).
  - reflexivity.
  - intros r d fs f Hin Hf. simpl in Hin. destruct Hin as [Heq|[]].
    injection Heq as <- <- <-. simpl in Hf. destruct Hf as [<-|[]]. reflexivity.
  - simpl. auto.
  - reflexivity.
Defined.

(* ================================================================== *)
(** * Properties of the path resolution *)
(* ================================================================== *)

Section ResolveProperties.

Variable abspath : string -> string.
Variable DOWNLOAD_DIR : string.
Variable SYLLABUS_FILE_NAME : string.

(** Keys without a usable value are passed over. *)
Lemma probe_keys_skip (exists_ : string -> bool) (d : list (string * PyVal))
    (before rest : list string) :
  Forall (fun k => truthy (dict_get d k VNone) = false) before ->
  probe_keys abspath DOWNLOAD_DIR exists_ (VDict d) (before ++ rest)
  = probe_keys abspath DOWNLOAD_DIR exists_ (VDict d) rest.
Proof.
  induction 1 as [|k before Hk _ IH]; [reflexivity|].
  cbn [app probe_keys]. now rewrite Hk.
Qed.

Lemma probe_keys_leaf (exists_ : string -> bool) (dl_data : PyVal) :
  dl_data = VDict [] \/ is_leaf dl_data = true ->
  forall keys, probe_keys abspath DOWNLOAD_DIR exists_ dl_data keys = Returned None.
Proof.
  intros Hdata. induction keys as [|k keys IH]; [reflexivity|].
  cbn [probe_keys].
  destruct Hdata as [->|Hleaf]; [exact IH|].
  destruct dl_data; try discriminate; exact IH.
Qed.

(** The first probed key that holds a text naming an existing file decides
    the resolution: the result is that file's absolute path, whatever the
    download directory contains and whether or not the response carries a
    body, and nothing is written. *)
Theorem resolve_probed_path (fs : FS) (d : list (string * PyVal))
    (before after : list string) (key v : string) :
  PATH_KEYS = before ++ key :: after ->
  Forall (fun k => truthy (dict_get d k VNone) = false) before ->
  dict_get d key VNone = VStr v ->
  v <> ""%string ->
  let candidate := if starts_with_slash v then v else path_join DOWNLOAD_DIR v in
  fs_exists fs candidate = true ->
  fs_exists fs (abspath candidate) = true ->
  nonempty (abspath candidate) = true ->
  resolve_local_path abspath DOWNLOAD_DIR SYLLABUS_FILE_NAME fs (VDict d)
  = (Returned (abspath candidate), fs_exists fs).
Proof.
  intros Hkeys Hbefore Hval Hv candidate Hexists Habs Hne. subst candidate.
  unfold resolve_local_path, locate_on_disk. rewrite Hkeys, probe_keys_skip by exact Hbefore.
  cbn [probe_keys]. rewrite Hval. cbn [truthy].
  destruct (String.eqb_spec v "") as [?|_]; [contradiction|]. cbn [negb].
  rewrite Hexists. unfold path_found.
  repeat (progress (cbn [negb andb]; rewrite ?Hne, ?Habs)). reflexivity.
Qed.

(** A probed key that holds a value which is not text, such as the file's
    metadata, makes the resolution raise [TypeError] before any other
    strategy is tried. *)
Theorem resolve_probed_value_not_text (fs : FS) (d : list (string * PyVal))
    (before after : list string) (key : string) (val : PyVal) :
  PATH_KEYS = before ++ key :: after ->
  Forall (fun k => truthy (dict_get d k VNone) = false) before ->
  dict_get d key VNone = val ->
  truthy val = true ->
  (forall s, val <> VStr s) ->
  exists e,
    resolve_local_path abspath DOWNLOAD_DIR SYLLABUS_FILE_NAME fs (VDict d)
    = (Raised e, fs_exists fs)
    /\ exc_kind e = TypeError.
Proof.
  intros Hkeys Hbefore Hval Htruthy Hnot.
  exists (path_type_error val). split; [|reflexivity].
  unfold resolve_local_path, locate_on_disk. rewrite Hkeys, probe_keys_skip by exact Hbefore.
  cbn [probe_keys]. rewrite Hval, Htruthy.
  destruct val; try reflexivity. now destruct (Hnot s).
Qed.

End ResolveProperties.

Lemma resolve_probed_path_witness :
  resolve_local_path abspath_of_absolute "/srv/downloads" "syllabus.pdf" sample_fs
    (VDict [("path", VStr "syllabus.pdf")])
  = (Returned (abspath_of_absolute
                 (if starts_with_slash "syllabus.pdf" then "syllabus.pdf"%string
                  else path_join "/srv/downloads" "syllabus.pdf")),
     fs_exists sample_fs).
Proof.
  apply (resolve_probed_path abspath_of_absolute "/srv/downloads" "syllabus.pdf" sample_fs
           [("path", VStr "syllabus.pdf")]
           ["file_path"%string] ["local_path"; "download_path"; "file"; "name"]%string
           "path" "syllabus.pdf"); try reflexivity.
  - repeat constructor.
  - discriminate.
Defined.

Lemma resolve_probed_value_not_text_witness :
  exists e,
    resolve_local_path abspath_of_absolute "/srv/downloads" "syllabus.pdf" sample_fs
      metadata_response
    = (Raised e, fs_exists sample_fs)
    /\ exc_kind e = TypeError.
Proof.
  apply (resolve_probed_value_not_text abspath_of_absolute "/srv/downloads" "syllabus.pdf"
           sample_fs [("file", VDict [("id", VStr "f1"); ("mimeType", VStr "application/pdf")])]
           ["file_path"; "path"; "local_path"; "download_path"]%string ["name"%string]
           "file" (VDict [("id", VStr "f1"); ("mimeType", VStr "application/pdf")])).
  - reflexivity.
  - repeat constructor.
  - reflexivity.
  - reflexivity.
  - intros s. discriminate.
Defined.

(** Induction on a value that reaches the items of lists and the values of
    mappings. *)
Lemma PyVal_nested_ind (P : PyVal -> Prop) :
  P VNone ->
  (forall b, P (VBool b)) ->
  (forall z, P (VInt z)) ->
  (forall s, P (VStr s)) ->
  (forall items, Forall P items -> P (VList items)) ->
  (forall entries, Forall (fun kv => P (snd kv)) entries -> P (VDict entries)) ->
  (forall attrs, P (VObj attrs)) ->
  (forall type_error message trace, P (VUnreadable type_error message trace)) ->
  forall v, P v.
Proof.
  intros HNone HBool HInt HStr HList HDict HObj HUnreadable.
  fix IH 1. intros v. destruct v as [|b|z|s|items|entries|attrs|type_error message trace].
  - exact HNone.
  - apply HBool.
  - apply HInt.
  - apply HStr.
  - apply HList. induction items as [|x items IHitems]; constructor; [apply IH|exact IHitems].
  - apply HDict. induction entries as [|[k x] entries IHentries]; constructor;
      [apply IH|exact IHentries].
  - apply HObj.
  - apply HUnreadable.
Qed.

Section SearchProperties.

Variable abspath : string -> string.
Variable DOWNLOAD_DIR : string.
Variable exists_ : string -> bool.

Local Notation "'search'" := (search_dict_for_path abspath DOWNLOAD_DIR exists_).

Lemma search_list_cons (item : PyVal) (l : list PyVal) :
  search (VList (item :: l))
  = if path_found (search item) then search item else search (VList l).
Proof.
  reflexivity.
Qed.

Lemma search_leaf (v : PyVal) : is_leaf v = true -> search v = None.
Proof.
  destruct v; try discriminate; reflexivity.
Qed.

(** The structural search looks into mappings and lists only: the items of
    a list that are themselves neither are passed over, texts included, so
    a path given as a bare item of a list is not found even when the file
    exists. *)
Theorem search_skips_list_items (items : list PyVal) :
  Forall (fun v => is_leaf v = true) items ->
  search (VList items) = None.
Proof.
  induction 1 as [|item items Hitem _ IH]; [reflexivity|].
  rewrite search_list_cons, (search_leaf item Hitem). exact IH.
Qed.

Lemma mapping_texts_list_cons (item : PyVal) (l : list PyVal) :
  mapping_texts (VList (item :: l)) = mapping_texts item ++ mapping_texts (VList l).
Proof.
  reflexivity.
Qed.

Lemma mapping_texts_dict_cons (k : string) (v : PyVal) (d : list (string * PyVal)) :
  mapping_texts (VDict ((k, v) :: d))
  = match v with
    | VStr s => s :: mapping_texts (VDict d)
    | VDict _ | VList _ => mapping_texts v ++ mapping_texts (VDict d)
    | _ => mapping_texts (VDict d)
    end.
Proof.
  destruct v; reflexivity.
Qed.

(** A path returned by the structural search comes from the response: one
    of the texts held as a value by a mapping of the response, reached
    through mappings and lists, ends in ".pdf", in either case, and names an
    existing file, directly when it is absolute and under the download
    directory otherwise; the path returned is that file's absolute path. *)
Theorem search_sound (obj : PyVal) (p : string) :
  search obj = Some p ->
  exists v,
    In v (mapping_texts obj)
    /\ endswith (lower v) ".pdf" = true
    /\ exists_ (if starts_with_slash v then v else path_join DOWNLOAD_DIR v) = true
    /\ p = abspath (if starts_with_slash v then v else path_join DOWNLOAD_DIR v).
Proof.
  revert p. induction obj as [| | | |items IH|entries IH| |] using PyVal_nested_ind;
    intros p Hp; try discriminate.
  - induction IH as [|item items Hitem _ IHitems]; [discriminate|].
    rewrite search_list_cons in Hp. rewrite mapping_texts_list_cons.
    destruct (path_found (search item)).
    + destruct (Hitem p Hp) as (v & Hin & Hv). exists v. split; [|exact Hv].
      apply in_or_app. now left.
    + destruct (IHitems Hp) as (v & Hin & Hv). exists v. split; [|exact Hv].
      apply in_or_app. now right.
  - induction IH as [|[k v] entries Hv _ IHentries]; [discriminate|].
    cbn [snd] in Hv.
    change (search (VDict ((k, v) :: entries)))
      with (match v with
            | VStr s => match pdf_value_path abspath DOWNLOAD_DIR exists_ s with
                        | Some q => Some q
                        | None => search (VDict entries)
                        end
            | VDict _ | VList _ =>
                if path_found (search v) then search v else search (VDict entries)
            | _ => search (VDict entries)
            end) in Hp.
    rewrite mapping_texts_dict_cons.
    assert (Hlater : search (VDict entries) = Some p ->
                     forall before,
                     exists t,
                       In t (before ++ mapping_texts (VDict entries))
                       /\ endswith (lower t) ".pdf" = true
                       /\ exists_ (if starts_with_slash t then t
                                   else path_join DOWNLOAD_DIR t) = true
                       /\ p = abspath (if starts_with_slash t then t
                                       else path_join DOWNLOAD_DIR t)).
    { intros Hrest before. destruct (IHentries Hrest) as (t & Hin & Ht).
      exists t. split; [|exact Ht]. apply in_or_app. now right. }
    destruct v as [|b|z|s|items|d|attrs|type_error message trace];
      try (now apply (fun H => Hlater H [])).
    + unfold pdf_value_path in Hp.
      destruct (endswith (lower s) ".pdf") eqn:Hpdf; cbn [andb] in Hp;
        [|now apply (fun H => Hlater H [s])].
      destruct (exists_ s || exists_ (path_join DOWNLOAD_DIR s));
        [|now apply (fun H => Hlater H [s])].
      destruct (exists_ (if starts_with_slash s then s else path_join DOWNLOAD_DIR s))
        eqn:Hcand; [|now apply (fun H => Hlater H [s])].
      injection Hp as <-. exists s. split; [now left|auto].
    + destruct (path_found (search (VList items))); [|now apply Hlater].
      destruct (Hv p Hp) as (t & Hin & Ht). exists t. split; [|exact Ht].
      apply in_or_app. now left.
    + destruct (path_found (search (VDict d))); [|now apply Hlater].
      destruct (Hv p Hp) as (t & Hin & Ht). exists t. split; [|exact Ht].
      apply in_or_app. now left.
Qed.

End SearchProperties.

Lemma search_skips_list_items_witness :
  search_dict_for_path abspath_of_absolute "/srv/downloads" sample_exists
    (VList [VStr "/srv/downloads/syllabus.pdf"; VNone])
  = None.
Proof.
  apply (search_skips_list_items abspath_of_absolute "/srv/downloads" sample_exists
           [VStr "/srv/downloads/syllabus.pdf"; VNone]).
  repeat constructor.
Defined.

Lemma search_sound_witness :
  exists v,
    In v (mapping_texts (VDict [("files", VList [VDict [("title", VStr "Syllabus");
                                                        ("saved_as", VStr "syllabus.pdf")]])]))
    /\ endswith (lower v) ".pdf" = true
    /\ sample_exists (if starts_with_slash v then v else path_join "/srv/downloads" v) = true
    /\ "/srv/downloads/syllabus.pdf"%string
       = abspath_of_absolute (if starts_with_slash v then v else path_join "/srv/downloads" v).
Proof.
  apply (search_sound abspath_of_absolute "/srv/downloads" sample_exists
           (VDict [("files", VList [VDict [("title", VStr "Syllabus");
                                           ("saved_as", VStr "syllabus.pdf")]])])
           "/srv/downloads/syllabus.pdf").
  reflexivity.
Defined.

Section ResolveOutcomes.

Variable abspath : string -> string.
Variable DOWNLOAD_DIR : string.
Variable SYLLABUS_FILE_NAME : string.

(** A path the resolution returns is not empty and exists once the
    resolution is over. *)
Theorem resolve_returns_existing (fs : FS) (dl_data : PyVal) (p : string)
    (exists' : string -> bool) :
  resolve_local_path abspath DOWNLOAD_DIR SYLLABUS_FILE_NAME fs dl_data
  = (Returned p, exists') ->
  exists' p = true /\ nonempty p = true.
Proof.
  unfold resolve_local_path.
  destruct (locate_on_disk _ _ _ _ _ _) as [local_path|e]; [|discriminate].
  destruct (negb (path_found local_path) && truthy _).
  - destruct (match dl_data with VDict d => dict_get d "body" VNone | _ => VNone end);
      try discriminate.
    destruct (after_write _ _ _ _ && nonempty _) eqn:Hcheck; [|discriminate].
    intros H. injection H as <- <-. now apply andb_prop in Hcheck.
  - destruct local_path as [q|]; [|discriminate].
    destruct (nonempty q && fs_exists fs q) eqn:Hcheck; [|discriminate].
    intros H. injection H as <- <-. apply andb_prop in Hcheck. tauto.
Qed.

(** When the first three strategies find nothing and the response carries
    a text body that is not empty, the resolution writes it to the configured
    file name under the download directory and returns that file's absolute
    path, which exists from then on. *)
Theorem resolve_writes_body (fs : FS) (d : list (string * PyVal))
    (local_path : option string) (body : string) :
  locate_on_disk abspath DOWNLOAD_DIR SYLLABUS_FILE_NAME (fs_exists fs) (fs_tree fs) (VDict d)
  = Returned local_path ->
  path_found local_path = false ->
  dict_get d "body" VNone = VStr body ->
  body <> ""%string ->
  nonempty (abspath (path_join DOWNLOAD_DIR SYLLABUS_FILE_NAME)) = true ->
  let outp := path_join DOWNLOAD_DIR SYLLABUS_FILE_NAME in
  resolve_local_path abspath DOWNLOAD_DIR SYLLABUS_FILE_NAME fs (VDict d)
  = (Returned (abspath outp), after_write abspath outp (fs_exists fs))
  /\ after_write abspath outp (fs_exists fs) outp = true
  /\ after_write abspath outp (fs_exists fs) (abspath outp) = true.
Proof.
  intros Hlocate Hnone Hbody Hne Hpath outp. subst outp.
  unfold resolve_local_path. rewrite Hlocate, Hnone, Hbody. cbn [negb andb truthy].
  destruct (String.eqb_spec body "") as [?|_]; [contradiction|]. cbn [negb].
  unfold body_path, after_write. rewrite !String.eqb_refl, Hpath.
  cbn [orb andb]. rewrite orb_true_r. repeat split.
Qed.

(** With nothing in the response to go by, an empty mapping or a value
    that is neither a mapping nor a list, and no candidate file under the
    download directory, the resolution ends the run. *)
Theorem resolve_nothing_found (fs : FS) (dl_data : PyVal) :
  dl_data = VDict [] \/ is_leaf dl_data = true ->
  no_candidate SYLLABUS_FILE_NAME (walk DOWNLOAD_DIR (fs_tree fs)) ->
  resolve_local_path abspath DOWNLOAD_DIR SYLLABUS_FILE_NAME fs dl_data
  = (Raised system_exit, fs_exists fs).
Proof.
  intros Hdata Hnone.
  assert (Hsweep : sweep_walk abspath SYLLABUS_FILE_NAME (walk DOWNLOAD_DIR (fs_tree fs)) None
                   = None).
  { revert Hnone. generalize (walk DOWNLOAD_DIR (fs_tree fs)).
    induction l as [|[[r dd] fs'] entries IH]; intros Hnone; [reflexivity|].
    cbn [sweep_walk]. rewrite sweep_files_no_candidate.
    - cbn [path_found]. apply IH. intros root dirs files fname Hin Hf.
      apply (Hnone root dirs files fname); [now right|exact Hf].
    - intros fname Hf. apply (Hnone r dd fs' fname); [now left|exact Hf]. }
  unfold resolve_local_path, locate_on_disk.
  rewrite (probe_keys_leaf abspath DOWNLOAD_DIR (fs_exists fs) dl_data Hdata).
  cbn [path_found negb].
  assert (Hsearch : search_dict_for_path abspath DOWNLOAD_DIR (fs_exists fs) dl_data = None).
  { destruct Hdata as [->|Hleaf]; [reflexivity|now apply search_leaf]. }
  rewrite Hsearch. cbn [path_found negb]. rewrite Hsweep.
  destruct Hdata as [->|Hleaf]; [reflexivity|].
  destruct dl_data; try discriminate; reflexivity.
Qed.

End ResolveOutcomes.

Lemma resolve_returns_existing_witness :
  sample_exists "/srv/downloads/syllabus.pdf" = true
  /\ nonempty "/srv/downloads/syllabus.pdf" = true.
Proof.
  apply (resolve_returns_existing abspath_of_absolute "/srv/downloads" "syllabus.pdf"
           sample_fs (VDict []) "/srv/downloads/syllabus.pdf" sample_exists).
  reflexivity.
Defined.

Lemma resolve_writes_body_witness :
  let outp := path_join "/srv/downloads" "syllabus.pdf" in
  resolve_local_path abspath_of_absolute "/srv/downloads" "syllabus.pdf" empty_fs
    (VDict [("body", VStr "%PDF-1.4")])
  = (Returned (abspath_of_absolute outp),
     after_write abspath_of_absolute outp (fs_exists empty_fs))
  /\ after_write abspath_of_absolute outp (fs_exists empty_fs) outp = true
  /\ after_write abspath_of_absolute outp (fs_exists empty_fs) (abspath_of_absolute outp)
     = true.
Proof.
  apply (resolve_writes_body abspath_of_absolute "/srv/downloads" "syllabus.pdf" empty_fs
           [("body", VStr "%PDF-1.4")] None "%PDF-1.4").
  - reflexivity.
  - reflexivity.
  - reflexivity.
  - discriminate.
  - reflexivity.
Defined.

Lemma resolve_nothing_found_witness :
  resolve_local_path abspath_of_absolute "/srv/downloads" "syllabus.pdf" empty_fs (VDict [])
  = (Raised system_exit, fs_exists empty_fs).
Proof.
  apply (resolve_nothing_found abspath_of_absolute "/srv/downloads" "syllabus.pdf" empty_fs
           (VDict [])).
  - now left.
  - intros root dirs files fname Hin Hf. simpl in Hin.
    destruct Hin as [Heq|[]]. injection Heq as <- <- <-. destruct Hf.
Defined.

(** The worked example of the design: no field names the file, and a PDF
    sits two directories down; the sweep finds it. *)
Example resolve_by_sweep :
  resolve_local_path abspath_of_absolute "/srv/downloads" "syllabus.pdf"
    (mkFS (fun p => String.eqb p "/srv/downloads/2024/spring/syllabus.pdf")
          (mkDir [] [("2024", mkDir ["notes.txt"] [("spring", mkDir ["syllabus.pdf"] [])])]))
    (VDict [("id", VStr "f1")])
  = (Returned "/srv/downloads/2024/spring/syllabus.pdf"%string,
     fun p => String.eqb p "/srv/downloads/2024/spring/syllabus.pdf").
Proof.
  reflexivity.
Qed.

(* ================================================================== *)
(** * Further properties of the per-lesson writes *)
(* ================================================================== *)

Lemma datetime_add_days_overflow (dt : datetime) (d : Z) :
  valid_datetime dt = true ->
  MAXORDINAL < ordinal dt + d ->
  datetime_add dt (mkTimedelta d 0 0) = Raised date_out_of_range.
Proof.
  intros Hvalid Hrange.
  apply valid_datetime_bounds in Hvalid as (_ & Hh & Hm & Hs & Hus).
  unfold datetime_add. cbn [days seconds microseconds]. rewrite !Z.add_0_r.
  rewrite (Z.div_small (microsecond dt)) by lia. rewrite Z.add_0_r.
  rewrite (Z.div_small (hour dt * 3600 + minute dt * 60 + second dt)), Z.add_0_r by lia.
  destruct (Z.leb_spec (ordinal dt + d) MAXORDINAL) as [?|_]; [lia|].
  now rewrite andb_false_r.
Qed.

(** Past 9999-12-31 a lesson gets no start: the addition of its weeks to a
    valid anchor raises [OverflowError]. *)
Lemma event_time_out_of_range (dt0 : datetime) (i : Z) :
  valid_datetime dt0 = true ->
  0 <= i ->
  MAXORDINAL < ordinal dt0 + 7 * i ->
  exists e, event_time dt0 i = Raised e /\ exc_kind e = OverflowError.
Proof.
  intros Hvalid Hi Hrange. unfold event_time, timedelta_weeks, make_timedelta.
  cbn [Z.div Z.modulo Z.div_eucl Z.add]. rewrite !Z.add_0_r.
  destruct (Z.abs (7 * i) >? MAX_DELTA_DAYS); [eexists; split; reflexivity|].
  rewrite datetime_add_days_overflow by assumption.
  eexists; split; reflexivity.
Qed.

Section InterruptedWrites.

Context {World : Type}.
Variable client : Invocation -> World -> Outcome PyVal * World.
Variable user_id : PyVal.

Hypothesis client_raises_exceptions :
  forall inv w e, fst (client inv w) = Raised e -> is_Exception e = true.

(** The calendar loop creates the events that fit and stops at the first
    lesson whose date does not. *)
Lemma calendar_loop_overflow (cfg : Config) (dt0 : datetime) (l : Lesson)
    (rest : list Lesson) :
  valid_datetime dt0 = true ->
  forall fitting i (st : St World),
    0 <= i ->
    ordinal dt0 + 7 * (i + Z.of_nat (List.length fitting)) - 7 <= MAXORDINAL ->
    MAXORDINAL < ordinal dt0 + 7 * (i + Z.of_nat (List.length fitting)) ->
    exists e st',
      calendar_loop client user_id cfg dt0 i (fitting ++ l :: rest) st = (Raised e, st')
      /\ exc_kind e = OverflowError
      /\ tool_log st' = tool_log st ++ calendar_writes cfg dt0 i fitting.
Proof.
  intros Hvalid.
  induction fitting as [|[title desc] fitting IH]; intros i st Hi Hfit Hover.
  - cbn [List.length Z.of_nat] in Hover. rewrite Z.add_0_r in Hover.
    destruct (event_time_out_of_range dt0 i Hvalid Hi Hover) as (e & He & Hkind).
    exists e, st. destruct l as [title desc].
    cbn [app calendar_loop calendar_writes]. unfold bind at 1, lift. rewrite He.
    rewrite app_nil_r. auto.
  - cbn [List.length] in Hfit, Hover.
    cbn [app calendar_loop calendar_writes fst snd].
    unfold bind at 1. unfold lift.
    rewrite event_time_in_range by (try exact Hvalid; lia).
    set (start_iso := isoformat (week_offset dt0 i)).
    unfold bind at 1. cbn [print].
    set (st0 := mkSt (world st) (calls st) (tool_log st) _).
    destruct (write_and_report client user_id client_raises_exceptions
                CALENDAR_CREATE_EVENT_SLUG
                (calendar_event_arguments (CALENDAR_ID cfg) start_iso (TIMEZONE cfg)
                   title desc)
                "Calendar create failed: " "   Event created." st0)
      as (st1 & Hstep & Hlog1).
    destruct (IH (i + 1) st1 ltac:(lia) ltac:(lia) ltac:(lia))
      as (e & st2 & Hrest & Hkind & Hlog2).
    exists e, st2. split; [|split; [exact Hkind|]].
    + unfold create_calendar_event.
      unfold bind at 1. unfold bind at 1 in Hstep.
      destruct (execute_tool client user_id _ _ st0) as [[r|e'] stx]; [|discriminate].
      unfold bind at 1. rewrite Hstep. exact Hrest.
    + rewrite Hlog2, Hlog1. subst st0. cbn [tool_log]. now rewrite <- app_assoc.
Qed.

Lemma notion_phase_all (cfg : Config) (lessons : list Lesson) (w : World) :
  exists st1,
    (match NOTION_DATABASE_ID cfg with
     | Some database_id =>
         if nonempty database_id
         then print (LogInfo "Creating Notion rows...") ;;;
              notion_loop client user_id database_id lessons
         else print (LogInfo "NOTION_DATABASE_ID not set; skipping Notion creation.")
     | None => print (LogInfo "NOTION_DATABASE_ID not set; skipping Notion creation.")
     end) (initial w) = (Returned tt, st1)
    /\ tool_log st1 = notion_writes cfg lessons.
Proof.
  unfold notion_writes. destruct (NOTION_DATABASE_ID cfg) as [database_id|].
  - destruct (nonempty database_id).
    + unfold bind at 1. cbn [print].
      destruct (notion_loop_all client user_id client_raises_exceptions database_id lessons
                  (mkSt w [] [] ([] ++ [LogInfo "Creating Notion rows..."])))
        as (st1 & Hrun & Hlog).
      exists st1. split; [exact Hrun|exact Hlog].
    + eexists. split; reflexivity.
  - eexists. split; reflexivity.
Qed.

End InterruptedWrites.

(** When the schedule runs past 9999-12-31, the run has by then inserted
    the row of every lesson and created the events of the lessons that fit;
    it raises [OverflowError] at the first lesson that does not, and the
    events of that lesson and of the later ones are never requested. *)
Theorem write_lessons_stops_at_overflow {World}
    (client : Invocation -> World -> Outcome PyVal * World)
    (user_id : PyVal) (cfg : Config) (start dt0 : datetime) (hh mm : Z)
    (fitting : list Lesson) (l : Lesson) (rest : list Lesson) (w : World) :
  (forall inv w' e, fst (client inv w') = Raised e -> is_Exception e = true) ->
  valid_datetime start = true ->
  replace_time start hh mm = Returned dt0 ->
  ordinal dt0 + 7 * Z.of_nat (List.length fitting) - 7 <= MAXORDINAL ->
  MAXORDINAL < ordinal dt0 + 7 * Z.of_nat (List.length fitting) ->
  exists e st',
    write_lessons client user_id cfg start hh mm (fitting ++ l :: rest) (initial w)
    = (Raised e, st')
    /\ exc_kind e = OverflowError
    /\ tool_log st'
       = notion_writes cfg (fitting ++ l :: rest) ++ calendar_writes cfg dt0 0 fitting.
Proof.
  intros Hclient Hvalid Hrep Hfit Hover.
  destruct (replace_time_valid start dt0 hh mm Hvalid Hrep) as [Hvalid0 _].
  unfold write_lessons.
  destruct (notion_phase_all client user_id Hclient cfg (fitting ++ l :: rest) w)
    as (st1 & Hrun1 & Hlog1).
  rewrite (bind_returned _ _ _ _ _ Hrun1).
  unfold bind at 1. unfold lift. rewrite Hrep.
  unfold bind at 1. cbn [print].
  set (st2 := mkSt (world st1) (calls st1) (tool_log st1) _).
  destruct (calendar_loop_overflow client user_id Hclient cfg dt0 l rest Hvalid0 fitting 0 st2
              ltac:(lia) ltac:(lia) ltac:(lia)) as (e & st3 & Hrun3 & Hkind & Hlog3).
  exists e, st3. split; [|split; [exact Hkind|]].
  - unfold bind at 1. now rewrite Hrun3.
  - rewrite Hlog3. subst st2. cbn [tool_log]. now rewrite Hlog1.
Qed.

Lemma write_lessons_stops_at_overflow_witness :
  exists e st',
    write_lessons rejecting (VStr "user") sample_config
      (mkDatetime (MAXORDINAL - 7) 0 0 0 0) 9 0
      ([("Week 1", "a"); ("Week 2", "b")] ++ ("Week 3", "c") :: [("Week 4", "d")])
      (initial tt)
    = (Raised e, st')
    /\ exc_kind e = OverflowError
    /\ tool_log st'
       = notion_writes sample_config
           ([("Week 1", "a"); ("Week 2", "b")] ++ ("Week 3", "c") :: [("Week 4", "d")])
         ++ calendar_writes sample_config (mkDatetime (MAXORDINAL - 7) 9 0 0 0) 0
              [("Week 1", "a"); ("Week 2", "b")].
Proof.
  apply (write_lessons_stops_at_overflow rejecting (VStr "user") sample_config
           (mkDatetime (MAXORDINAL - 7) 0 0 0 0) (mkDatetime (MAXORDINAL - 7) 9 0 0 0) 9 0
           [("Week 1", "a"); ("Week 2", "b")] ("Week 3", "c") [("Week 4", "d")] tt).
  - intros inv w' e He. unfold rejecting, returning in He. simpl in He. discriminate.
  - reflexivity.
  - reflexivity.
  - vm_compute. discriminate.
  - vm_compute. reflexivity.
Defined.

(** A start time that is no time of day is noticed late: the run first
    inserts the row of every lesson, then raises [ValueError], and no event
    is requested. *)
Theorem write_lessons_invalid_start_time {World}
    (client : Invocation -> World -> Outcome PyVal * World)
    (user_id : PyVal) (cfg : Config) (start : datetime) (hh mm : Z)
    (lessons : list Lesson) (w : World) :
  (forall inv w' e, fst (client inv w') = Raised e -> is_Exception e = true) ->
  ~ (0 <= hh < 24 /\ 0 <= mm < 60) ->
  exists e st',
    write_lessons client user_id cfg start hh mm lessons (initial w) = (Raised e, st')
    /\ exc_kind e = OtherException "ValueError"
    /\ tool_log st' = notion_writes cfg lessons.
Proof.
  intros Hclient Htime.
  assert (Hrep : exists e, replace_time start hh mm = Raised e
                           /\ exc_kind e = OtherException "ValueError").
  { unfold replace_time.
    destruct (Z.leb_spec 0 hh), (Z.ltb_spec hh 24); cbn [andb negb];
      try (eexists; split; reflexivity).
    destruct (Z.leb_spec 0 mm), (Z.ltb_spec mm 60); cbn [andb negb];
      try (eexists; split; reflexivity).
    exfalso. apply Htime. lia. }
  destruct Hrep as (e & Hrep & Hkind).
  unfold write_lessons.
  destruct (notion_phase_all client user_id Hclient cfg lessons w) as (st1 & Hrun1 & Hlog1).
  rewrite (bind_returned _ _ _ _ _ Hrun1).
  unfold bind at 1. unfold lift. rewrite Hrep.
  exists e, st1. auto.
Qed.

Lemma write_lessons_invalid_start_time_witness :
  exists e st',
    write_lessons rejecting (VStr "user") sample_config sample_start 24 0 two_lessons
      (initial tt) = (Raised e, st')
    /\ exc_kind e = OtherException "ValueError"
    /\ tool_log st' = notion_writes sample_config two_lessons.
Proof.
  apply (write_lessons_invalid_start_time rejecting (VStr "user") sample_config sample_start
           24 0 two_lessons tt).
  - intros inv w' e He. unfold rejecting, returning in He. simpl in He. discriminate.
  - lia.
Defined.

(* ================================================================== *)
(** * Properties of finding and downloading the syllabus *)
(* ================================================================== *)

Section FindProperties.

Context {World : Type}.
Variable client : Invocation -> World -> Outcome PyVal * World.
Variable user_id : PyVal.

(** A tool call whose first strategy returns: one invocation, one log
    entry, nothing printed. *)
Lemma execute_tool_first_returns (tool_slug : string) (arguments : PyVal)
    (st : St World) (resp : PyVal) :
  nth_error (replay client (forms user_id tool_slug arguments) (world st)) 0
  = Some (Returned resp) ->
  normalize_response resp = Returned (normalize resp) ->
  exists st',
    execute_tool client user_id tool_slug arguments st = (Returned (normalize resp), st')
    /\ tool_log st' = tool_log st ++ [(tool_slug, arguments)]
    /\ calls st' = calls st ++ firstn 1 (forms user_id tool_slug arguments)
    /\ out st' = out st
    /\ world st' = snd (client (hd (mkInvocation [] []) (forms user_id tool_slug arguments))
                          (world st)).
Proof.
  intros Hat Hread. rewrite execute_tool_eq. unfold forms in *.
  rewrite replay_cons in Hat. simpl in Hat. injection Hat as Hat.
  rewrite try_forms_cons. cbn [world calls tool_log out]. rewrite Hat.
  cbn [attempt]. rewrite Hread.
  eexists. split; [reflexivity|]. cbn. auto.
Qed.

(** A tool call whose first strategy fails for good. *)
Lemma execute_tool_first_fails (tool_slug : string) (arguments : PyVal)
    (st : St World) (o : Outcome PyVal) :
  nth_error (replay client (forms user_id tool_slug arguments) (world st)) 0 = Some o ->
  outcome_fails o ->
  exists r st',
    execute_tool client user_id tool_slug arguments st = (Returned r, st')
    /\ truthy (subscript r "ok") = false
    /\ tool_log st' = tool_log st ++ [(tool_slug, arguments)]
    /\ calls st' = calls st ++ firstn 1 (forms user_id tool_slug arguments).
Proof.
  intros Hat Hfails. destruct o as [resp|e].
  - destruct Hfails as [Hread Hok].
    destruct (execute_tool_first_returns tool_slug arguments st resp Hat Hread)
      as (st' & Hrun & Hlog & Hcalls & _).
    exists (normalize resp), st'. auto.
  - destruct Hfails as [Ht Hx].
    rewrite execute_tool_eq. unfold forms in *.
    rewrite replay_cons in Hat. simpl in Hat. injection Hat as Hat.
    rewrite try_forms_cons. cbn [world calls tool_log out].
    rewrite Hat. cbn [attempt]. rewrite Ht, Hx.
    eexists _, _. split; [reflexivity|]. cbn. auto.
Qed.

End FindProperties.

(** A find that does not succeed, because the remote call failed or
    because the response says so, ends the run with exit status 1 after
    that single tool call and a single invocation: no download is
    requested. *)
Theorem find_failure_stops_run {World}
    (client : Invocation -> World -> Outcome PyVal * World)
    (user_id : PyVal) (str_of : PyVal -> string) (name : string) (w : World)
    (o : Outcome PyVal) :
  nth_error (replay client (forms user_id FIND_FILE_SLUG (find_query name)) w) 0 = Some o ->
  outcome_fails o ->
  exists st',
    find_and_download client user_id str_of name (initial w) = (Raised system_exit, st')
    /\ tool_log st' = [(FIND_FILE_SLUG, find_query name)]
    /\ List.length (calls st') = 1%nat.
Proof.
  intros Hat Hfails. unfold find_and_download.
  unfold bind at 1. cbn [print initial world calls tool_log out].
  set (st0 := mkSt w [] [] _).
  destruct (execute_tool_first_fails client user_id FIND_FILE_SLUG (find_query name) st0 o
              Hat Hfails) as (r & st1 & Hrun & Hok & Hlog & Hcalls).
  fold (find_query name). rewrite (bind_returned _ _ _ _ _ Hrun). rewrite Hok. cbn [negb].
  eexists. split; [reflexivity|]. cbn [print tool_log calls].
  rewrite Hlog, Hcalls. subst st0. split; reflexivity.
Qed.

Lemma find_failure_stops_run_witness :
  exists st',
    find_and_download rejecting (VStr "user") sample_str "syllabus.pdf" (initial tt)
    = (Raised system_exit, st')
    /\ tool_log st' = [(FIND_FILE_SLUG, find_query "syllabus.pdf")]
    /\ List.length (calls st') = 1%nat.
Proof.
  apply (find_failure_stops_run rejecting (VStr "user") sample_str "syllabus.pdf" tt
           (Returned (VDict [("successful", VBool false); ("error", VStr "rejected")]))).
  - reflexivity.
  - split; reflexivity.
Defined.

(** A find that succeeds without naming a file, its data holding neither
    files nor items, ends the run with exit status 1: no download is
    requested. *)
Theorem find_without_files_stops_run {World}
    (client : Invocation -> World -> Outcome PyVal * World)
    (user_id : PyVal) (str_of : PyVal -> string) (name : string) (w : World)
    (resp : PyVal) :
  nth_error (replay client (forms user_id FIND_FILE_SLUG (find_query name)) w) 0
  = Some (Returned resp) ->
  truthy (subscript (normalize resp) "ok") = true ->
  truthy (files_of (py_or (subscript (normalize resp) "data") (VDict []))) = false ->
  exists st',
    find_and_download client user_id str_of name (initial w) = (Raised system_exit, st')
    /\ tool_log st' = [(FIND_FILE_SLUG, find_query name)].
Proof.
  intros Hat Hok Hfiles. unfold find_and_download.
  unfold bind at 1. cbn [print initial world calls tool_log out].
  set (st0 := mkSt w [] [] _).
  destruct (execute_tool_first_returns client user_id FIND_FILE_SLUG (find_query name) st0
              resp Hat (normalize_ok_readable resp Hok)) as (st1 & Hrun & Hlog & _).
  fold (find_query name). rewrite (bind_returned _ _ _ _ _ Hrun).
  rewrite Hok, Hfiles. cbn [negb].
  eexists. split; [reflexivity|]. cbn [print tool_log]. rewrite Hlog. reflexivity.
Qed.

Lemma find_without_files_stops_run_witness :
  exists st',
    find_and_download (returning (VDict [("data", VDict [("files", VList [])])]))
      (VStr "user") sample_str "syllabus.pdf" (initial tt)
    = (Raised system_exit, st')
    /\ tool_log st' = [(FIND_FILE_SLUG, find_query "syllabus.pdf")].
Proof.
  apply (find_without_files_stops_run
           (returning (VDict [("data", VDict [("files", VList [])])]))
           (VStr "user") sample_str "syllabus.pdf" tt
           (VDict [("data", VDict [("files", VList [])])])).
  - reflexivity.
  - reflexivity.
  - reflexivity.
Defined.

(** When the find succeeds and its files start with a mapping, only that
    first file is downloaded: the one download requested carries as
    [file_id] the first truthy value among the file's [id], [file_id] and
    [driveId], and [None] when the file has none of them.  The run then
    either hands over the download's data or exits. *)
Theorem find_then_download_first_file {World}
    (client : Invocation -> World -> Outcome PyVal * World)
    (user_id : PyVal) (str_of : PyVal -> string) (name : string) (w : World)
    (resp : PyVal) (meta : list (string * PyVal)) (others : list PyVal) :
  (forall inv w' e, fst (client inv w') = Raised e -> is_Exception e = true) ->
  nth_error (replay client (forms user_id FIND_FILE_SLUG (find_query name)) w) 0
  = Some (Returned resp) ->
  truthy (subscript (normalize resp) "ok") = true ->
  files_of (py_or (subscript (normalize resp) "data") (VDict []))
  = VList (VDict meta :: others) ->
  exists o st',
    find_and_download client user_id str_of name (initial w) = (o, st')
    /\ tool_log st'
       = [ (FIND_FILE_SLUG, find_query name);
           (DOWNLOAD_FILE_SLUG,
            VDict [("file_id",
                    py_or (dict_get meta "id" VNone)
                      (py_or (dict_get meta "file_id" VNone)
                         (dict_get meta "driveId" VNone)))]) ]
    /\ (o = Raised system_exit \/ exists dl_data, o = Returned dl_data).
Proof.
  intros Hclient Hat Hok Hfiles. unfold find_and_download.
  unfold bind at 1. cbn [print initial world calls tool_log out].
  set (st0 := mkSt w [] [] _).
  destruct (execute_tool_first_returns client user_id FIND_FILE_SLUG (find_query name) st0
              resp Hat (normalize_ok_readable resp Hok)) as (st1 & Hrun & Hlog1 & _).
  fold (find_query name). rewrite (bind_returned _ _ _ _ _ Hrun).
  rewrite Hok, Hfiles. cbn [negb truthy first_item].
  unfold bind at 1, lift at 1. cbv beta iota.
  unfold bind at 1, lift at 1. cbn [file_id_of]. cbv beta iota.
  unfold bind at 1. cbn [print]. cbv beta iota.
  unfold bind at 1. cbn [print]. cbv beta iota.
  set (file_id := py_or (dict_get meta "id" VNone) _).
  set (st2 := mkSt _ _ _ _).
  destruct (execute_tool_total client user_id DOWNLOAD_FILE_SLUG (VDict [("file_id", file_id)])
              st2 Hclient) as (r & st3 & Hrun3 & _ & Hlog3).
  rewrite (bind_returned _ _ _ _ _ Hrun3).
  assert (Hlog : tool_log st3
                 = [(FIND_FILE_SLUG, find_query name);
                    (DOWNLOAD_FILE_SLUG, VDict [("file_id", file_id)])]).
  { rewrite Hlog3. subst st2. cbn [tool_log]. rewrite Hlog1. reflexivity. }
  destruct (negb (truthy (subscript r "ok"))).
  - eexists _, _. split; [reflexivity|]. cbn [print tool_log]. split; [exact Hlog|now left].
  - eexists _, _. split; [reflexivity|]. split; [exact Hlog|right; eexists; reflexivity].
Qed.

Lemma find_then_download_first_file_witness :
  exists o st',
    find_and_download drive_stub (VStr "user") sample_str "syllabus.pdf" (initial tt) = (o, st')
    /\ tool_log st'
       = [ (FIND_FILE_SLUG, find_query "syllabus.pdf");
           (DOWNLOAD_FILE_SLUG,
            VDict [("file_id",
                    py_or (dict_get [("file_id", VStr "f1")] "id" VNone)
                      (py_or (dict_get [("file_id", VStr "f1")] "file_id" VNone)
                         (dict_get [("file_id", VStr "f1")] "driveId" VNone)))]) ]
    /\ (o = Raised system_exit \/ exists dl_data, o = Returned dl_data).
Proof.
  apply (find_then_download_first_file drive_stub (VStr "user") sample_str "syllabus.pdf" tt
           (VDict [("successful", VBool true);
                   ("data", VDict [("files", VList [VDict [("file_id", VStr "f1")];
                                                    VDict [("id", VStr "f2")]])])])
           [("file_id", VStr "f1")] [VDict [("id", VStr "f2")]]).
  - intros inv w' e He. unfold drive_stub in He.
    destruct (assoc "slug" (keywords inv)) as [[| | |s| | | |]|]; try discriminate.
    destruct (String.eqb s "GOOGLEDRIVE_FIND_FILE"); discriminate.
  - reflexivity.
  - reflexivity.
  - reflexivity.
Defined.

(* ================================================================== *)
(** * Properties of the run from the extracted text on *)
(* ================================================================== *)

(** A text that is empty or blank ends the run with exit status 1 before
    anything is written: no tool call is requested and the remote side is
    not invoked. *)
Theorem plan_blank_text_exits {World}
    (client : Invocation -> World -> Outcome PyVal * World)
    (user_id : PyVal) (cfg : Config) (start : datetime) (hh mm : Z) (text : string)
    (w : World) :
  blank text = true ->
  exists st',
    plan_and_write client user_id cfg start hh mm text (initial w) = (Raised system_exit, st')
    /\ tool_log st' = [] /\ calls st' = [].
Proof.
  intros Hblank. unfold plan_and_write.
  unfold bind at 1, lift at 1. unfold parse_lessons.
  rewrite (lines_of_blank text Hblank). cbn [header_lessons List.length scan].
  unfold fallback, split. rewrite (split_from_blank text Hblank).
  eexists. split; [reflexivity|]. split; reflexivity.
Qed.

Lemma plan_blank_text_exits_witness :
  exists st',
    plan_and_write rejecting (VStr "user") sample_config sample_start 9 0 (" " ++ newline)%string
      (initial tt) = (Raised system_exit, st')
    /\ tool_log st' = [] /\ calls st' = [].
Proof.
  apply (plan_blank_text_exits rejecting (VStr "user") sample_config sample_start 9 0
           (" " ++ newline)%string tt).
  reflexivity.
Defined.

Lemma calendar_writes_length (cfg : Config) (dt0 : datetime) :
  forall lessons i, List.length (calendar_writes cfg dt0 i lessons) = List.length lessons.
Proof.
  induction lessons as [|l lessons IH]; intros i; [reflexivity|].
  cbn. now rewrite IH.
Qed.

Lemma notion_writes_length (cfg : Config) (lessons : list Lesson) :
  (List.length (notion_writes cfg lessons) <= List.length lessons)%nat.
Proof.
  unfold notion_writes. destruct (NOTION_DATABASE_ID cfg) as [database_id|]; [|cbn; lia].
  destruct (nonempty database_id); [now rewrite length_map|cbn; lia].
Qed.

(** The two loops on lessons that all fit before 9999-12-31. *)
Lemma write_lessons_log {World}
    (client : Invocation -> World -> Outcome PyVal * World)
    (user_id : PyVal) (cfg : Config) (start dt0 : datetime) (hh mm : Z)
    (lessons : list Lesson) (st : St World) :
  (forall inv w' e, fst (client inv w') = Raised e -> is_Exception e = true) ->
  valid_datetime start = true ->
  replace_time start hh mm = Returned dt0 ->
  ordinal dt0 + 7 * (Z.of_nat (List.length lessons) - 1) <= MAXORDINAL ->
  exists st',
    write_lessons client user_id cfg start hh mm lessons st = (Returned tt, st')
    /\ tool_log st' = tool_log st ++ notion_writes cfg lessons ++ calendar_writes cfg dt0 0 lessons.
Proof.
  intros Hclient Hvalid Hrep Hmax.
  destruct (replace_time_valid start dt0 hh mm Hvalid Hrep) as [Hvalid0 _].
  unfold write_lessons.
  assert (Hnotion : exists st1,
             (match NOTION_DATABASE_ID cfg with
              | Some database_id =>
                  if nonempty database_id
                  then print (LogInfo "Creating Notion rows...") ;;;
                       notion_loop client user_id database_id lessons
                  else print (LogInfo "NOTION_DATABASE_ID not set; skipping Notion creation.")
              | None => print (LogInfo "NOTION_DATABASE_ID not set; skipping Notion creation.")
              end) st = (Returned tt, st1)
             /\ tool_log st1 = tool_log st ++ notion_writes cfg lessons).
  { unfold notion_writes. destruct (NOTION_DATABASE_ID cfg) as [database_id|].
    - destruct (nonempty database_id).
      + unfold bind at 1. cbn [print].
        destruct (notion_loop_all client user_id Hclient database_id lessons
                    (mkSt (world st) (calls st) (tool_log st)
                          (out st ++ [LogInfo "Creating Notion rows..."])))
          as (st1 & Hrun & Hlog).
        exists st1. split; [exact Hrun|exact Hlog].
      + eexists. split; [reflexivity|]. cbn. now rewrite app_nil_r.
    - eexists. split; [reflexivity|]. cbn. now rewrite app_nil_r. }
  destruct Hnotion as (st1 & Hrun1 & Hlog1).
  rewrite (bind_returned _ _ _ _ _ Hrun1).
  unfold bind at 1. unfold lift. rewrite Hrep.
  unfold bind at 1. cbn [print].
  set (st2 := mkSt (world st1) (calls st1) (tool_log st1) _).
  destruct (calendar_loop_all client user_id Hclient cfg dt0 Hvalid0 lessons 0 st2
              ltac:(lia) ltac:(lia)) as (st3 & Hrun3 & Hlog3).
  rewrite (bind_returned _ _ _ _ _ Hrun3).
  eexists. split; [reflexivity|].
  cbn [print tool_log]. rewrite Hlog3. subst st2. cbn [tool_log].
  now rewrite Hlog1, <- app_assoc.
Qed.

(** Whatever the text, a run whose anchor leaves room for twelve weekly
    dates either exits for want of lessons or completes; it requests at most
    twelve row insertions followed by at most twelve event creations, one of
    each per lesson parsed. *)
Theorem plan_and_write_bounded {World}
    (client : Invocation -> World -> Outcome PyVal * World)
    (user_id : PyVal) (cfg : Config) (start dt0 : datetime) (hh mm : Z) (text : string)
    (w : World) :
  (forall inv w' e, fst (client inv w') = Raised e -> is_Exception e = true) ->
  valid_datetime start = true ->
  replace_time start hh mm = Returned dt0 ->
  ordinal dt0 + 7 * 11 <= MAXORDINAL ->
  exists o st' lessons,
    plan_and_write client user_id cfg start hh mm text (initial w) = (o, st')
    /\ parse_lessons text MAX_LESSONS = Returned lessons
    /\ (List.length lessons <= 12)%nat
    /\ (o = Returned tt \/ (o = Raised system_exit /\ lessons = []))
    /\ tool_log st' = notion_writes cfg lessons ++ calendar_writes cfg dt0 0 lessons
    /\ (List.length (tool_log st') <= 24)%nat.
Proof.
  intros Hclient Hvalid Hrep Hmax. unfold plan_and_write.
  destruct (parse_lessons text MAX_LESSONS) as [lessons|e] eqn:Hparse.
  - assert (Hlen : Z.of_nat (List.length lessons) <= 12).
    { destruct (parse_lessons_sliced text MAX_LESSONS lessons Hparse) as [->|(found & ->)];
        [cbn; lia|now apply py_slice_prefix_length]. }
    unfold bind at 1, lift at 1. destruct lessons as [|l lessons].
    + eexists _, _, []. split; [reflexivity|]. split; [reflexivity|].
      split; [cbn; lia|]. split; [now right|].
      unfold notion_writes. cbn [print tool_log initial].
      destruct (NOTION_DATABASE_ID cfg) as [database_id|];
        [destruct (nonempty database_id)|]; split; solve [reflexivity | cbn; lia].
    + unfold bind at 1. cbn [print initial world calls tool_log out].
      set (st0 := mkSt w [] [] _).
      destruct (write_lessons_log client user_id cfg start dt0 hh mm (l :: lessons) st0
                  Hclient Hvalid Hrep ltac:(lia)) as (st' & Hrun & Hlog).
      exists (Returned tt), st', (l :: lessons).
      split; [exact Hrun|]. split; [reflexivity|]. split; [lia|]. split; [now left|].
      subst st0. cbn [tool_log app] in Hlog. split; [exact Hlog|].
      rewrite Hlog, length_app, calendar_writes_length.
      pose proof (notion_writes_length cfg (l :: lessons)). lia.
  - exfalso. unfold parse_lessons, fallback, MAX_LESSONS in Hparse.
    destruct (header_lessons (lines_of text)); [|discriminate].
    destruct (Z.of_nat (List.length (split text)) =? 0); discriminate.
Qed.

Lemma plan_and_write_bounded_witness :
  exists o st' lessons,
    plan_and_write rejecting (VStr "user") sample_config sample_start 9 0 sample_syllabus
      (initial tt) = (o, st')
    /\ parse_lessons sample_syllabus MAX_LESSONS = Returned lessons
    /\ (List.length lessons <= 12)%nat
    /\ (o = Returned tt \/ (o = Raised system_exit /\ lessons = []))
    /\ tool_log st'
       = notion_writes sample_config lessons
         ++ calendar_writes sample_config (mkDatetime 738893 9 0 0 0) 0 lessons
    /\ (List.length (tool_log st') <= 24)%nat.
Proof.
  apply (plan_and_write_bounded rejecting (VStr "user") sample_config sample_start
           (mkDatetime 738893 9 0 0 0) 9 0 sample_syllabus tt).
  - intros inv w' e He. unfold rejecting, returning in He. simpl in He. discriminate.
  - reflexivity.
  - reflexivity.
  - vm_compute. discriminate.
Defined.

(* ================================================================== *)
(** * Properties of the linked accounts *)
(* ================================================================== *)

Lemma dict_set_absent (d : list (string * PyVal)) (key : string) (v : PyVal) :
  assoc key d = None -> dict_set d key v = d ++ [(key, v)].
Proof.
  induction d as [|[k x] d IH]; intros Habsent; [reflexivity|].
  cbn in *. destruct (String.eqb key k); [discriminate|]. now rewrite IH.
Qed.

Section AccountsProperties.

Context {Linker : Type}.
Variable link_tool_and_wait : PyVal -> PyVal -> string -> Linker -> Outcome PyVal * Linker.
Variable user_id : PyVal.

(** A service that is in the connections already, or that has no auth
    configuration, is left alone. *)
Lemma link_service_skips (service friendly_name : string) (auth_config_id : PyVal)
    (d : list (string * PyVal)) (st : St (Accounts Linker)) :
  assoc service d <> None \/ truthy auth_config_id = false ->
  link_service link_tool_and_wait user_id service friendly_name auth_config_id (VDict d) st
  = (Returned (VDict d), st).
Proof.
  intros Hskip. unfold link_service. unfold bind at 1, lift at 1. cbn [py_in].
  destruct (assoc service d) as [x|].
  - reflexivity.
  - destruct Hskip as [?|Hid]; [congruence|]. now rewrite Hid.
Qed.

(** A service that is missing and configured is linked, stored and saved. *)
Lemma link_service_links (service friendly_name : string) (auth_config_id : PyVal)
    (d : list (string * PyVal)) (st : St (Accounts Linker)) (conn : PyVal) (l' : Linker) :
  assoc service d = None ->
  truthy auth_config_id = true ->
  link_tool_and_wait user_id auth_config_id friendly_name (linker (world st))
  = (Returned conn, l') ->
  link_service link_tool_and_wait user_id service friendly_name auth_config_id (VDict d) st
  = (Returned (VDict (d ++ [(service, conn)])),
     mkSt (mkAccounts l'
             (saved (world st) ++ [snapshot user_id (VDict (d ++ [(service, conn)]))])
             (asked (world st) ++ [friendly_name]))
          (calls st) (tool_log st) (out st)).
Proof.
  intros Habsent Hid Hlink. unfold link_service. unfold bind at 1, lift at 1. cbn [py_in].
  rewrite Habsent, Hid. cbn [negb andb].
  unfold bind at 1, call_link. rewrite Hlink.
  unfold bind at 1, lift at 1. cbn [py_setitem]. rewrite (dict_set_absent d service conn Habsent).
  reflexivity.
Qed.

End AccountsProperties.

(** When every service is in the loaded connections already or has no auth
    configuration, nothing is linked: the linking service is not called, and
    the connections file is written once, with the user and the connections
    as they were loaded.  The user is the loaded one, else the configured one,
    else the fresh identifier. *)
Theorem link_accounts_nothing_to_link {Linker}
    (link_tool_and_wait : PyVal -> PyVal -> string -> Linker -> Outcome PyVal * Linker)
    (ids : AuthConfig) (c d : list (string * PyVal)) (env_user_id : PyVal) (fresh : string)
    (l : Linker) :
  dict_get c "connections" (VDict []) = VDict d ->
  (assoc "google_drive" d <> None \/ truthy (GOOGLE_DRIVE_AUTH_CONFIG_ID ids) = false) ->
  (assoc "notion" d <> None \/ truthy (NOTION_AUTH_CONFIG_ID ids) = false) ->
  (assoc "google_calendar" d <> None \/ truthy (GOOGLE_CAL_AUTH_CONFIG_ID ids) = false) ->
  let user_id := py_or (dict_get c "user_id" VNone) (py_or env_user_id (VStr fresh)) in
  link_accounts link_tool_and_wait ids (Some (Returned (VDict c))) env_user_id fresh
    (no_accounts l)
  = (Returned user_id,
     mkSt (mkAccounts l [snapshot user_id (VDict d)] []) [] [] []).
Proof.
  intros Hconns Hdrive Hnotion Hcal user_id. unfold link_accounts.
  unfold bind at 1, lift at 1. rewrite Hconns. fold user_id.
  unfold bind at 1, exit_on_exception.
  unfold bind at 1. rewrite link_service_skips by exact Hdrive.
  unfold bind at 1. rewrite link_service_skips by exact Hnotion.
  rewrite link_service_skips by exact Hcal.
  reflexivity.
Qed.

Lemma link_accounts_nothing_to_link_witness :
  let user_id := py_or (dict_get [("user_id", VStr "u-1");
                                  ("connections",
                                   VDict [("google_drive", VStr "c1"); ("notion", VStr "c2")])]
                          "user_id" VNone)
                   (py_or (VStr "env-user") (VStr "fresh")) in
  link_accounts refusing (mkAuthConfig (VStr "ac_drive") (VStr "ac_notion") VNone)
    (Some (Returned partial_snapshot)) (VStr "env-user") "fresh" (no_accounts tt)
  = (Returned user_id,
     mkSt (mkAccounts tt
             [snapshot user_id (VDict [("google_drive", VStr "c1"); ("notion", VStr "c2")])] [])
          [] [] []).
Proof.
  apply (link_accounts_nothing_to_link refusing
           (mkAuthConfig (VStr "ac_drive") (VStr "ac_notion") VNone)
           [("user_id", VStr "u-1");
            ("connections", VDict [("google_drive", VStr "c1"); ("notion", VStr "c2")])]
           [("google_drive", VStr "c1"); ("notion", VStr "c2")]
           (VStr "env-user") "fresh" tt).
  - reflexivity.
  - left. discriminate.
  - left. discriminate.
  - right. reflexivity.
Defined.

(** When the first service to link fails with an exception, the run ends
    with exit status 1 at once: the later services are not asked for, and
    the connections file is not written, not even by the final save. *)
Theorem link_accounts_failure_exits {Linker}
    (link_tool_and_wait : PyVal -> PyVal -> string -> Linker -> Outcome PyVal * Linker)
    (ids : AuthConfig) (c d : list (string * PyVal)) (env_user_id : PyVal) (fresh : string)
    (l l' : Linker) (e : Exc) :
  dict_get c "connections" (VDict []) = VDict d ->
  assoc "google_drive" d = None ->
  truthy (GOOGLE_DRIVE_AUTH_CONFIG_ID ids) = true ->
  link_tool_and_wait
    (py_or (dict_get c "user_id" VNone) (py_or env_user_id (VStr fresh)))
    (GOOGLE_DRIVE_AUTH_CONFIG_ID ids) "Google Drive" l = (Raised e, l') ->
  is_Exception e = true ->
  link_accounts link_tool_and_wait ids (Some (Returned (VDict c))) env_user_id fresh
    (no_accounts l)
  = (Raised system_exit, mkSt (mkAccounts l' [] ["Google Drive"%string]) [] [] []).
Proof.
  intros Hconns Habsent Hid Hlink Hexc. unfold link_accounts.
  unfold bind at 1, lift at 1. rewrite Hconns.
  unfold bind at 1, exit_on_exception.
  unfold bind at 1. unfold link_service at 1.
  unfold bind at 1, lift at 1. cbn [py_in]. rewrite Habsent, Hid. cbn [negb andb].
  unfold bind at 1, call_link. cbn [no_accounts world linker]. rewrite Hlink, Hexc.
  reflexivity.
Qed.

Lemma link_accounts_failure_exits_witness :
  link_accounts refusing all_configured (Some (Returned (VDict []))) (VStr "env-user") "fresh"
    (no_accounts tt)
  = (Raised system_exit, mkSt (mkAccounts tt [] ["Google Drive"%string]) [] [] []).
Proof.
  apply (link_accounts_failure_exits refusing all_configured [] [] (VStr "env-user") "fresh"
           tt tt (mkExc (OtherException "RuntimeError") "Failed to start link flow" ""));
    reflexivity.
Defined.

(** On a first run, without connections file, with the three services
    configured and every link granted, the services are linked in the order
    Drive, Notion, Calendar; the connections file is written after each link
    with the connections gathered so far, and once more at the end. *)
Theorem link_accounts_first_run {Linker}
    (link_tool_and_wait : PyVal -> PyVal -> string -> Linker -> Outcome PyVal * Linker)
    (ids : AuthConfig) (env_user_id : PyVal) (fresh : string) (l : Linker) :
  (forall u a f l0, exists conn l1, link_tool_and_wait u a f l0 = (Returned conn, l1)) ->
  truthy (GOOGLE_DRIVE_AUTH_CONFIG_ID ids) = true ->
  truthy (NOTION_AUTH_CONFIG_ID ids) = true ->
  truthy (GOOGLE_CAL_AUTH_CONFIG_ID ids) = true ->
  let user_id := py_or env_user_id (VStr fresh) in
  exists c1 c2 c3 st',
    link_accounts link_tool_and_wait ids None env_user_id fresh (no_accounts l)
    = (Returned user_id, st')
    /\ asked (world st') = ["Google Drive"; "Notion"; "Google Calendar"]%string
    /\ saved (world st')
       = [ snapshot user_id (VDict [("google_drive", c1)]);
           snapshot user_id (VDict [("google_drive", c1); ("notion", c2)]);
           snapshot user_id
             (VDict [("google_drive", c1); ("notion", c2); ("google_calendar", c3)]);
           snapshot user_id
             (VDict [("google_drive", c1); ("notion", c2); ("google_calendar", c3)]) ].
Proof.
  intros Hlink Hdrive Hnotion Hcal user_id. unfold link_accounts.
  unfold bind at 1, lift at 1. cbn [dict_get assoc py_or truthy]. fold user_id.
  destruct (Hlink user_id (GOOGLE_DRIVE_AUTH_CONFIG_ID ids) "Google Drive"%string l)
    as (c1 & l1 & H1).
  destruct (Hlink user_id (NOTION_AUTH_CONFIG_ID ids) "Notion"%string l1) as (c2 & l2 & H2).
  destruct (Hlink user_id (GOOGLE_CAL_AUTH_CONFIG_ID ids) "Google Calendar"%string l2)
    as (c3 & l3 & H3).
  exists c1, c2, c3.
  unfold bind at 1, exit_on_exception.
  unfold bind at 1.
  rewrite (link_service_links link_tool_and_wait user_id "google_drive" "Google Drive"
             (GOOGLE_DRIVE_AUTH_CONFIG_ID ids) [] (no_accounts l) c1 l1 eq_refl Hdrive H1).
  unfold bind at 1. cbn [app no_accounts world saved asked calls tool_log out].
  set (d1 := [("google_drive"%string, c1)]).
  set (st1 := mkSt (mkAccounts l1 [snapshot user_id (VDict d1)] ["Google Drive"%string])
                   [] [] []).
  rewrite (link_service_links link_tool_and_wait user_id "notion" "Notion"
             (NOTION_AUTH_CONFIG_ID ids) d1 st1 c2 l2 eq_refl Hnotion H2).
  cbn [app world saved asked calls tool_log out st1].
  set (d2 := d1 ++ [("notion"%string, c2)]).
  set (st2 := mkSt (mkAccounts l2 _ _) [] [] []).
  rewrite (link_service_links link_tool_and_wait user_id "google_calendar" "Google Calendar"
             (GOOGLE_CAL_AUTH_CONFIG_ID ids) d2 st2 c3 l3 eq_refl Hcal H3).
  eexists. split; [reflexivity|]. split; reflexivity.
Qed.

Lemma link_accounts_first_run_witness :
  let user_id := py_or VNone (VStr "fresh") in
  exists c1 c2 c3 st',
    link_accounts granting all_configured None VNone "fresh" (no_accounts tt)
    = (Returned user_id, st')
    /\ asked (world st') = ["Google Drive"; "Notion"; "Google Calendar"]%string
    /\ saved (world st')
       = [ snapshot user_id (VDict [("google_drive", c1)]);
           snapshot user_id (VDict [("google_drive", c1); ("notion", c2)]);
           snapshot user_id
             (VDict [("google_drive", c1); ("notion", c2); ("google_calendar", c3)]);
           snapshot user_id
             (VDict [("google_drive", c1); ("notion", c2); ("google_calendar", c3)]) ].
Proof.
  apply (link_accounts_first_run granting all_configured VNone "fresh" tt).
  - intros u a f l0. eexists _, _. reflexivity.
  - reflexivity.
  - reflexivity.
  - reflexivity.
Defined.
